(** * cnlpt.models.cnlp: the multi-task head of the CNLP transformer model

    A shallow embedding of [src/cnlpt/models/cnlp.py]: the encoder-argument
    filter, the representation projection layer, the classification head, the
    cross-task fan-in, the per-task loss and the orchestrating forward pass,
    the fine-tuning controls and the encoder attributes of the config; and of
    the string and device helpers of [src/cnlpt/api/utils.py].

    Conventions.
    - A [torch.Tensor] is a shape together with an indexing function; strides
      and storage are not modelled.  Only the entries inside the shape are
      meaningful.
    - Python exceptions are values of [exn]; fallible code lives in [result].
    - [logger.warning] calls are collected, in order, as a list of [warning].
    - Scalars are abstract ([Arith], [Elementary]); the real numbers and the
      binary64 floats are two instances.  Python floats that are not tensor
      entries (a dropout probability, the freeze proportion) are binary64
      floats. *)

From Stdlib Require Import ZArith List Reals Lra Lia Floats.
From stdpp Require Import gmap strings list pretty.

Set Default Proof Using "Type".
Open Scope nat_scope.

(** ** Exceptions and fallible computations *)

Inductive exn : Type :=
  | Exception (msg : string)
  | ValueError (msg : string)
  | NotImplementedError (msg : string)
  | IndexError
  | KeyError (key : string)
  | AttributeError
  | TypeError
  | RuntimeError
  (** unpacking a tuple of the wrong length *)
  | ValueError_unpack
  (** "dropout probability has to be between 0 and 1, but got {p}" *)
  | ValueError_dropout (p : float).

Inductive result (A : Type) : Type :=
  | Ok (a : A)
  | Raise (e : exn).
Arguments Ok {A} a.
Arguments Raise {A} e.

#[global] Instance result_ret : MRet result := fun A a => Ok a.
#[global] Instance result_bind : MBind result := fun A B f m =>
  match m with
  | Ok a => f a
  | Raise e => Raise e
  end.
#[global] Instance result_fmap : FMap result := fun A B f m =>
  match m with
  | Ok a => Ok (f a)
  | Raise e => Raise e
  end.

Definition is_ok {A} (r : result A) : bool :=
  match r with Ok _ => true | Raise _ => false end.

(** [x.attr] where [x] may be [None]. *)
Definition not_none {A} (x : option A) : result A :=
  match x with
  | Some a => Ok a
  | None => Raise AttributeError
  end.

(** [d[key]] on a Python dict. *)
Definition getitem_dict {A} (d : gmap string A) (key : string) : result A :=
  match d !! key with
  | Some a => Ok a
  | None => Raise (KeyError key)
  end.

(** [xs[i]] on a Python tuple or list: a negative index counts from the end. *)
Definition getitem_seq {A} (xs : list A) (i : Z) : result A :=
  let n := Z.of_nat (length xs) in
  let j := if (i <? 0)%Z then (i + n)%Z else i in
  if ((0 <=? j)%Z && (j <? n)%Z)%bool
  then match xs !! Z.to_nat j with
       | Some a => Ok a
       | None => Raise IndexError
       end
  else Raise IndexError.

(** [sub in s] on Python strings. *)
Fixpoint contains (sub s : string) : bool :=
  if String.prefix sub s then true
  else match s with
       | EmptyString => false
       | String _ rest => contains sub rest
       end.

Definition double_quote : string := String (Ascii.ascii_of_nat 34) EmptyString.

(** ** Diagnostics emitted through [logger.warning] *)

Inductive warning : Type :=
  (** "Parameter {name} not present for encoder class {cls}." *)
  | ParameterNotPresent (name cls : string)
  (** "It is not implemented to add a task of shape {shape} to a relation matrix" *)
  | PriorShapeNotImplemented (shape : list nat)
  (** "It is not implemented to add previous task of any type to a sequence task" *)
  | PriorOnSequenceNotImplemented.

(** Computations that may log warnings before they return or raise. *)
Record logged (A : Type) : Type := Logged {
  log : list warning;
  outcome : result A
}.
Arguments Logged {A} log outcome.
Arguments log {A} l.
Arguments outcome {A} l.

#[global] Instance logged_ret : MRet logged := fun A a => Logged [] (Ok a).
#[global] Instance logged_bind : MBind logged := fun A B f m =>
  match outcome m with
  | Ok a => let r := f a in Logged (log m ++ log r) (outcome r)
  | Raise e => Logged (log m) (Raise e)
  end.

Definition warn (w : warning) : logged unit := Logged [w] (Ok tt).
Definition lift {A} (r : result A) : logged A := Logged [] r.

(** ** Scalars *)

Class Arith (F : Type) : Type := {
  fzero : F;
  fone : F;
  fadd : F -> F -> F;
  fsub : F -> F -> F;
  fmul : F -> F -> F;
  fdiv : F -> F -> F;
  of_nat : nat -> F
}.

Class Elementary (F : Type) : Type := {
  fsqrt : F -> F;
  ftanh : F -> F
}.

#[global] Instance nat_arith : Arith nat := {|
  fzero := 0; fone := 1; fadd := Nat.add; fsub := Nat.sub;
  fmul := Nat.mul; fdiv := Nat.div; of_nat := fun n => n |}.

#[global] Instance R_arith : Arith R := {|
  fzero := 0%R; fone := 1%R; fadd := Rplus; fsub := Rminus;
  fmul := Rmult; fdiv := Rdiv; of_nat := INR |}.

#[global] Instance R_elementary : Elementary R := {|
  fsqrt := R_sqrt.sqrt; ftanh := Rtrigo_def.tanh |}.

Fixpoint float_of_nat (n : nat) : float :=
  match n with
  | O => 0%float
  | S k => PrimFloat.add (float_of_nat k) 1%float
  end.

#[global] Instance float_arith : Arith float := {|
  fzero := 0%float; fone := 1%float; fadd := PrimFloat.add;
  fsub := PrimFloat.sub; fmul := PrimFloat.mul; fdiv := PrimFloat.div;
  of_nat := float_of_nat |}.

(** A Python float as a scalar of the tensor's element type. *)
Class FromFloat (F : Type) : Type := of_float : float -> F.

(** The real number a binary64 float stands for; the infinities and NaN
    stand for none and are sent to 0. *)
Definition float_to_R (x : float) : R :=
  match Prim2SF x with
  | S754_finite sign m e =>
      ((if sign then -1 else 1) * IZR (Z.pos m) * powerRZ 2 e)%R
  | _ => 0%R
  end.

#[global] Instance float_from_float : FromFloat float := fun x => x.
#[global] Instance R_from_float : FromFloat R := float_to_R.

(** Left-to-right sum of [f 0 .. f (n-1)]. *)
Definition fsum {F} `{Arith F} (n : nat) (f : nat -> F) : F :=
  fold_left (fun acc k => fadd acc (f k)) (seq 0 n) fzero.

(** ** Tensors *)

Record tensor (A : Type) : Type := Tensor {
  shape : list nat;
  data : list nat -> A
}.
Arguments Tensor {A} shape data.
Arguments shape {A} t.
Arguments data {A} t idx.

Definition ndim {A} (t : tensor A) : nat := length (shape t).
Definition numel {A} (t : tensor A) : nat := fold_right Nat.mul 1 (shape t).

(** [t.shape[d]] *)
Definition size {A} (t : tensor A) (d : nat) : result nat :=
  match shape t !! d with
  | Some n => Ok n
  | None => Raise IndexError
  end.

(** All indices of a shape, in row-major order, and the entries of a tensor
    in that order (what [t.flatten().tolist()] shows). *)
Fixpoint indices (shp : list nat) : list (list nat) :=
  match shp with
  | [] => [[]]
  | n :: rest => flat_map (fun i => map (cons i) (indices rest)) (seq 0 n)
  end.

Definition entries {A} (t : tensor A) : list A := map (data t) (indices (shape t)).

Definition in_bounds (shp idx : list nat) : Prop := Forall2 lt idx shp.

(** Row-major position of an index, and its inverse. *)
Fixpoint ravel (shp idx : list nat) : nat :=
  match shp, idx with
  | n :: shp', i :: idx' => i * fold_right Nat.mul 1 shp' + ravel shp' idx'
  | _, _ => 0
  end.

Fixpoint unravel (shp : list nat) (k : nat) : list nat :=
  match shp with
  | [] => []
  | n :: shp' =>
      let m := fold_right Nat.mul 1 shp' in
      (k / m) :: unravel shp' (k mod m)
  end.

Definition insert_at {A} (d : nat) (x : A) (l : list A) : list A :=
  take d l ++ x :: drop d l.

Definition remove_at {A} (d : nat) (l : list A) : list A :=
  take d l ++ drop (S d) l.

Definition of_list1 {A} (dflt : A) (l : list A) : tensor A :=
  Tensor [length l] (fun idx => nth (nth 0 idx 0) l dflt).

Definition of_list2 {A} (dflt : A) (l : list (list A)) : tensor A :=
  Tensor [length l; length (nth 0 l [])]
         (fun idx => nth (nth 1 idx 0) (nth (nth 0 idx 0) l []) dflt).

Definition of_list3 {A} (dflt : A) (l : list (list (list A))) : tensor A :=
  Tensor [length l; length (nth 0 l []); length (nth 0 (nth 0 l []) [])]
         (fun idx => nth (nth 2 idx 0)
                       (nth (nth 1 idx 0) (nth (nth 0 idx 0) l []) []) dflt).

Definition of_list4 {A} (dflt : A) (l : list (list (list (list A)))) : tensor A :=
  Tensor [length l; length (nth 0 l []); length (nth 0 (nth 0 l []) []);
          length (nth 0 (nth 0 (nth 0 l []) []) [])]
         (fun idx => nth (nth 3 idx 0)
                       (nth (nth 2 idx 0)
                          (nth (nth 1 idx 0) (nth (nth 0 idx 0) l []) []) []) dflt).

(** ** The tensor operations of torch that the model calls

    Each operation raises where torch raises on the shapes it is given. *)

Module torch.

Section Ops.
Context {A : Type}.

(** [t.unsqueeze(d)] for a non-negative [d]. *)
Definition unsqueeze (d : nat) (t : tensor A) : result (tensor A) :=
  if d <=? ndim t
  then Ok (Tensor (insert_at d 1 (shape t)) (fun idx => data t (remove_at d idx)))
  else Raise IndexError.

(** [t.repeat(reps...)]: the tensor is tiled [reps[k]] times along axis [k];
    missing leading axes are added with size 1. *)
Definition repeat (reps : list nat) (t : tensor A) : result (tensor A) :=
  if length reps <? ndim t then Raise RuntimeError
  else
    let extra := length reps - ndim t in
    let shp := replicate extra 1 ++ shape t in
    Ok (Tensor (zip_with Nat.mul shp reps)
               (fun idx => data t (drop extra (zip_with Nat.modulo idx shp)))).

(** Do two shapes agree on every axis but [d]? *)
Definition shapes_agree_except (d : nat) (s1 s2 : list nat) : bool :=
  (length s1 =? length s2) &&
  forallb (fun k => (k =? d) || (nth k s1 0 =? nth k s2 0)) (seq 0 (length s1)).

(** [torch.cat((a, b), d)] *)
Definition cat (a b : tensor A) (d : nat) : result (tensor A) :=
  if (d <? ndim a) && shapes_agree_except d (shape a) (shape b)
  then
    let na := nth d (shape a) 0 in
    Ok (Tensor (<[d := na + nth d (shape b) 0]> (shape a))
               (fun idx =>
                  let i := nth d idx 0 in
                  if i <? na then data a idx
                  else data b (<[d := i - na]> idx)))
  else Raise RuntimeError.

(** [t.expand(sizes...)]: an axis of size 1 is stretched, any other axis must
    already have the requested size; missing leading axes are added. *)
Definition expandable (shp sizes : list nat) : bool :=
  (length shp <=? length sizes) &&
  forallb (fun p => (fst p =? snd p) || (fst p =? 1))
          (zip shp (drop (length sizes - length shp) sizes)).

Definition broadcast_index (shp idx : list nat) : list nat :=
  zip_with (fun i d => if d =? 1 then 0 else i)
           (drop (length idx - length shp) idx) shp.

Definition expand (sizes : list nat) (t : tensor A) : result (tensor A) :=
  if expandable (shape t) sizes
  then Ok (Tensor sizes (fun idx => data t (broadcast_index (shape t) idx)))
  else Raise RuntimeError.

(** Basic indexing [t[i0, i1, ...]] with full slices [:], integers and
    ranges [lo:hi]. *)
Inductive index : Type :=
  | All
  | At (i : nat)
  | Slice (lo hi : nat).

Fixpoint index_map (spec : list index) (shp : list nat)
  : result (list nat * (list nat -> list nat)) :=
  match spec, shp with
  | [], _ => Ok (shp, fun idx => idx)
  | _ :: _, [] => Raise IndexError
  | All :: spec', n :: shp' =>
      '(s, f) ← index_map spec' shp';
      Ok (n :: s, fun idx => hd 0 idx :: f (tl idx))
  | At i :: spec', n :: shp' =>
      if i <? n
      then '(s, f) ← index_map spec' shp'; Ok (s, fun idx => i :: f idx)
      else Raise IndexError
  | Slice lo hi :: spec', n :: shp' =>
      let lo' := Nat.min lo n in
      let hi' := Nat.min hi n in
      '(s, f) ← index_map spec' shp';
      Ok ((hi' - lo') :: s, fun idx => (lo' + hd 0 idx) :: f (tl idx))
  end.

Definition getitem (t : tensor A) (spec : list index) : result (tensor A) :=
  '(s, f) ← index_map spec (shape t);
  Ok (Tensor s (fun idx => data t (f idx))).

(** [t[..., 0, :]] *)
Definition getitem_ellipsis_0_all (t : tensor A) : result (tensor A) :=
  if 2 <=? ndim t
  then getitem t (replicate (ndim t - 2) All ++ [At 0; All])
  else Raise IndexError.

(** [t.reshape(new_shape)] and the two uses of [view] with an inferred
    axis. *)
Definition reshape (new_shape : list nat) (t : tensor A) : result (tensor A) :=
  if fold_right Nat.mul 1 new_shape =? numel t
  then Ok (Tensor new_shape
                  (fun idx => data t (unravel (shape t) (ravel new_shape idx))))
  else Raise RuntimeError.

(** [t.view(-1)] *)
Definition view_flat (t : tensor A) : result (tensor A) :=
  reshape [numel t] t.

(** [t.view(-1, n)] *)
Definition view_rows (n : nat) (t : tensor A) : result (tensor A) :=
  if n =? 0 then Raise RuntimeError
  else if numel t mod n =? 0 then reshape [numel t / n; n] t
  else Raise RuntimeError.

(** [t.permute(dims...)] *)
Fixpoint position (k : nat) (dims : list nat) : nat :=
  match dims with
  | [] => 0
  | d :: rest => if d =? k then 0 else S (position k rest)
  end.

Definition is_permutation (dims : list nat) (n : nat) : bool :=
  (length dims =? n) &&
  forallb (fun k => existsb (Nat.eqb k) dims) (seq 0 n).

Definition permute (dims : list nat) (t : tensor A) : result (tensor A) :=
  if is_permutation dims (ndim t)
  then Ok (Tensor (map (fun k => nth k (shape t) 0) dims)
                  (fun idx => data t (map (fun k => nth (position k dims) idx 0)
                                          (seq 0 (ndim t)))))
  else Raise RuntimeError.

(** [t.transpose(-1, -2)] *)
Definition transpose_last2 (t : tensor A) : result (tensor A) :=
  let n := ndim t in
  if 2 <=? n
  then permute (seq 0 (n - 2) ++ [n - 1; n - 2]) t
  else Raise IndexError.

Definition map_entries {B} (f : A -> B) (t : tensor A) : tensor B :=
  Tensor (shape t) (fun idx => f (data t idx)).
End Ops.

Section Numeric.
Context {F : Type} `{Arith F}.

(** Shapes aligned from the right; an axis of size 1 stretches. *)
Fixpoint broadcast_rev (r1 r2 : list nat) : option (list nat) :=
  match r1, r2 with
  | [], r => Some r
  | r, [] => Some r
  | a :: r1', b :: r2' =>
      if (a =? b) || (b =? 1) then cons a <$> broadcast_rev r1' r2'
      else if a =? 1 then cons b <$> broadcast_rev r1' r2'
      else None
  end.

Definition broadcast_shapes (s1 s2 : list nat) : option (list nat) :=
  reverse <$> broadcast_rev (reverse s1) (reverse s2).

Definition pointwise (op : F -> F -> F) (a b : tensor F) : result (tensor F) :=
  match broadcast_shapes (shape a) (shape b) with
  | Some s =>
      Ok (Tensor s (fun idx => op (data a (broadcast_index (shape a) idx))
                                  (data b (broadcast_index (shape b) idx))))
  | None => Raise RuntimeError
  end.

(** [a * b] and [a / b] *)
Definition mul := pointwise fmul.
Definition div := pointwise fdiv.

(** [t / c] for a Python number [c] *)
Definition div_scalar (t : tensor F) (c : F) : tensor F :=
  map_entries (fun x => fdiv x c) t.

(** [t.sum(d)] *)
Definition sum (d : nat) (t : tensor F) : result (tensor F) :=
  match shape t !! d with
  | Some n =>
      Ok (Tensor (remove_at d (shape t))
                 (fun idx => fsum n (fun k => data t (insert_at d k idx))))
  | None => Raise IndexError
  end.

(** [torch.matmul(a, b)] for two tensors of the same rank (at least 2) and
    the same batch axes.  Both operands of the one call in the model come
    from the same hidden states, so no batch broadcasting is involved. *)
Definition matmul (a b : tensor F) : result (tensor F) :=
  let n := ndim a in
  if (2 <=? n) && (ndim b =? n)
     && bool_decide (take (n - 2) (shape a) = take (n - 2) (shape b))
     && (nth (n - 1) (shape a) 0 =? nth (n - 2) (shape b) 0)
  then
    let inner := nth (n - 1) (shape a) 0 in
    Ok (Tensor (take (n - 1) (shape a) ++ [nth (n - 1) (shape b) 0])
               (fun idx =>
                  let batch := take (n - 2) idx in
                  let i := nth (n - 2) idx 0 in
                  let j := nth (n - 1) idx 0 in
                  fsum inner (fun k => fmul (data a (batch ++ [i; k]))
                                            (data b (batch ++ [k; j])))))
  else Raise RuntimeError.
End Numeric.

Definition tanh {F} `{Elementary F} (t : tensor F) : tensor F :=
  map_entries ftanh t.

End torch.

(** ** [generalize_encoder_forward_kwargs]

    [params] is the set of names in [inspect.signature(encoder.forward)],
    [kwargs] the keyword bag in the order of [kwargs.items()]; a value is
    [None] or some Python value. *)

Section EncoderAdapter.
Context {V : Type}.

Definition generalize_step (cls : string) (params : gset string)
    (acc : gmap string (option V) * list warning) (item : string * option V)
  : gmap string (option V) * list warning :=
  let '(new_kwargs, warnings) := acc in
  let '(name, value) := item in
  if bool_decide (name ∉ params) && bool_decide (value ≠ None)
  then (new_kwargs, warnings ++ [ParameterNotPresent name cls])
  else if bool_decide (name ∈ params)
  then (<[name := value]> new_kwargs, warnings)
  else (new_kwargs, warnings).

Definition generalize_encoder_forward_kwargs (cls : string)
    (params : gset string) (kwargs : list (string * option V))
  : gmap string (option V) * list warning :=
  fold_left (generalize_step cls params) kwargs (∅, []).
End EncoderAdapter.

(** ** Layers of [torch.nn]

    Sizes (hidden size, head size, label counts) are natural numbers and the
    dropout probability is taken to be a probability, so the constructors of
    [nn.Dropout], [nn.Linear] and [nn.Identity] always succeed; the random
    initial weights and the dropout draws are read from a [Randomness]. *)

Section Layers.
Context {F : Type} `{Arith F} `{Elementary F} `{FromFloat F}.

(** [nn.Dropout(p)]: in training mode an entry is kept and rescaled by
    [1 / (1 - p)] or zeroed; [keep] is the random draw of the call.  In
    evaluation mode the layer is the identity. *)
Record Dropout : Type := {
  p : F;
  keep : list nat -> bool
}.

Definition Dropout_forward (self : Dropout) (training : bool) (x : tensor F)
  : tensor F :=
  if training
  then Tensor (shape x)
              (fun idx => if keep self idx
                          then fdiv (data x idx) (fsub fone (p self))
                          else fzero)
  else x.

(** [nn.Linear(in_features, out_features)]: [weight] has shape
    [out_features; in_features], [bias] has shape [out_features]. *)
Record Linear : Type := {
  in_features : nat;
  out_features : nat;
  weight : list nat -> F;
  bias : list nat -> F
}.

Definition Linear_forward (self : Linear) (x : tensor F) : result (tensor F) :=
  let n := ndim x in
  if (1 <=? n) && (nth (n - 1) (shape x) 0 =? in_features self)
  then Ok (Tensor (take (n - 1) (shape x) ++ [out_features self])
                  (fun idx =>
                     let o := nth (n - 1) idx 0 in
                     fadd (fsum (in_features self)
                             (fun k => fmul (data x (take (n - 1) idx ++ [k]))
                                            (weight self [o; k])))
                          (bias self [o])))
  else Raise RuntimeError.

(** The [dense] attribute is either [nn.Identity()] or an [nn.Linear]. *)
Inductive Dense : Type :=
  | Identity
  | DenseLinear (l : Linear).

Definition Dense_forward (self : Dense) (x : tensor F) : result (tensor F) :=
  match self with
  | Identity => Ok x
  | DenseLinear l => Linear_forward l x
  end.

(** The random state a constructor draws from: initial values of the named
    parameters and the dropout draws. *)
Record Randomness : Type := {
  init_param : string -> list nat -> F;
  draw : string -> list nat -> bool
}.

Definition new_Linear (rnd : Randomness) (name : string) (n_in n_out : nat)
  : Linear :=
  {| in_features := n_in; out_features := n_out;
     weight := init_param rnd (name +:+ ".weight");
     bias := init_param rnd (name +:+ ".bias") |}.

(** [nn.Dropout(p)]: the constructor refuses a probability below 0 or
    above 1 (a NaN passes both comparisons). *)
Definition new_Dropout (rnd : Randomness) (name : string) (prob : float)
  : result Dropout :=
  if PrimFloat.ltb prob 0%float || PrimFloat.ltb 1%float prob
  then Raise (ValueError_dropout prob)
  else Ok {| p := of_float prob; keep := draw rnd name |}.

(** *** [ClassificationHead] *)

Record ClassificationHead : Type := {
  head_dropout : Dropout;
  out_proj : Linear
}.

(** [ClassificationHead.__init__(config, num_labels, hidden_size=-1)];
    of [config] only [hidden_dropout_prob] and [hidden_size] are read. *)
Definition ClassificationHead_init (rnd : Randomness) (name : string)
    (hidden_dropout_prob : float) (config_hidden_size : nat)
    (num_labels : nat) (hidden_size : Z) : result ClassificationHead :=
  dropout ← new_Dropout rnd (name +:+ ".dropout") hidden_dropout_prob;
  Ok {| head_dropout := dropout;
        out_proj := new_Linear rnd (name +:+ ".out_proj")
                      (if (hidden_size <? 0)%Z then config_hidden_size
                       else Z.to_nat hidden_size)
                      num_labels |}.

Definition ClassificationHead_forward (self : ClassificationHead)
    (training : bool) (features : tensor F) : result (tensor F) :=
  let x := Dropout_forward (head_dropout self) training features in
  Linear_forward (out_proj self) x.

(** *** [RepresentationProjectionLayer] *)

Record RepresentationProjectionLayer : Type := {
  dropout : Dropout;
  dense : Dense;
  layer_to_use : Z;
  tokens : bool;
  tagger : bool;
  relations : bool;
  hidden_size : nat;
  (** the next five attributes exist only in relation mode *)
  num_attention_heads : option nat;
  attention_head_size : option nat;
  all_head_size : option nat;
  query : option Linear;
  key : option Linear
}.

Definition inconsistent_heads : string :=
  "Inconsistent configuration: num_attention_heads must be > 0 for relations".
Definition inconsistent_tokens : string :=
  "Inconsistent configuration: tokens cannot be true in tagger or relation mode".

(** [RepresentationProjectionLayer.__init__]. *)
Definition RepresentationProjectionLayer_init (rnd : Randomness) (name : string)
    (hidden_dropout_prob : float) (config_hidden_size : nat)
    (layer : Z) (tokens tagger relations : bool)
    (num_attention_heads : Z) (head_size : nat)
  : result RepresentationProjectionLayer :=
  dropout ← new_Dropout rnd (name +:+ ".dropout") hidden_dropout_prob;
  let dense :=
    if relations then Identity
    else DenseLinear (new_Linear rnd (name +:+ ".dense")
                        config_hidden_size config_hidden_size) in
  if (num_attention_heads <=? 0)%Z && relations
  then Raise (Exception inconsistent_heads)
  else
    let heads := Z.to_nat num_attention_heads in
    let all_head := heads * head_size in
    if tokens && (tagger || relations)
    then Raise (Exception inconsistent_tokens)
    else Ok {|
      dropout := dropout;
      dense := dense;
      layer_to_use := layer;
      tokens := tokens;
      tagger := tagger;
      relations := relations;
      hidden_size := config_hidden_size;
      num_attention_heads := if relations then Some heads else None;
      attention_head_size := if relations then Some head_size else None;
      all_head_size := if relations then Some all_head else None;
      query := if relations
               then Some (new_Linear rnd (name +:+ ".query")
                            config_hidden_size all_head)
               else None;
      key := if relations
             then Some (new_Linear rnd (name +:+ ".key")
                          config_hidden_size all_head)
             else None
    |}.

(** [transpose_for_scores]: [(batch, seq, all_head)] becomes
    [(batch, n_heads, seq, head_size)]. *)
Definition transpose_for_scores (self : RepresentationProjectionLayer)
    (x : tensor F) : result (tensor F) :=
  heads ← not_none (num_attention_heads self);
  head_size ← not_none (attention_head_size self);
  let new_x_shape := removelast (shape x) ++ [heads; head_size] in
  x ← torch.reshape new_x_shape x;
  torch.permute [0; 2; 1; 3] x.

(** The token-pooling branch of [forward], up to the assignment of [x]. *)
Definition token_pool (self : RepresentationProjectionLayer)
    (features : list (tensor F)) (event_tokens : option (tensor nat))
    (seq_length : nat) : result (tensor F) :=
  event_tokens ← not_none event_tokens;
  event_toks_per_seq ← torch.sum 1 event_tokens;
  unsqueezed ← torch.unsqueeze 2 event_tokens;
  f0 ← getitem_seq features 0;
  batch ← size f0 0;
  expanded_tokens ← torch.expand [batch; seq_length; hidden_size self] unsqueezed;
  chosen ← getitem_seq features (layer_to_use self);
  filtered_features ← torch.mul chosen (torch.map_entries of_nat expanded_tokens);
  summed ← torch.sum 1 filtered_features;
  counts ← torch.unsqueeze 1 event_toks_per_seq;
  counts ← torch.expand [batch; hidden_size self] counts;
  torch.div summed (torch.map_entries of_nat counts).

(** The relation branch of [forward], up to the assignment of [x]. *)
Definition relation_scores (self : RepresentationProjectionLayer)
    (features : list (tensor F)) : result (tensor F) :=
  hidden_states ← getitem_seq features (layer_to_use self);
  key ← not_none (key self);
  projected ← Linear_forward key hidden_states;
  key_layer ← transpose_for_scores self projected;
  query ← not_none (query self);
  projected ← Linear_forward query hidden_states;
  query_layer ← transpose_for_scores self projected;
  key_t ← torch.transpose_last2 key_layer;
  attention_scores ← torch.matmul query_layer key_t;
  head_size ← not_none (attention_head_size self);
  let x := torch.div_scalar attention_scores (fsqrt (of_nat head_size)) in
  torch.permute [0; 2; 3; 1] x.

(** [RepresentationProjectionLayer.forward(features, event_tokens)];
    [training] is the module's mode. *)
Definition RepresentationProjectionLayer_forward
    (self : RepresentationProjectionLayer) (training : bool)
    (features : list (tensor F)) (event_tokens : option (tensor nat))
  : result (tensor F) :=
  f0 ← getitem_seq features 0;
  seq_length ← size f0 1;
  x ← (if tokens self then token_pool self features event_tokens seq_length
       else if tagger self then getitem_seq features (layer_to_use self)
       else if relations self then relation_scores self features
       else chosen ← getitem_seq features (layer_to_use self);
            torch.getitem_ellipsis_0_all chosen);
  let x := Dropout_forward (dropout self) training x in
  x ← Dense_forward (dense self) x;
  Ok (torch.tanh x).
End Layers.

(** ** The loss functions of [torch.nn] and the label cast

    [MSELoss()(input, target)], [CrossEntropyLoss(weight=w)(input, target)]
    and [t.type(torch.LongTensor)] are library code; the model is stated
    over any implementation of them. *)

Class LossFunctions (F : Type) : Type := {
  MSELoss : tensor F -> tensor F -> result F;
  CrossEntropyLoss : option (list F) -> tensor F -> tensor Z -> result F;
  to_long : F -> Z
}.

(** ** [CnlpConfig], [CnlpModelForClassification] *)

Section Model.
Context {F : Type} `{Arith F} `{Elementary F} `{FromFloat F} `{LossFunctions F}.

(** The attributes of [CnlpConfig] that the model reads. *)
Record CnlpConfig : Type := {
  finetuning_task : option (list string);
  layer : Z;
  config_tokens : bool;
  num_rel_attention_heads : Z;
  rel_attention_head_dims : nat;
  config_tagger : gmap string bool;
  config_relations : gmap string bool;
  config_use_prior_tasks : bool;
  config_label_dictionary : list (string * list string);
  hidden_dropout_prob : float;
  config_hidden_size : nat
}.

(** Values passed to the encoder by keyword. *)
Inductive pyvalue : Type :=
  | PyBool (b : bool)
  | PyLong (t : tensor Z)
  | PyFloat (t : tensor F).

Record EncoderOutput : Type := {
  hidden_states : list (tensor F);
  attentions : option (list (tensor F))
}.

(** The loaded encoder: an opaque callable with a class name and a forward
    signature; [encoder.config.model_type]; and the lengths of
    [encoder.base_model.layers] and of [encoder.encoder.layer], each [None]
    when the encoder has no such attribute. *)
Record Encoder : Type := {
  class_name : string;
  forward_parameters : gset string;
  encoder_call : tensor Z -> gmap string (option pyvalue) -> result EncoderOutput;
  model_type : string;
  base_model_layers : option nat;
  encoder_layer : option nat
}.

(** [CnlpModelForClassification.num_layers]: the depth is read from
    [encoder.base_model.layers] for ModernBERT and from
    [encoder.encoder.layer] otherwise; an attribute that is not there raises
    [AttributeError]. *)
Definition num_layers (enc : Encoder) : result nat :=
  if String.eqb (model_type enc) "modernbert"
  then not_none (base_model_layers enc)
  else not_none (encoder_layer enc).

Record CnlpModelForClassification : Type := {
  encoder : Encoder;
  tasks : option (list string);
  feature_extractors : gmap string (RepresentationProjectionLayer (F := F));
  classifiers : gmap string (ClassificationHead (F := F));
  model_tagger : gmap string bool;
  model_relations : gmap string bool;
  class_weights : gmap string (option (list F));
  label_dictionary : list (string * list string);
  final_task_weight : F;
  use_prior_tasks : bool;
  training : bool
}.

(** f"The layer specified ({config.layer}) is too big for the specified
    encoder which has {self.num_layers} layers" *)
Definition layer_too_big (chosen : Z) (depth : nat) : string :=
  "The layer specified (" +:+ pretty chosen
  +:+ ") is too big for the specified encoder which has " +:+ pretty depth
  +:+ " layers".

(** [modules[name] = module] on an [nn.ModuleDict], that is
    [add_module(name, module)]: a name that is an attribute of the dict
    object and not one of its modules, a name with a dot and the empty name
    are refused with a [KeyError].  [attrs] are the attribute names of an
    empty [nn.ModuleDict]. *)
Definition add_module {M} (attrs : gset string) (modules : gmap string M)
    (name : string) (module : M) : result (gmap string M) :=
  if bool_decide (name ∈ attrs) && negb (bool_decide (name ∈ dom modules))
  then Raise (KeyError ("attribute '" +:+ name +:+ "' already exists"))
  else if contains "." name
  then Raise (KeyError ("module name can't contain " +:+ double_quote +:+ "."
                        +:+ double_quote +:+ ", got: " +:+ name))
  else if String.eqb name ""
  then Raise (KeyError ("module name can't be empty string " +:+ double_quote
                        +:+ double_quote))
  else Ok (<[name := module]> modules).

(** The loop of [__init__] over [config.label_dictionary.items()]. *)
Fixpoint build_heads (attrs : gset string)
    (rnd : Randomness (F := F)) (config : CnlpConfig)
    (items : list (string * list string))
    (total_prev_task_labels : nat)
    (extractors : gmap string RepresentationProjectionLayer)
    (heads : gmap string ClassificationHead)
  : result (gmap string RepresentationProjectionLayer
            * gmap string ClassificationHead) :=
  match items with
  | [] => Ok (extractors, heads)
  | (task_name, task_labels) :: rest =>
      let task_num_labels := length task_labels in
      is_tagger ← getitem_dict (config_tagger config) task_name;
      is_relation ← getitem_dict (config_relations config) task_name;
      extractor ← RepresentationProjectionLayer_init rnd
                    ("feature_extractors." +:+ task_name)
                    (hidden_dropout_prob config) (config_hidden_size config)
                    (layer config) (config_tokens config) is_tagger is_relation
                    (num_rel_attention_heads config)
                    (rel_attention_head_dims config);
      extractors ← add_module attrs extractors task_name extractor;
      let hidden_size :=
        if (is_relation : bool)
        then (if config_use_prior_tasks config
              then num_rel_attention_heads config + Z.of_nat total_prev_task_labels
              else num_rel_attention_heads config)%Z
        else (-1)%Z in
      head ← ClassificationHead_init rnd ("classifiers." +:+ task_name)
               (hidden_dropout_prob config) (config_hidden_size config)
               task_num_labels hidden_size;
      heads ← add_module attrs heads task_name head;
      build_heads attrs rnd config rest
                  (total_prev_task_labels + task_num_labels) extractors heads
  end.

(** [CnlpModelForClassification.__init__]; the encoder is passed in loaded.
    Freezing and bias-only fine-tuning only touch [requires_grad] and are
    modelled on their own ([init_trainability]). *)
Definition CnlpModelForClassification_init (attrs : gset string)
    (rnd : Randomness (F := F))
    (enc : Encoder) (config : CnlpConfig)
    (weights : option (gmap string (option (list F))))
    (final_weight : F) (train : bool)
  : result CnlpModelForClassification :=
  depth ← num_layers enc;
  if (Z.of_nat depth <? layer config)%Z
  then Raise (ValueError (layer_too_big (layer config) depth))
  else
    '(extractors, heads) ←
      build_heads attrs rnd config (config_label_dictionary config) 0 ∅ ∅;
    Ok {|
      encoder := enc;
      tasks := finetuning_task config;
      feature_extractors := extractors;
      classifiers := heads;
      model_tagger := config_tagger config;
      model_relations := config_relations config;
      class_weights :=
        match weights with
        | None => list_to_map
                    (map (fun item => (fst item, None))
                         (config_label_dictionary config))
        | Some w => w
        end;
      label_dictionary := config_label_dictionary config;
      final_task_weight := final_weight;
      use_prior_tasks := config_use_prior_tasks config;
      training := train
    |}.

(** *** [predict_relations_with_previous_logits] *)

(** One iteration of the loop over the prior tasks' logits. *)
Definition augment_step (seq_len : nat) (features prior_task_logits : tensor F)
  : logged (tensor F) :=
  if ndim features =? 4 then
    if ndim prior_task_logits =? 3 then
      aug ← lift (torch.unsqueeze 2 prior_task_logits);
      aug ← lift (torch.repeat [1; 1; seq_len; 1] aug);
      lift (torch.cat features aug 3)
    else
      warn (PriorShapeNotImplemented (shape prior_task_logits));;
      mret features
  else if ndim features =? 3 then
    warn PriorOnSequenceNotImplemented;;
    mret features
  else mret features.

Fixpoint augment_loop (seq_len : nat) (features : tensor F)
    (logits : list (tensor F)) : logged (tensor F) :=
  match logits with
  | [] => mret features
  | prior_task_logits :: rest =>
      features ← augment_step seq_len features prior_task_logits;
      augment_loop seq_len features rest
  end.

Definition predict_relations_with_previous_logits
    (features : tensor F) (logits : list (tensor F)) : logged (tensor F) :=
  seq_len ← lift (size features 1);
  augment_loop seq_len features logits.
(** *** [compute_loss] *)

(** The per-forward-pass accumulator [state]: the dict with the keys
    ["loss"] and ["task_label_ind"]. *)
Record LossState : Type := {
  loss : option F;
  task_label_ind : nat
}.

Definition advance (n : nat) (state : LossState) : LossState :=
  {| loss := loss state; task_label_ind := task_label_ind state + n |}.

Definition long (t : tensor F) : tensor Z := torch.map_entries to_long t.

Definition not_implemented_mtl : string :=
  "Have not implemented the case where a classification task is part of an MTL setup with relations and sequence tagging".

(** Where each kind of task reads its labels. *)
Definition relation_labels (labels : tensor F) (state : LossState)
    (seq_len : nat) : result (tensor F) :=
  torch.getitem labels
    [torch.All; torch.All;
     torch.Slice (task_label_ind state) (task_label_ind state + seq_len)].

Definition tagger_labels (labels : tensor F) (state : LossState)
  : result (tensor F) :=
  if ndim labels =? 2 then Ok labels
  else if ndim labels =? 3
  then torch.getitem labels [torch.All; torch.All; torch.At (task_label_ind state)]
  else torch.getitem labels
         [torch.All; torch.At 0; torch.At (task_label_ind state); torch.All].

Definition classification_labels (labels : tensor F) (task_ind : nat)
  : result (tensor F) :=
  if ndim labels =? 1 then Ok labels
  else if ndim labels =? 2
  then torch.getitem labels [torch.All; torch.At task_ind]
  else if ndim labels =? 3
  then torch.getitem labels [torch.All; torch.At 0; torch.At task_ind]
  else Raise (NotImplementedError not_implemented_mtl).

(** The last statement of [compute_loss]: folding the task's loss into the
    running loss. *)
Definition fold_loss (n_tasks : nat) (final_weight : F) (task_ind : nat)
    (task_loss : F) (state : LossState) : LossState :=
  match loss state with
  | None => {| loss := Some task_loss; task_label_ind := task_label_ind state |}
  | Some running =>
      let task_weight := if task_ind + 1 <? n_tasks then fone else final_weight in
      {| loss := Some (fadd running (fmul task_weight task_loss));
         task_label_ind := task_label_ind state |}
  end.

(** The task's loss and the state with the cursor moved. *)
Definition task_loss_and_cursor (self : CnlpModelForClassification)
    (task_name : string) (task_logits labels : tensor F)
    (task_ind task_num_labels batch_size seq_len : nat) (state : LossState)
  : result (F * LossState) :=
  if task_num_labels =? 1 then
    input ← torch.view_flat task_logits;
    target ← torch.view_flat labels;
    task_loss ← MSELoss input target;
    Ok (task_loss, state)
  else
    weights ← getitem_dict (class_weights self) task_name;
    is_relation ← getitem_dict (model_relations self) task_name;
    if (is_relation : bool) then
      task_labels ← relation_labels labels state seq_len;
      let state := advance seq_len state in
      input ← torch.permute [0; 3; 1; 2] task_logits;
      task_loss ← CrossEntropyLoss weights input (long task_labels);
      Ok (task_loss, state)
    else
      is_tagger ← getitem_dict (model_tagger self) task_name;
      if (is_tagger : bool) then
        task_labels ← tagger_labels labels state;
        let state := advance 1 state in
        input ← torch.view_rows task_num_labels task_logits;
        target ← torch.reshape [batch_size * seq_len] task_labels;
        task_loss ← CrossEntropyLoss weights input (long target);
        Ok (task_loss, state)
      else
        task_labels ← classification_labels labels task_ind;
        let state := advance 1 state in
        task_loss ← CrossEntropyLoss weights task_logits (long task_labels);
        Ok (task_loss, state).

Definition compute_loss (self : CnlpModelForClassification)
    (task_logits labels : tensor F)
    (task_ind task_num_labels batch_size seq_len : nat) (state : LossState)
  : result LossState :=
  tasks ← match tasks self with Some t => Ok t | None => Raise TypeError end;
  task_name ← getitem_seq tasks (Z.of_nat task_ind);
  '(task_loss, state) ←
    task_loss_and_cursor self task_name task_logits labels
      task_ind task_num_labels batch_size seq_len state;
  Ok (fold_loss (length tasks) (final_task_weight self) task_ind task_loss state).

(** *** [forward] *)

Record ForwardInputs : Type := {
  input_ids : tensor Z;
  attention_mask : option (tensor Z);
  token_type_ids : option (tensor Z);
  position_ids : option (tensor Z);
  head_mask : option (tensor F);
  inputs_embeds : option (tensor F);
  labels : option (tensor F);
  output_attentions : option bool;
  event_tokens : option (tensor nat)
}.

Record SequenceClassifierOutput : Type := {
  out_loss : option F;
  out_logits : list (tensor F);
  out_hidden_states : option (list (tensor F));
  out_attentions : option (list (tensor F))
}.

(** [d[key]] on an insertion-ordered dict given by its items. *)
Fixpoint getitem_items {A} (items : list (string * A)) (key : string) : result A :=
  match items with
  | [] => Raise (KeyError key)
  | (k, v) :: rest => if bool_decide (k = key) then Ok v else getitem_items rest key
  end.

(** [batch_size, seq_len = input_ids.shape] *)
Definition unpack2 (shp : list nat) : result (nat * nat) :=
  match shp with
  | [a; b] => Ok (a, b)
  | _ => Raise ValueError_unpack
  end.

(** The body of the loop over [enumerate(self.tasks)], from [task_ind]
    on. *)
Fixpoint task_loop (self : CnlpModelForClassification)
    (outputs : EncoderOutput) (inp : ForwardInputs)
    (batch_size seq_len : nat)
    (task_ind : nat) (names : list string)
    (logits : list (tensor F)) (state : LossState)
  : logged (list (tensor F) * LossState) :=
  match names with
  | [] => mret (logits, state)
  | task_name :: rest =>
      task_labels ← lift (getitem_items (label_dictionary self) task_name);
      extractor ← lift (getitem_dict (feature_extractors self) task_name);
      features ← lift (RepresentationProjectionLayer_forward extractor
                         (training self) (hidden_states outputs)
                         (event_tokens inp));
      features ←
        (if use_prior_tasks self then
           is_relation ← lift (getitem_dict (model_relations self) task_name);
           if (is_relation : bool)
           then predict_relations_with_previous_logits features logits
           else mret features
         else mret features);
      head ← lift (getitem_dict (classifiers self) task_name);
      task_logits ← lift (ClassificationHead_forward head (training self) features);
      let logits := logits ++ [task_logits] in
      state ←
        match labels inp with
        | Some labels =>
            lift (compute_loss self task_logits labels task_ind
                    (length (task_labels : list string)) batch_size seq_len state)
        | None => mret state
        end;
      task_loop self outputs inp batch_size seq_len (S task_ind) rest logits state
  end.

Definition encoder_kwargs (inp : ForwardInputs) : list (string * option pyvalue) :=
  [ ("attention_mask", PyLong <$> attention_mask inp);
    ("token_type_ids", PyLong <$> token_type_ids inp);
    ("position_ids", PyLong <$> position_ids inp);
    ("head_mask", PyFloat <$> head_mask inp);
    ("inputs_embeds", PyFloat <$> inputs_embeds inp);
    ("output_attentions", PyBool <$> output_attentions inp);
    ("output_hidden_states", Some (PyBool true));
    ("return_dict", Some (PyBool true)) ].

Definition forward (self : CnlpModelForClassification) (inp : ForwardInputs)
  : logged SequenceClassifierOutput :=
  let '(kwargs, warnings) :=
    generalize_encoder_forward_kwargs (class_name (encoder self))
      (forward_parameters (encoder self)) (encoder_kwargs inp) in
  Logged warnings (Ok tt);;
  outputs ← lift (encoder_call (encoder self) (input_ids inp) kwargs);
  '(batch_size, seq_len) ← lift (unpack2 (shape (input_ids inp)));
  names ← lift (match tasks self with Some t => Ok t | None => Raise TypeError end);
  '(logits, state) ←
    task_loop self outputs inp batch_size seq_len 0 names []
      {| loss := None; task_label_ind := 0 |};
  mret {| out_loss := loss state;
          out_logits := logits;
          out_hidden_states :=
            if training self then Some (hidden_states outputs) else None;
          out_attentions := attentions outputs |}.
End Model.

(** ** Fine-tuning controls on the encoder parameters

    [freeze_encoder_weights] and the bias-only loop of
    [CnlpModelForClassification.__init__] only write the [requires_grad]
    flag of the encoder's parameters.  [freeze] is a Python float, the values
    [random.random()] returns are read from [darts], one per parameter. *)

Record Param : Type := {
  param_name : string;
  requires_grad : bool
}.

(** [param.requires_grad = False] *)
Definition frozen (param : Param) : Param :=
  {| param_name := param_name param; requires_grad := false |}.

(** The loop of [freeze_encoder_weights] from the [k]-th parameter on. *)
Fixpoint freeze_loop (freeze : float) (darts : nat -> float) (k : nat)
    (params : list Param) : list Param :=
  match params with
  | [] => []
  | param :: rest =>
      (if PrimFloat.leb 1%float freeze then frozen param
       else
         let dart := darts k in
         if PrimFloat.ltb dart freeze then frozen param else param)
      :: freeze_loop freeze darts (S k) rest
  end.

Definition freeze_encoder_weights (params : list Param) (freeze : float)
    (darts : nat -> float) : list Param :=
  freeze_loop freeze darts 0 params.

(** The loop under [if bias_fit:]. *)
Definition bias_fit_loop (params : list Param) : list Param :=
  map (fun param => if negb (contains "bias" (param_name param))
                    then frozen param else param) params.

(** Lines 351-357 of [__init__]: what the two controls leave of the
    encoder's parameters. *)
Definition init_trainability (params : list Param) (freeze : float)
    (bias_fit : bool) (darts : nat -> float) : list Param :=
  let params :=
    if PrimFloat.ltb 0%float freeze
    then freeze_encoder_weights params freeze darts
    else params in
  if bias_fit then bias_fit_loop params else params.

(** ** The encoder attributes read by [CnlpConfig.__init__]

    [encoder_config] is the dict [AutoConfig.from_pretrained(...).to_dict()];
    its values are strings and numbers. *)

Inductive config_value : Type :=
  | ConfigStr (s : string)
  | ConfigInt (z : Z)
  | ConfigFloat (x : float).

Record EncoderAttributes : Type := {
  attr_hidden_dropout_prob : config_value;
  attr_hidden_size : config_value;
  (** set for ModernBERT only *)
  attr_attention_dropout : option config_value;
  attr_embedding_dropout : option config_value;
  attr_mlp_dropout : option config_value;
  attr_classifier_dropout : option config_value
}.

(** The message of the [ValueError] raised for an unknown encoder API. *)
Definition unsupported_encoder_api (missing : string) : string :=
  "Encoder config does not have an attribute " +:+ double_quote +:+ missing
  +:+ double_quote
  +:+ "; this is likely because the API of the chosen encoder differs from the BERT/RoBERTa API and the DistilBERT API. Encoders with different APIs are not yet supported (#35).".

Definition is_modernbert (model_type : config_value) : bool :=
  match model_type with
  | ConfigStr s => String.eqb s "modernbert"
  | _ => false
  end.

(** The [if]/[elif]/[else] at the end of [CnlpConfig.__init__]. *)
Definition CnlpConfig_encoder_attributes (encoder_name : string)
    (encoder_config : gmap string config_value) : result EncoderAttributes :=
  if String.prefix "distilbert" encoder_name then
    dropout ← getitem_dict encoder_config "dropout";
    dim ← getitem_dict encoder_config "dim";
    Ok {| attr_hidden_dropout_prob := dropout; attr_hidden_size := dim;
          attr_attention_dropout := None; attr_embedding_dropout := None;
          attr_mlp_dropout := None; attr_classifier_dropout := None |}
  else
    model_type ← getitem_dict encoder_config "model_type";
    if is_modernbert model_type then
      hidden ← getitem_dict encoder_config "hidden_size";
      dropout ← getitem_dict encoder_config "mlp_dropout";
      attention ← getitem_dict encoder_config "attention_dropout";
      embedding ← getitem_dict encoder_config "embedding_dropout";
      mlp ← getitem_dict encoder_config "mlp_dropout";
      classifier ← getitem_dict encoder_config "classifier_dropout";
      Ok {| attr_hidden_dropout_prob := dropout; attr_hidden_size := hidden;
            attr_attention_dropout := Some attention;
            attr_embedding_dropout := Some embedding;
            attr_mlp_dropout := Some mlp;
            attr_classifier_dropout := Some classifier |}
    else
      match (dropout ← getitem_dict encoder_config "hidden_dropout_prob";
             hidden ← getitem_dict encoder_config "hidden_size";
             Ok (dropout, hidden)) with
      | Ok (dropout, hidden) =>
          Ok {| attr_hidden_dropout_prob := dropout; attr_hidden_size := hidden;
                attr_attention_dropout := None; attr_embedding_dropout := None;
                attr_mlp_dropout := None; attr_classifier_dropout := None |}
      | Raise (KeyError missing) =>
          Raise (ValueError (unsupported_encoder_api missing))
      | Raise e => Raise e
      end.

(** ** [cnlpt.api.utils]

    Text is a list of characters; [s[lo:hi]] follows Python's rules for
    negative and out-of-range bounds. *)

Definition text : Type := list Ascii.ascii.

Definition py_slice {A} (s : list A) (lo hi : Z) : list A :=
  let n := Z.of_nat (length s) in
  let clamp i := Z.max 0 (Z.min n (if (i <? 0)%Z then (i + n)%Z else i)) in
  let a := clamp lo in
  let b := clamp hi in
  take (Z.to_nat (b - a)) (drop (Z.to_nat a) s).

Definition newline : Ascii.ascii := Ascii.ascii_of_nat 10.
Definition space : Ascii.ascii := Ascii.ascii_of_nat 32.

(** [s.replace("\n", " ")] *)
Definition replace_newlines (s : text) : text :=
  map (fun c => if Ascii.eqb c newline then space else c) s.

Definition open_marker : text := String.list_ascii_of_string " <e> ".
Definition close_marker : text := String.list_ascii_of_string " </e> ".

(** [create_instance_string(doc_text, offsets)] *)
Definition create_instance_string (doc_text : text) (offsets : list Z)
  : result text :=
  first ← getitem_seq offsets 0;
  let start := Z.max 0 (first - 100) in
  second ← getitem_seq offsets 1;
  let stop := Z.min (Z.of_nat (length doc_text)) (second + 100) in
  let raw_str :=
    py_slice doc_text start first ++ open_marker
    ++ py_slice doc_text first second ++ close_marker
    ++ py_slice doc_text second stop in
  Ok (replace_newlines raw_str).

(** [str.lower()]: the letters A to Z are lowercased.  This is what
    [str.lower()] does to an ASCII string; device names are taken to be
    ASCII. *)
Definition lower_char (c : Ascii.ascii) : Ascii.ascii :=
  let n := Ascii.nat_of_ascii c in
  if (65 <=? n) && (n <=? 90) then Ascii.ascii_of_nat (n + 32) else c.

Fixpoint lower (s : string) : string :=
  match s with
  | EmptyString => EmptyString
  | String c rest => String (lower_char c) (lower rest)
  end.

Definition is_ascii (s : string) : bool :=
  forallb (fun c => Ascii.nat_of_ascii c <? 128) (String.list_ascii_of_string s).

Definition cuda_unavailable : string :=
  "Device is set to 'cuda' but was not available; setting to 'cpu' and proceeding. If you have a GPU you need to debug why pytorch cannot see it.".
Definition mps_unavailable : string :=
  "Device is set to 'mps' but was not available; setting to 'cpu' and proceeding. If you have a GPU you need to debug why pytorch cannot see it.".

(** [resolve_device(device)]; [cuda] and [mps] are what
    [torch.cuda.is_available()] and [torch.mps.is_available()] return.  The
    result is the device and the warnings logged. *)
Definition resolve_device (device : string) (cuda mps : bool)
  : result (string * list string) :=
  let device := lower device in
  if negb (bool_decide (device ∈ ["cuda"; "mps"; "cpu"; "auto"]))
  then Raise (ValueError ("invalid device " +:+ device))
  else if String.eqb device "auto" then
    if cuda then Ok ("cuda", [])
    else if mps then Ok ("mps", [])
    else Ok ("cpu", [])
  else if String.eqb device "cuda" && negb cuda then
    Ok ("cpu", [cuda_unavailable])
  else if String.eqb device "mps" && negb mps then
    Ok ("cpu", [mps_unavailable])
  else Ok (device, []).

(** * The loss functions over the real numbers

    The documented behaviour of [MSELoss] and [CrossEntropyLoss] with their
    default arguments (mean reduction, [ignore_index = -100]), used to run
    the model on concrete inputs. *)

(** [MSELoss]: input and target are broadcast against each other (when
    their sizes differ PyTorch issues a Python warning, which is not a
    [logger] diagnostic), and the squared differences are averaged. *)
Definition mse_loss (input target : tensor R) : result R :=
  squares ← torch.pointwise
              (fun x y => let d := (x - y)%R in (d * d)%R) input target;
  Ok (fold_left Rplus (entries squares) 0%R / INR (numel squares))%R.

(** The contribution of one target position: its class weight and its
    weighted negative log-likelihood; nothing for an ignored position. *)
Definition cross_entropy_term (weights : option (list R)) (input : tensor R)
    (n_classes : nat) (label : Z) (tidx : list nat) : result (R * R) :=
  if (label =? -100)%Z then Ok (0%R, 0%R)
  else if ((0 <=? label)%Z && (label <? Z.of_nat n_classes)%Z)%bool then
    let y := Z.to_nat label in
    let logit c := data input (hd 0 tidx :: c :: tl tidx) in
    let w := match weights with Some ws => nth y ws 0%R | None => 1%R end in
    let log_sum := ln (fold_left Rplus (map (fun c => exp (logit c)) (seq 0 n_classes)) 0%R) in
    Ok (w, (w * (log_sum - logit y))%R)
  else Raise IndexError.

Fixpoint cross_entropy_sum (weights : option (list R)) (input : tensor R)
    (target : tensor Z) (n_classes : nat) (positions : list (list nat))
  : result (R * R) :=
  match positions with
  | [] => Ok (0%R, 0%R)
  | tidx :: rest =>
      '(w, l) ← cross_entropy_term weights input n_classes (data target tidx) tidx;
      '(ws, ls) ← cross_entropy_sum weights input target n_classes rest;
      Ok ((w + ws)%R, (l + ls)%R)
  end.

Definition cross_entropy (weights : option (list R)) (input : tensor R)
    (target : tensor Z) : result R :=
  match shape input, shape target with
  | n :: n_classes :: ds, n' :: ds' =>
      if negb (n =? n')
      then Raise (ValueError ("Expected input batch_size (" +:+ pretty n
                              +:+ ") to match target batch_size ("
                              +:+ pretty n' +:+ ")."))
      else if bool_decide (ds = ds') &&
         match weights with Some ws => length ws =? n_classes | None => true end
      then
        '(ws, ls) ← cross_entropy_sum weights input target n_classes
                      (indices (shape target));
        Ok (ls / ws)%R
      else Raise RuntimeError
  | _, _ => Raise RuntimeError
  end.

(** Truncation of a real to an integer. *)
Definition truncate (r : R) : Z :=
  if Rle_dec 0 r then Int_part r else (- Int_part (- r))%Z.

#[global] Instance R_losses : LossFunctions R := {|
  MSELoss := mse_loss;
  CrossEntropyLoss := cross_entropy;
  to_long := truncate |}.

(** * Predicates used in the statements *)

Section Predicates.
Context {F : Type} `{Arith F} `{Elementary F}.

(** The probabilities [nn.Dropout] accepts. *)
Definition accepted_probability (prob : float) : bool :=
  negb (PrimFloat.ltb prob 0%float || PrimFloat.ltb 1%float prob).

(** The two configurations the layer constructor rejects. *)
Definition invalid_layer_flags (tokens tagger relations : bool)
    (num_attention_heads : Z) : bool :=
  (tokens && (tagger || relations)) || (relations && (num_attention_heads <=? 0)%Z).

(** The output of a linear layer at position [(b, s)], feature [o]. *)
Definition project (l : Linear (F := F)) (hidden : tensor F) (b s o : nat) : F :=
  fadd (fsum (in_features l)
          (fun k => fmul (data hidden [b; s; k]) (weight l [o; k])))
       (bias l [o]).

(** The scaled dot product of token i's query and token j's key in head h:
    [(query_i . key_j) / sqrt(head_size)]. *)
Definition pair_score (q k : Linear (F := F)) (hidden : tensor F)
    (head_size b i j h : nat) : F :=
  fdiv (fsum head_size
          (fun d => fmul (project q hidden b i (h * head_size + d))
                         (project k hidden b j (h * head_size + d))))
       (fsqrt (of_nat head_size)).

(** What dropout does to the entry at [idx]. *)
Definition dropped (d : Dropout (F := F)) (training : bool) (idx : list nat)
    (v : F) : F :=
  if training
  then (if keep d idx then fdiv v (fsub fone (p d)) else fzero)
  else v.
(** The number of positions a 0/1 mask selects in example [b], as
    [event_tokens.sum(1)] counts them, and the masked sum of the hidden
    vectors [filtered_features.sum(1)]. *)
Definition mask_count (mask : tensor nat) (seq_length b : nat) : nat :=
  fsum seq_length (fun s => data mask [b; s]).

Definition masked_sum (chosen : tensor F) (mask : tensor nat)
    (seq_length b h : nat) : F :=
  fsum seq_length
    (fun s => fmul (data chosen [b; s; h]) (of_nat (data mask [b; s]))).
End Predicates.

(** The warning one unsupported fan-in combination produces. *)
Definition unsupported_warning {F} (features prior : tensor F) : warning :=
  if ndim features =? 4 then PriorShapeNotImplemented (shape prior)
  else PriorOnSequenceNotImplemented.

(** The exceptions that indexing and tensor operations raise, and the
    computations that raise nothing else. *)
Definition tensor_error (e : exn) : Prop :=
  e = IndexError \/ e = RuntimeError \/ e = AttributeError.

Inductive raises_only {A} (P : exn -> Prop) (m : result A) : Prop :=
  | RaisesOnly (only : forall e, m = Raise e -> P e).

(** The running loss after [compute_loss] has folded in the losses of the
    tasks [task_ind], [task_ind + 1], ... in turn. *)
Fixpoint aggregate {F} `{Arith F} (n_tasks : nat) (final_weight : F)
    (task_ind : nat) (losses : list F) (state : LossState (F := F))
  : LossState (F := F) :=
  match losses with
  | [] => state
  | task_loss :: rest =>
      aggregate n_tasks final_weight (S task_ind) rest
        (fold_loss n_tasks final_weight task_ind task_loss state)
  end.

(** How far a task of each kind moves the label cursor. *)
Definition cursor_step (task_num_labels : nat) (is_relation : bool)
    (seq_len : nat) : nat :=
  if task_num_labels =? 1 then 0
  else if is_relation then seq_len
  else 1.

(** The positions a mask selects in example [b], and the mean of real
    values over a list of positions. *)
Definition masked_positions (mask : tensor nat) (seq_length b : nat) : list nat :=
  filter (fun s => data mask [b; s] = 1) (seq 0 seq_length).

Definition mean_over (positions : list nat) (f : nat -> R) : R :=
  (fold_left Rplus (map f positions) 0 / INR (length positions))%R.

Definition is_mask (mask : tensor nat) (B S : nat) : Prop :=
  forall b s, b < B -> s < S -> data mask [b; s] = 0 \/ data mask [b; s] = 1.

(** * Concrete inputs used by the examples below *)

(** A DistilBERT-like forward signature (no [token_type_ids], no
    [position_ids]) and a keyword bag as [forward] builds it. *)
Definition distilbert_params : gset string :=
  {[ "input_ids"; "attention_mask"; "head_mask"; "inputs_embeds";
     "output_attentions"; "output_hidden_states"; "return_dict" ]}.

Definition example_kwargs : list (string * option nat) :=
  [ ("attention_mask", Some 1); ("token_type_ids", Some 2);
    ("position_ids", None); ("head_mask", None);
    ("output_hidden_states", Some 3) ].

(** A deterministic random state, and an encoder stub of depth 12 with
    hidden size 2 whose hidden states are all ones. *)
Definition example_rnd : Randomness (F := R) :=
  {| init_param := fun _ _ => 1%R; draw := fun _ _ => true |}.

Definition example_encoder : Encoder (F := R) :=
  {| class_name := "BertModel";
     forward_parameters :=
       {[ "input_ids"; "attention_mask"; "token_type_ids"; "position_ids";
          "head_mask"; "inputs_embeds"; "output_attentions";
          "output_hidden_states"; "return_dict" ]};
     encoder_call := fun ids _ =>
       Ok {| hidden_states :=
               replicate 13 (Tensor (shape ids ++ [2]) (fun _ => 1%R));
             attentions := None |};
     model_type := "bert";
     base_model_layers := None;
     encoder_layer := Some 12 |}.

(** Attribute names that every [nn.ModuleDict] has. *)
Definition module_dict_attributes : gset string :=
  {[ "training"; "forward"; "keys"; "values"; "items"; "pop"; "update";
     "clear" ]}.

(** A tagging task feeding a relation task. *)
Definition example_config (chosen_layer : Z) : CnlpConfig :=
  {| finetuning_task := Some ["tag"; "rel"];
     layer := chosen_layer;
     config_tokens := false;
     num_rel_attention_heads := 2;
     rel_attention_head_dims := 1;
     config_tagger := {[ "tag" := true; "rel" := false ]};
     config_relations := {[ "tag" := false; "rel" := true ]};
     config_use_prior_tasks := true;
     config_label_dictionary := [("tag", ["O"; "B"; "I"]); ("rel", ["None"; "Before"])];
     hidden_dropout_prob := 0%float;
     config_hidden_size := 2 |}.

(** A relation grid over two tokens with one head, the logits of a tagging
    task with one label, and the logits of a classification task. *)
Definition example_grid : tensor Z :=
  of_list4 0%Z [[[[1%Z]; [2%Z]]; [[3%Z]; [4%Z]]]].

Definition example_tag_logits : tensor Z :=
  of_list3 0%Z [[[10%Z]; [20%Z]]].

Definition example_cls_logits : tensor Z :=
  of_list2 0%Z [[7%Z; 8%Z]].

(** A model as [compute_loss] sees it: the task list, the per-task flags and
    the class weights. *)
Definition loss_model (names : list string) (tagger relations : gmap string bool)
    (final_weight : R) : CnlpModelForClassification (F := R) :=
  {| encoder := example_encoder;
     tasks := Some names;
     feature_extractors := ∅;
     classifiers := ∅;
     model_tagger := tagger;
     model_relations := relations;
     class_weights := gset_to_gmap None (dom tagger);
     label_dictionary := [];
     final_task_weight := final_weight;
     use_prior_tasks := false;
     training := false |}.

(** A relation task followed by a plain classification task, sequence
    length 2: the labels have shape (1, 2, 3); columns 0 and 1 hold the
    relation labels, column 2 holds the classification label in row 0. *)
Definition rel_then_cls : CnlpModelForClassification (F := R) :=
  loss_model ["rel"; "cls"] {[ "rel" := false; "cls" := false ]}
             {[ "rel" := true; "cls" := false ]} 1%R.

Definition rel_then_cls_labels : tensor R :=
  of_list3 0%R [[[0; 1; 0]; [1; 0; -100]]]%R.

(** A regression task followed by a plain classification task, a batch of
    one example: the labels have shape (1, 2), one column per task, and the
    regression head returns one prediction. *)
Definition reg_then_cls : CnlpModelForClassification (F := R) :=
  loss_model ["reg"; "cls"] {[ "reg" := false; "cls" := false ]}
             {[ "reg" := false; "cls" := false ]} 1%R.

Definition reg_then_cls_labels : tensor R :=
  of_list2 0%R [[2.5; 1]]%R.

Definition single_logits : tensor R := of_list2 0%R [[2]]%R.

(** A single regression task with a final-task weight of one half. *)
Definition single_task : CnlpModelForClassification (F := R) :=
  loss_model ["reg"] {[ "reg" := false ]} {[ "reg" := false ]} (1 / 2)%R.

(** The state [forward] starts the task loop with. *)
Definition initial_state {F} : LossState (F := F) :=
  {| loss := None; task_label_ind := 0 |}.

(** Predictions and labels of a regression batch of two examples. *)
Definition regression_logits : tensor R := of_list2 0%R [[2]; [3]]%R.
Definition regression_labels : tensor R := of_list1 0%R [2.5; 3]%R.

(** A single regression task in default (summary position) mode, and a
    batch of two sequences of three tokens with labels. *)
Definition regression_config : CnlpConfig :=
  {| finetuning_task := Some ["reg"];
     layer := -1;
     config_tokens := false;
     num_rel_attention_heads := 12;
     rel_attention_head_dims := 64;
     config_tagger := {[ "reg" := false ]};
     config_relations := {[ "reg" := false ]};
     config_use_prior_tasks := false;
     config_label_dictionary := [("reg", ["value"])];
     hidden_dropout_prob := 0%float;
     config_hidden_size := 2 |}.

Definition example_input (gold : option (tensor R)) : ForwardInputs (F := R) :=
  {| input_ids := of_list2 0%Z [[101; 7; 102]; [101; 8; 102]]%Z;
     attention_mask := Some (of_list2 0%Z [[1; 1; 1]; [1; 1; 1]]%Z);
     token_type_ids := None;
     position_ids := None;
     head_mask := None;
     inputs_embeds := None;
     labels := gold;
     output_attentions := None;
     event_tokens := None |}.

(** A relation layer with one head of size one over a hidden size of one,
    and hidden states of one sequence with one token whose vector is 0. *)
Definition one_head_layer : result (RepresentationProjectionLayer (F := R)) :=
  RepresentationProjectionLayer_init example_rnd "feature_extractors.rel"
    0%float 1 (-1) false false true 1 1.

Definition zero_hidden : tensor R := Tensor [1; 1; 1] (fun _ => 0%R).

(** A random state whose initial values differ from entry to entry and
    between the query and the key projection and whose dropout draws keep
    the entries with an even index sum; with it a relation layer with two
    heads of size four over a hidden size of two, built with dropout
    probability one half; and hidden states of one sequence of three
    tokens. *)
Definition varied_rnd : Randomness (F := R) :=
  {| init_param := fun name idx =>
       if contains "query" name then INR (1 + hd 0 idx)
       else INR (2 + nth 1 idx 0);
     draw := fun _ idx => Nat.even (list_sum idx) |}.

Definition pair_layer : result (RepresentationProjectionLayer (F := R)) :=
  RepresentationProjectionLayer_init varied_rnd "feature_extractors.rel"
    0.5%float 2 (-1) false false true 2 4.

Definition pair_hidden : tensor R :=
  of_list3 0%R [[[1; 2]; [3; 4]; [5; 6]]]%R.

(** A token-pooling layer over binary64 floats, hidden states of one
    sequence with one token, and a mask that selects no position. *)
Definition float_rnd : Randomness (F := float) :=
  {| init_param := fun _ _ => 1%float; draw := fun _ _ => true |}.

Definition float_token_layer : result (RepresentationProjectionLayer (F := float)) :=
  RepresentationProjectionLayer_init float_rnd "feature_extractors.event"
    0%float 1 (-1) true false false (-1) 64.

Definition float_hidden : tensor float := Tensor [1; 1; 1] (fun _ => 1%float).

Definition empty_mask : tensor nat := Tensor [1; 1] (fun _ => 0).

(** The same layer over the reals, with a batch of two sequences of three
    tokens, hidden size one, and masks selecting two and one positions. *)
Definition real_token_layer : result (RepresentationProjectionLayer (F := R)) :=
  RepresentationProjectionLayer_init example_rnd "feature_extractors.event"
    0%float 1 (-1) true false false (-1) 64.

Definition real_hidden : tensor R :=
  of_list3 0%R [[[1]; [2]; [4]]; [[8]; [16]; [32]]]%R.

Definition entity_mask : tensor nat := of_list2 0 [[1; 0; 1]; [0; 1; 0]].

(** A regression task followed by a tagging task over two tokens: labels of
    shape (1, 2, 1), the single column holding the tags. *)
Definition reg_then_tag : CnlpModelForClassification (F := R) :=
  loss_model ["reg"; "tag"] {[ "reg" := false; "tag" := true ]}
             {[ "reg" := false; "tag" := false ]} 1%R.

Definition reg_then_tag_labels : tensor R := of_list3 0%R [[[1]; [0]]]%R.

(** The tagging-then-relation configuration run end to end without labels:
    the shapes of the returned logits and the returned loss. *)
Definition fan_in_run : logged (list (list nat) * option R) :=
  model ← lift (CnlpModelForClassification_init module_dict_attributes
                  example_rnd example_encoder
                  (example_config (-1)) None 1%R false);
  out ← forward model (example_input None);
  mret (map shape (out_logits out), out_loss out).

(** The parameters of a toy encoder and the values [random.random()]
    returns for them. *)
Definition example_params : list Param :=
  [ {| param_name := "embeddings.weight"; requires_grad := true |};
    {| param_name := "layer.0.bias"; requires_grad := true |};
    {| param_name := "layer.0.weight"; requires_grad := false |} ].

Definition example_darts (k : nat) : float :=
  if Nat.even k then 0.25%float else 0.75%float.

(** The entries of ModernBERT's config that [CnlpConfig.__init__] reads. *)
Definition modernbert_config : gmap string config_value :=
  list_to_map
    [ ("model_type", ConfigStr "modernbert");
      ("hidden_size", ConfigInt 768);
      ("mlp_dropout", ConfigFloat 0%float);
      ("attention_dropout", ConfigFloat 0%float);
      ("embedding_dropout", ConfigFloat 0%float);
      ("classifier_dropout", ConfigFloat 0%float) ].

(** The document and the first entity of the negation test of
    [test/test_api.py], and the instance string made from them. *)
Definition negation_doc : text :=
  String.list_ascii_of_string
    "The patient has a sore knee and headache but denies nausea and has no anosmia.".

Definition sore_knee_instance : text :=
  String.list_ascii_of_string
    "The patient has a  <e> sore knee </e>  and headache but denies nausea and has no anosmia.".

(** A document of two lines; its second line starts with an entity. *)
Definition two_line_doc : text :=
  String.list_ascii_of_string "No fever." ++ [newline]
  ++ String.list_ascii_of_string "Sore knee today.".

(** The number of columns the fan-in adds to a relation grid: the label
    counts of the rank-3 priors. *)
Definition fan_in_width {F} (logits : list (tensor F)) : nat :=
  sum_list (map (fun prior => if ndim prior =? 3 then nth 2 (shape prior) 0
                              else 0) logits).



(** The labels of the tasks before position [n] of the label dictionary,
    counted, and the input width of a task's classification head. *)
Definition labels_before (items : list (string * list string)) (n : nat) : nat :=
  sum_list (map (fun item => length item.2) (take n items)).

Definition head_width (config : CnlpConfig) (is_relation : bool)
    (prior_labels : nat) : nat :=
  if is_relation
  then Z.to_nat (num_rel_attention_heads config)
       + (if config_use_prior_tasks config then prior_labels else 0)
  else config_hidden_size config.

(** The keyword arguments [forward] passes to the encoder. *)
Definition passed_kwargs {F} `{Arith F} `{Elementary F} `{LossFunctions F}
    (self : CnlpModelForClassification (F := F)) (inp : ForwardInputs (F := F))
  : gmap string (option (pyvalue (F := F))) :=
  (generalize_encoder_forward_kwargs (class_name (encoder self))
     (forward_parameters (encoder self)) (encoder_kwargs inp)).1.

(** The losses of the tasks in turn, as [compute_loss] computes them for
    [forward]: the task at position [task_ind] reads its labels with the
    cursor where the tasks before it left it. *)
Fixpoint per_task_losses {F} `{Arith F} `{LossFunctions F}
    (self : CnlpModelForClassification (F := F)) (labels : tensor F)
    (batch_size seq_len task_ind cursor : nat)
    (items : list (string * tensor F)) : result (list F) :=
  match items with
  | [] => Ok []
  | (task_name, task_logits) :: rest =>
      task_labels ← getitem_items (label_dictionary self) task_name;
      '(task_loss, state) ←
        task_loss_and_cursor self task_name task_logits labels task_ind
          (length (task_labels : list string)) batch_size seq_len
          {| loss := None; task_label_ind := cursor |};
      losses ← per_task_losses self labels batch_size seq_len (S task_ind)
                 (task_label_ind state) rest;
      Ok (task_loss :: losses)
  end.

(** Two regression tasks in default (summary position) mode, and a batch of
    one sequence of three tokens with one label per task. *)
Definition two_regressions_config : CnlpConfig :=
  {| finetuning_task := Some ["dose"; "age"];
     layer := -1;
     config_tokens := false;
     num_rel_attention_heads := 12;
     rel_attention_head_dims := 64;
     config_tagger := {[ "dose" := false; "age" := false ]};
     config_relations := {[ "dose" := false; "age" := false ]};
     config_use_prior_tasks := false;
     config_label_dictionary := [("dose", ["value"]); ("age", ["value"])];
     hidden_dropout_prob := 0%float;
     config_hidden_size := 2 |}.

Definition single_input (gold : option (tensor R)) : ForwardInputs (F := R) :=
  {| input_ids := of_list2 0%Z [[101; 7; 102]]%Z;
     attention_mask := Some (of_list2 0%Z [[1; 1; 1]]%Z);
     token_type_ids := None;
     position_ids := None;
     head_mask := None;
     inputs_embeds := None;
     labels := gold;
     output_attentions := None;
     event_tokens := None |}.

Definition two_regression_labels : tensor R := of_list2 0%R [[2.5; 3]]%R.

(** Binary64 hidden states of two sequences of two tokens, hidden size one,
    and a mask that selects the first token of the first sequence and no
    token of the second. *)
Definition float_pair_hidden : tensor float :=
  of_list3 0%float [[[1.5]; [-2]]; [[3]; [0.5]]]%float.

Definition half_empty_mask : tensor nat := of_list2 0 [[1; 0]; [0; 0]].

(** A float that is a zero or NaN. *)
Definition zero_or_nan (x : float) : Prop :=
  match Prim2SF x with
  | S754_zero _ | S754_nan => True
  | _ => False
  end.

(** * Verification *)

(** ** The encoder-argument filter *)

Section EncoderAdapterFacts.
Context {V : Type}.
Implicit Types (kwargs : list (string * option V)) (params : gset string).

Lemma generalize_snoc cls params kwargs item :
  generalize_encoder_forward_kwargs cls params (kwargs ++ [item]) =
  generalize_step cls params
    (generalize_encoder_forward_kwargs cls params kwargs) item.
Proof. unfold generalize_encoder_forward_kwargs. by rewrite fold_left_app. Qed.

(** The returned dict holds the accepted keys, each with the value of its
    last occurrence in the bag. *)
Lemma generalize_dict cls params kwargs :
  (generalize_encoder_forward_kwargs cls params kwargs).1 =
  filter (fun kv => kv.1 ∈ params) (list_to_map (reverse kwargs) : gmap _ _).
Proof.
  induction kwargs as [|[name value] kwargs IH] using rev_ind.
  - symmetry. apply map_filter_empty.
  - rewrite generalize_snoc, reverse_snoc. cbn [list_to_map foldr].
    destruct (generalize_encoder_forward_kwargs cls params kwargs) as [d ws].
    simpl in IH. subst d. unfold generalize_step.
    destruct (decide (name ∈ params)) as [Hin|Hout].
    + rewrite (bool_decide_eq_false_2 (name ∉ params)) by tauto.
      rewrite (bool_decide_eq_true_2 _ Hin). simpl.
      by rewrite map_filter_insert_True.
    + rewrite (bool_decide_eq_true_2 _ Hout).
      rewrite (bool_decide_eq_false_2 _ Hout).
      rewrite map_filter_insert_False by done.
      rewrite map_filter_delete.
      rewrite delete_id; [by destruct (bool_decide (value ≠ None))|].
      apply map_lookup_filter_None_2. right. intros ? _. exact Hout.
Qed.

Lemma generalize_warnings cls params kwargs w :
  w ∈ (generalize_encoder_forward_kwargs cls params kwargs).2 ↔
  ∃ name v, w = ParameterNotPresent name cls ∧ (name ∉ params)
            ∧ (name, Some v) ∈ kwargs.
Proof.
  induction kwargs as [|[name value] kwargs IH] using rev_ind.
  - simpl. split; [by intros ?%elem_of_nil|].
    by intros (? & ? & _ & _ & ?%elem_of_nil).
  - rewrite generalize_snoc.
    destruct (generalize_encoder_forward_kwargs cls params kwargs) as [d ws].
    simpl in IH. unfold generalize_step.
    setoid_rewrite elem_of_app. setoid_rewrite list_elem_of_singleton.
    destruct (decide (name ∈ params)) as [Hin|Hout].
    + rewrite (bool_decide_eq_false_2 (name ∉ params)) by tauto.
      rewrite (bool_decide_eq_true_2 _ Hin). simpl. rewrite IH.
      split.
      * intros (n & v & -> & Hn & Hel). exists n, v. auto.
      * intros (n & v & -> & Hn & [Hel | Heq]); [by exists n, v|].
        injection Heq as -> _. done.
    + rewrite (bool_decide_eq_true_2 _ Hout).
      rewrite (bool_decide_eq_false_2 _ Hout).
      destruct value as [v0|]; simpl.
      * rewrite elem_of_app, IH, list_elem_of_singleton. split.
        -- intros [(n & v & -> & Hn & Hel) | ->];
             [exists n, v | exists name, v0]; auto.
        -- intros (n & v & -> & Hn & [Hel | Heq]); [left; by exists n, v|].
           injection Heq as -> _. by right.
      * rewrite IH. split.
        -- intros (n & v & -> & Hn & Hel). exists n, v. auto.
        -- intros (n & v & -> & Hn & [Hel | Heq]); [by exists n, v|].
           discriminate Heq.
Qed.
End EncoderAdapterFacts.

(** C8. [generalize_encoder_forward_kwargs] returns exactly the entries of
    the keyword bag whose key is in the encoder's forward signature, each
    with its original value ([None] included), and warns about a key exactly
    when the key is not accepted and its value is not [None].  The function
    only builds the new dict and the warnings; the bag (a dict, so its keys
    are distinct) is not changed. *)
Theorem generalize_encoder_forward_kwargs_filter
    {V : Type} (cls : string) (params : gset string)
    (kwargs : list (string * option V)) :
  NoDup kwargs.*1 ->
  let out := generalize_encoder_forward_kwargs cls params kwargs in
  (forall name value,
      out.1 !! name = Some value <-> (name ∈ params /\ (name, value) ∈ kwargs))
  /\ (forall w,
      w ∈ out.2 <->
      exists name v, w = ParameterNotPresent name cls
                     /\ (name ∉ params) /\ (name, Some v) ∈ kwargs).
Proof.
  intros Hdup out. split.
  - intros name value. subst out. rewrite generalize_dict.
    rewrite map_lookup_filter_Some. simpl.
    rewrite <- elem_of_list_to_map.
    + rewrite elem_of_reverse. tauto.
    + by rewrite fmap_reverse, reverse_Permutation.
  - intros w. apply generalize_warnings.
Qed.

Lemma generalize_encoder_forward_kwargs_filter_witness :
  let out := generalize_encoder_forward_kwargs "DistilBertModel"
               distilbert_params example_kwargs in
  (forall name value,
      out.1 !! name = Some value <->
      (name ∈ distilbert_params /\ (name, value) ∈ example_kwargs))
  /\ (forall w,
      w ∈ out.2 <->
      exists name v, w = ParameterNotPresent name "DistilBertModel"
                     /\ (name ∉ distilbert_params)
                     /\ (name, Some v) ∈ example_kwargs).
Proof.
  apply (generalize_encoder_forward_kwargs_filter
           "DistilBertModel" distilbert_params example_kwargs).
  apply (bool_decide_unpack (NoDup example_kwargs.*1)). vm_compute. exact I.
Defined.

Example generalize_encoder_forward_kwargs_run :
  let out := generalize_encoder_forward_kwargs "DistilBertModel"
               distilbert_params example_kwargs in
  out.1 = {[ "attention_mask" := Some 1; "head_mask" := None;
             "output_hidden_states" := Some 3 ]}
  /\ out.2 = [ParameterNotPresent "token_type_ids" "DistilBertModel"].
Proof. split; vm_compute; reflexivity. Qed.

(** ** Construction-time validation *)

Section ConstructionFacts.
Context {F : Type} `{Arith F} `{Elementary F} `{FromFloat F} `{LossFunctions F}.

Lemma new_Dropout_accepted (rnd : Randomness (F := F)) name prob :
  new_Dropout rnd name prob
  = if accepted_probability prob
    then Ok {| p := of_float prob; keep := draw rnd name |}
    else Raise (ValueError_dropout prob).
Proof.
  unfold new_Dropout, accepted_probability.
  by destruct (PrimFloat.ltb prob 0 || PrimFloat.ltb 1 prob).
Qed.

Lemma RepresentationProjectionLayer_init_raises
    rnd name prob hsize layer tokens tagger relations heads head_size :
  is_ok (RepresentationProjectionLayer_init (F := F) rnd name prob hsize layer
           tokens tagger relations heads head_size)
  = accepted_probability prob
    && negb (invalid_layer_flags tokens tagger relations heads).
Proof.
  unfold RepresentationProjectionLayer_init, invalid_layer_flags.
  rewrite new_Dropout_accepted.
  destruct (accepted_probability prob); [|reflexivity].
  destruct tokens, tagger, relations, (heads <=? 0)%Z; reflexivity.
Qed.



End ConstructionFacts.

(** ** Which exceptions the forward pass of a layer can raise *)

Create HintDb raises discriminated.

Lemma raises_only_ok {A} P (a : A) : raises_only P (Ok a).
Proof. constructor. intros e [=]. Qed.

Lemma raises_only_raise {A} (P : exn -> Prop) e : P e -> raises_only (A := A) P (Raise e).
Proof. intros HP. constructor. intros e' [= <-]. exact HP. Qed.

Lemma raises_only_bind {A B} P (m : result A) (f : A -> result B) :
  raises_only P m -> (forall a, raises_only P (f a)) -> raises_only P (m ≫= f).
Proof.
  intros [Hm] Hf. destruct m as [a|e0]; simpl.
  - apply Hf.
  - constructor. intros e [= <-]. by apply Hm.
Qed.

Lemma raises_only_if {A} P (c : bool) (m1 m2 : result A) :
  raises_only P m1 -> raises_only P m2 -> raises_only P (if c then m1 else m2).
Proof. by destruct c. Qed.

Lemma tensor_error_Index : tensor_error IndexError.
Proof. by left. Qed.
Lemma tensor_error_Runtime : tensor_error RuntimeError.
Proof. right; by left. Qed.
Lemma tensor_error_Attribute : tensor_error AttributeError.
Proof. right; by right. Qed.

#[export] Hint Resolve raises_only_ok raises_only_raise raises_only_bind
  raises_only_if tensor_error_Index tensor_error_Runtime
  tensor_error_Attribute : raises.

Ltac raises_unfold f :=
  unfold f; repeat first
    [ solve [auto with raises]
    | apply raises_only_bind; [|intros ?]
    | apply raises_only_if ].

Section RaisesFacts.
Context {A : Type}.
Implicit Types (t a b : tensor A).

Lemma not_none_raises (x : option A) : raises_only tensor_error (not_none x).
Proof. destruct x; simpl; auto with raises. Qed.

Lemma getitem_seq_raises (xs : list A) i : raises_only tensor_error (getitem_seq xs i).
Proof. unfold getitem_seq. repeat case_match; auto with raises. Qed.

Lemma size_raises t d : raises_only tensor_error (size t d).
Proof. unfold size. case_match; auto with raises. Qed.

Lemma unsqueeze_raises d t : raises_only tensor_error (torch.unsqueeze d t).
Proof. raises_unfold @torch.unsqueeze. Qed.

Lemma repeat_raises reps t : raises_only tensor_error (torch.repeat reps t).
Proof. raises_unfold @torch.repeat. Qed.

Lemma cat_raises a b d : raises_only tensor_error (torch.cat a b d).
Proof. raises_unfold @torch.cat. Qed.

Lemma expand_raises sizes t : raises_only tensor_error (torch.expand sizes t).
Proof. raises_unfold @torch.expand. Qed.

Lemma index_map_raises spec shp : raises_only tensor_error (torch.index_map spec shp).
Proof.
  revert shp. induction spec as [|[|i|lo hi] spec IH]; intros [|n shp]; simpl;
    auto with raises.
  - apply raises_only_bind; [apply IH|]. intros [s f]. auto with raises.
  - case_match; auto with raises.
    apply raises_only_bind; [apply IH|]. intros [s f]. auto with raises.
  - apply raises_only_bind; [apply IH|]. intros [s f]. auto with raises.
Qed.

Lemma getitem_raises t spec : raises_only tensor_error (torch.getitem t spec).
Proof.
  unfold torch.getitem. apply raises_only_bind; [apply index_map_raises|].
  intros [s f]. auto with raises.
Qed.

Lemma getitem_ellipsis_raises t :
  raises_only tensor_error (torch.getitem_ellipsis_0_all t).
Proof.
  unfold torch.getitem_ellipsis_0_all.
  apply raises_only_if; [apply getitem_raises | auto with raises].
Qed.

Lemma reshape_raises shp t : raises_only tensor_error (torch.reshape shp t).
Proof. raises_unfold @torch.reshape. Qed.

Lemma permute_raises dims t : raises_only tensor_error (torch.permute dims t).
Proof. raises_unfold @torch.permute. Qed.

Lemma transpose_last2_raises t : raises_only tensor_error (torch.transpose_last2 t).
Proof.
  unfold torch.transpose_last2.
  apply raises_only_if; [apply permute_raises | auto with raises].
Qed.
End RaisesFacts.

#[export] Hint Resolve not_none_raises getitem_seq_raises size_raises
  unsqueeze_raises repeat_raises cat_raises expand_raises getitem_raises
  getitem_ellipsis_raises reshape_raises permute_raises
  transpose_last2_raises : raises.

Section LayerRaises.
Context {F : Type} `{Arith F} `{Elementary F}.
Implicit Types (t a b : tensor F) (self : RepresentationProjectionLayer (F := F)).

Lemma pointwise_raises `{Arith G} (op : G -> G -> G) (a b : tensor G) :
  raises_only tensor_error (torch.pointwise op a b).
Proof. unfold torch.pointwise. case_match; auto with raises. Qed.

Lemma mul_raises a b : raises_only tensor_error (torch.mul a b).
Proof. apply pointwise_raises. Qed.

Lemma div_raises a b : raises_only tensor_error (torch.div a b).
Proof. apply pointwise_raises. Qed.

Lemma sum_raises `{Arith G} d (t : tensor G) : raises_only tensor_error (torch.sum d t).
Proof. unfold torch.sum. case_match; auto with raises. Qed.

Lemma matmul_raises a b : raises_only tensor_error (torch.matmul a b).
Proof. raises_unfold @torch.matmul. Qed.

Lemma Linear_forward_raises (l : Linear) t :
  raises_only tensor_error (Linear_forward l t).
Proof. raises_unfold @Linear_forward. Qed.

Lemma Dense_forward_raises (d : Dense) t :
  raises_only tensor_error (Dense_forward d t).
Proof. destruct d; simpl; auto using Linear_forward_raises with raises. Qed.

Hint Resolve pointwise_raises mul_raises div_raises sum_raises matmul_raises
  Linear_forward_raises Dense_forward_raises : raises.

Lemma transpose_for_scores_raises self t :
  raises_only tensor_error (transpose_for_scores self t).
Proof. raises_unfold @transpose_for_scores. Qed.

Hint Resolve transpose_for_scores_raises : raises.

Lemma token_pool_raises self features event_tokens seq_length :
  raises_only tensor_error (token_pool self features event_tokens seq_length).
Proof. raises_unfold @token_pool. Qed.

Lemma relation_scores_raises self features :
  raises_only tensor_error (relation_scores self features).
Proof. raises_unfold @relation_scores. Qed.

Hint Resolve token_pool_raises relation_scores_raises : raises.

End LayerRaises.




(** ** Cross-task fan-in *)

Section FanInFacts.
Context {F : Type}.
Implicit Types (features prior : tensor F) (logits : list (tensor F)).

Lemma size_lookup (t : tensor F) d n : shape t !! d = Some n -> size t d = Ok n.
Proof. unfold size. by intros ->. Qed.

Lemma augment_step_unsupported seq_len features prior :
  (ndim features = 4 /\ ndim prior <> 3) \/ ndim features = 3 ->
  augment_step seq_len features prior
  = Logged [unsupported_warning features prior] (Ok features).
Proof.
  unfold augment_step, unsupported_warning.
  intros [[-> Hp] | ->]; simpl; [|done].
  by apply Nat.eqb_neq in Hp as ->.
Qed.

Lemma augment_loop_unsupported seq_len features logits :
  (ndim features = 4 /\ Forall (fun prior => ndim prior <> 3) logits)
  \/ ndim features = 3 ->
  augment_loop seq_len features logits
  = Logged (map (unsupported_warning features) logits) (Ok features).
Proof.
  intros Hcase. induction logits as [|prior logits IH]; [done|].
  cbn [augment_loop map].
  rewrite augment_step_unsupported.
  - unfold mbind, logged_bind; cbn [outcome log].
    rewrite IH; [done|].
    destruct Hcase as [[? Hall]|?]; [left|by right].
    split; [done|]. by inversion Hall.
  - destruct Hcase as [[? Hall]|?]; [left|by right].
    split; [done|]. by inversion Hall.
Qed.
End FanInFacts.

(** C7. For an unsupported fan-in combination (a prior task whose logits
    are not of rank 3 feeding a relation grid of rank 4, or any prior task
    feeding a feature tensor of rank 3) the augmentation step returns the
    very feature tensor it was given and logs one warning; so
    [predict_relations_with_previous_logits], when every prior task is
    unsupported, returns its feature tensor unchanged, logs one warning per
    prior task and nothing else, and does not raise. *)
Theorem unsupported_fan_in_passes_through
    {F : Type} (features prior : tensor F) (logits : list (tensor F))
    (seq_len : nat) :
  ((ndim features = 4 /\ ndim prior <> 3) \/ ndim features = 3 ->
   augment_step seq_len features prior
   = Logged [unsupported_warning features prior] (Ok features))
  /\ ((ndim features = 4 /\ Forall (fun prior => ndim prior <> 3) logits)
      \/ ndim features = 3 ->
      predict_relations_with_previous_logits features logits
      = Logged (map (unsupported_warning features) logits) (Ok features)).
Proof.
  split; [apply augment_step_unsupported|].
  intros Hcase. unfold predict_relations_with_previous_logits.
  assert (exists n, shape features !! 1 = Some n) as [n Hn].
  { apply lookup_lt_is_Some. unfold ndim in Hcase.
    destruct Hcase as [[-> _]| ->]; lia. }
  rewrite (size_lookup _ _ _ Hn).
  unfold mbind, logged_bind, lift; cbn [outcome log].
  by rewrite augment_loop_unsupported.
Qed.

Lemma unsupported_fan_in_passes_through_witness :
  predict_relations_with_previous_logits example_grid [example_cls_logits]
  = Logged [PriorShapeNotImplemented [1; 2]] (Ok example_grid)
  /\ predict_relations_with_previous_logits example_tag_logits
       [example_cls_logits; example_tag_logits]
     = Logged [PriorOnSequenceNotImplemented; PriorOnSequenceNotImplemented]
              (Ok example_tag_logits).
Proof.
  split.
  - apply (unsupported_fan_in_passes_through example_grid example_cls_logits
             [example_cls_logits] 2).
    left. split; [reflexivity|]. repeat constructor. discriminate.
  - apply (unsupported_fan_in_passes_through example_tag_logits
             example_cls_logits [example_cls_logits; example_tag_logits] 2).
    right. reflexivity.
Defined.

Section OpFacts.
Context {A : Type}.
Implicit Types (t a b : tensor A).

Lemma unsqueeze_ok d t :
  d <= ndim t ->
  torch.unsqueeze d t
  = Ok (Tensor (insert_at d 1 (shape t)) (fun idx => data t (remove_at d idx))).
Proof. intros Hd. unfold torch.unsqueeze. by apply Nat.leb_le in Hd as ->. Qed.

Lemma repeat_same_rank reps t :
  length reps = ndim t ->
  torch.repeat reps t
  = Ok (Tensor (zip_with Nat.mul (shape t) reps)
               (fun idx => data t (zip_with Nat.modulo idx (shape t)))).
Proof.
  intros Hlen. unfold torch.repeat. rewrite Hlen, Nat.ltb_irrefl, Nat.sub_diag.
  reflexivity.
Qed.

Lemma cat_ok a b d :
  d < ndim a ->
  torch.shapes_agree_except d (shape a) (shape b) = true ->
  torch.cat a b d
  = Ok (Tensor (<[d := nth d (shape a) 0 + nth d (shape b) 0]> (shape a))
               (fun idx =>
                  if nth d idx 0 <? nth d (shape a) 0 then data a idx
                  else data b (<[d := nth d idx 0 - nth d (shape a) 0]> idx))).
Proof.
  intros Hd Hagree. unfold torch.cat. rewrite Hagree.
  by apply Nat.ltb_lt in Hd as ->.
Qed.
End OpFacts.

Ltac logged_simpl :=
  unfold mbind, logged_bind, lift, mret, logged_ret, warn;
  cbn [outcome log app].

Section TaggingFanIn.
Context {F : Type}.
Implicit Types (features prior : tensor F).

(** A rank-3 prior is repeated along a new third axis and appended on the
    last axis: the appended entries at [(b, i, j)] are the prior's at
    [(b, i)]. *)
Lemma augment_step_tagging seq_len features prior B S Hd L :
  shape features = [B; S; seq_len; Hd] ->
  shape prior = [B; S; L] ->
  exists out,
    augment_step seq_len features prior = Logged [] (Ok out)
    /\ shape out = [B; S; seq_len; Hd + L]
    /\ (forall b i j k, k < Hd ->
          data out [b; i; j; k] = data features [b; i; j; k])
    /\ (forall b i j k, b < B -> i < S -> k < L ->
          data out [b; i; j; Hd + k] = data prior [b; i; k]).
Proof.
  intros Hf Hp.
  unfold augment_step, ndim. rewrite Hf, Hp. cbn [length Nat.eqb].
  rewrite unsqueeze_ok by (unfold ndim; rewrite Hp; cbn; lia).
  logged_simpl.
  rewrite repeat_same_rank by (unfold ndim; cbn; by rewrite Hp).
  logged_simpl.
  rewrite cat_ok; cycle 1.
  { unfold ndim. rewrite Hf. cbn. lia. }
  { cbn [shape]. rewrite Hf, Hp. unfold torch.shapes_agree_except, insert_at.
    cbn -[Nat.mul]. by rewrite !Nat.mul_1_r, Nat.mul_1_l, !Nat.eqb_refl. }
  logged_simpl. cbn [shape]. rewrite Hf, Hp.
  eexists. split; [reflexivity|].
  cbn -[Nat.mul Nat.modulo Nat.ltb Nat.sub].
  split_and!.
  - by rewrite Nat.mul_1_r.
  - intros b i j k Hk. by apply Nat.ltb_lt in Hk as ->.
  - intros b i j k Hb Hi Hk.
    destruct (Nat.ltb_spec (Hd + k) Hd); [lia|].
    replace (Hd + k - Hd) with k by lia.
    by rewrite !Nat.mod_small by lia.
Qed.
End TaggingFanIn.

(** C1 (amended). For a relation grid of shape (batch, seq, seq, heads) and
    one prior tagging task's logits of shape (batch, seq, num_labels),
    [predict_relations_with_previous_logits] returns, without a warning, a
    grid whose trailing dimension is heads + num_labels; at every (b, i, j)
    the first heads entries are the original features and the appended
    entries are the prior logits of token i, the first token of the pair:
    the appended portion at (b, i, j) equals the prior logits at (b, i). *)
Theorem fan_in_appends_first_token_logits
    {F : Type} (features prior : tensor F) (B S Hd L : nat) :
  shape features = [B; S; S; Hd] ->
  shape prior = [B; S; L] ->
  exists out,
    predict_relations_with_previous_logits features [prior] = Logged [] (Ok out)
    /\ shape out = [B; S; S; Hd + L]
    /\ (forall b i j k, k < Hd ->
          data out [b; i; j; k] = data features [b; i; j; k])
    /\ (forall b i j k, b < B -> i < S -> k < L ->
          data out [b; i; j; Hd + k] = data prior [b; i; k]).
Proof.
  intros Hf Hp.
  destruct (augment_step_tagging S features prior B S Hd L Hf Hp)
    as (out & Hstep & Hshape & Hold & Hnew).
  exists out. split_and!; try done.
  unfold predict_relations_with_previous_logits.
  rewrite (size_lookup features 1 S) by (by rewrite Hf).
  logged_simpl. cbn [augment_loop]. rewrite Hstep. by logged_simpl.
Qed.

Lemma fan_in_appends_first_token_logits_witness :
  exists out,
    predict_relations_with_previous_logits example_grid [example_tag_logits]
    = Logged [] (Ok out)
    /\ shape out = [1; 2; 2; 1 + 1]
    /\ (forall b i j k, k < 1 ->
          data out [b; i; j; k] = data example_grid [b; i; j; k])
    /\ (forall b i j k, b < 1 -> i < 2 -> k < 1 ->
          data out [b; i; j; 1 + k] = data example_tag_logits [b; i; k]).
Proof.
  apply (fan_in_appends_first_token_logits example_grid example_tag_logits
           1 2 1 1); reflexivity.
Defined.

(** The grid of the example: pair (0, 1) carries the logits of token 0, not
    those of token 1. *)
Lemma fan_in_second_token_counterexample :
  (entries <$> outcome (predict_relations_with_previous_logits
                          example_grid [example_tag_logits]))
  = Ok [1; 10; 2; 10; 3; 20; 4; 20]%Z
  /\ ~ (forall out,
         outcome (predict_relations_with_previous_logits
                    example_grid [example_tag_logits]) = Ok out ->
         forall b i j k, b < 1 -> i < 2 -> j < 2 -> k < 1 ->
           data out [b; i; j; 1 + k] = data example_tag_logits [b; j; k]).
Proof.
  split; [reflexivity|].
  intros Hclaim.
  pose proof (Hclaim _ eq_refl 0 0 1 0) as Heq.
  vm_compute in Heq. specialize (Heq (le_n _) (le_S _ _ (le_n _)) (le_n _) (le_n _)).
  discriminate Heq.
Qed.

(** ** The per-task loss and the label cursor *)

Lemma bind_Ok {A B} (m : result A) (f : A -> result B) b :
  m ≫= f = Ok b -> exists a, m = Ok a /\ f a = Ok b.
Proof. destruct m as [a|e]; simpl; [eauto | discriminate]. Qed.

Ltac bind_inv H :=
  repeat (let a := fresh "a" in let Ha := fresh "Ha" in
          apply bind_Ok in H as (a & Ha & H)).

Lemma getitem_seq_nat {A} (xs : list A) (i : nat) :
  getitem_seq xs (Z.of_nat i)
  = match xs !! i with Some a => Ok a | None => Raise IndexError end.
Proof.
  unfold getitem_seq.
  destruct (Z.ltb_spec (Z.of_nat i) 0); [lia|].
  destruct (Z.leb_spec 0 (Z.of_nat i)); [|lia].
  rewrite Nat2Z.id.
  destruct (Z.ltb_spec (Z.of_nat i) (Z.of_nat (length xs))); simpl; [done|].
  rewrite lookup_ge_None_2; [done | lia].
Qed.

Section LossFacts.
Context {F : Type} `{Arith F} `{LossFunctions F}.
Implicit Types (self : CnlpModelForClassification (F := F))
  (state : LossState (F := F)) (labels task_logits : tensor F).

Lemma fold_loss_cursor n_tasks fw task_ind l state :
  task_label_ind (fold_loss n_tasks fw task_ind l state) = task_label_ind state.
Proof. unfold fold_loss. by destruct (loss state). Qed.

Lemma fold_loss_is_Some n_tasks fw task_ind l state :
  is_Some (loss (fold_loss n_tasks fw task_ind l state)).
Proof. unfold fold_loss. destruct (loss state); simpl; eauto. Qed.

(** The first contribution initialises the running loss; the final-task
    weight is not consulted. *)
Lemma fold_loss_first n_tasks fw task_ind l state :
  loss state = None ->
  loss (fold_loss n_tasks fw task_ind l state) = Some l.
Proof. unfold fold_loss. by intros ->. Qed.

Lemma fold_loss_next n_tasks fw task_ind l state running :
  loss state = Some running ->
  loss (fold_loss n_tasks fw task_ind l state)
  = Some (fadd running
            (fmul (if task_ind + 1 <? n_tasks then fone else fw) l)).
Proof. unfold fold_loss. by intros ->. Qed.

(** A regression task leaves the cursor where it is, a relation task moves
    it by [seq_len], a tagging or plain classification task by 1; the
    running loss is not touched before [fold_loss]. *)
Lemma task_loss_and_cursor_moves self name task_logits labels
    task_ind n batch seq_len state l state' :
  task_loss_and_cursor self name task_logits labels task_ind n batch seq_len state
  = Ok (l, state') ->
  loss state' = loss state
  /\ exists is_relation,
       (n <> 1 -> model_relations self !! name = Some is_relation)
       /\ task_label_ind state'
          = task_label_ind state + cursor_step n is_relation seq_len.
Proof.
  unfold task_loss_and_cursor, cursor_step.
  destruct (n =? 1) eqn:Hn.
  - intros Hrun. bind_inv Hrun. injection Hrun as _ <-.
    split; [done|]. exists false. split; [|lia].
    apply Nat.eqb_eq in Hn. intros; lia.
  - intros Hrun.
    apply bind_Ok in Hrun as (w & _ & Hrun).
    apply bind_Ok in Hrun as (is_relation & Hrel & Hrun).
    assert (model_relations self !! name = Some is_relation) as Hlookup.
    { unfold getitem_dict in Hrel. by destruct (model_relations self !! name) as [r|];
        [injection Hrel as -> | ]. }
    destruct is_relation.
    + bind_inv Hrun. injection Hrun as _ <-. split; [done|]. by exists true.
    + apply bind_Ok in Hrun as (is_tagger & _ & Hrun).
      destruct is_tagger; bind_inv Hrun; injection Hrun as _ <-;
        (split; [done|]); by exists false.
Qed.

(** [compute_loss] for a plain classification task: the labels are the ones
    [classification_labels] finds at [task_ind], whatever the cursor is. *)
Lemma compute_loss_classification self task_logits labels task_ind n batch
    seq_len state names name w :
  tasks self = Some names ->
  names !! task_ind = Some name ->
  n <> 1 ->
  class_weights self !! name = Some w ->
  model_relations self !! name = Some false ->
  model_tagger self !! name = Some false ->
  compute_loss self task_logits labels task_ind n batch seq_len state
  = (task_labels ← classification_labels labels task_ind;
     task_loss ← CrossEntropyLoss w task_logits (long task_labels);
     Ok (fold_loss (length names) (final_task_weight self) task_ind task_loss
           (advance 1 state))).
Proof.
  intros Htasks Hname Hn Hw Hrel Htag.
  unfold compute_loss. rewrite Htasks. cbn [mbind result_bind].
  rewrite getitem_seq_nat, Hname.
  cbn [mbind result_bind]. unfold task_loss_and_cursor.
  apply Nat.eqb_neq in Hn as ->.
  unfold getitem_dict. rewrite Hw, Hrel, Htag. cbn [mbind result_bind].
  destruct (classification_labels labels task_ind) as [task_labels|e]; [|done].
  cbn [mbind result_bind].
  by destruct (CrossEntropyLoss w task_logits (long task_labels)).
Qed.
End LossFacts.

Section ComputeLossFacts.
Context {F : Type} `{Arith F} `{LossFunctions F}.
Implicit Types (self : CnlpModelForClassification (F := F))
  (state : LossState (F := F)) (labels task_logits : tensor F).

(** After [compute_loss] the running loss is set and the cursor has moved
    by the step of the task's kind. *)
Lemma compute_loss_state self task_logits labels task_ind n batch seq_len
    state state' :
  compute_loss self task_logits labels task_ind n batch seq_len state = Ok state' ->
  is_Some (loss state')
  /\ exists names name is_relation,
       tasks self = Some names
       /\ names !! task_ind = Some name
       /\ (n <> 1 -> model_relations self !! name = Some is_relation)
       /\ task_label_ind state'
          = task_label_ind state + cursor_step n is_relation seq_len.
Proof.
  unfold compute_loss. intros Hrun.
  apply bind_Ok in Hrun as (names & Hnames & Hrun).
  apply bind_Ok in Hrun as (name & Hname & Hrun).
  apply bind_Ok in Hrun as ([l st] & Hstep & Hrun).
  injection Hrun as <-.
  apply task_loss_and_cursor_moves in Hstep as (_ & is_relation & Hrel & Hcur).
  split; [apply fold_loss_is_Some|].
  exists names, name, is_relation. rewrite fold_loss_cursor.
  split_and!; try done.
  - by destruct (tasks self) as [t|]; [injection Hnames as ->|].
  - rewrite getitem_seq_nat in Hname.
    by destruct (names !! task_ind) as [s|]; [injection Hname as ->|].
Qed.
(** Where a relation task and a tagging task read their labels in a label
    tensor of shape (batch, seq, columns): at the cursor. *)
Lemma relation_labels_at_cursor labels state seq_len B S W :
  shape labels = [B; S; W] ->
  task_label_ind state + seq_len <= W ->
  exists t,
    relation_labels labels state seq_len = Ok t
    /\ shape t = [B; S; seq_len]
    /\ forall b i j, data t [b; i; j] = data labels [b; i; task_label_ind state + j].
Proof.
  intros Hshape Hfit. unfold relation_labels, torch.getitem. rewrite Hshape.
  cbn [torch.index_map mbind result_bind].
  rewrite !Nat.min_l by lia.
  eexists. split; [reflexivity|]. split.
  - cbn [shape]. do 3 f_equal. lia.
  - reflexivity.
Qed.

Lemma tagger_labels_at_cursor labels state B S W :
  shape labels = [B; S; W] ->
  task_label_ind state < W ->
  exists t,
    tagger_labels labels state = Ok t
    /\ shape t = [B; S]
    /\ forall b i, data t [b; i] = data labels [b; i; task_label_ind state].
Proof.
  intros Hshape Hfit. unfold tagger_labels, torch.getitem, ndim. rewrite Hshape.
  cbn [length Nat.eqb torch.index_map mbind result_bind].
  apply Nat.ltb_lt in Hfit as ->. cbn [mbind result_bind].
  eexists. split; [reflexivity|]. split; reflexivity.
Qed.

(** [compute_loss] for a relation task and for a tagging task. *)
Lemma compute_loss_relation self task_logits labels task_ind n batch seq_len
    state names name w :
  tasks self = Some names ->
  names !! task_ind = Some name ->
  n <> 1 ->
  class_weights self !! name = Some w ->
  model_relations self !! name = Some true ->
  compute_loss self task_logits labels task_ind n batch seq_len state
  = (task_labels ← relation_labels labels state seq_len;
     input ← torch.permute [0; 3; 1; 2] task_logits;
     task_loss ← CrossEntropyLoss w input (long task_labels);
     Ok (fold_loss (length names) (final_task_weight self) task_ind task_loss
           (advance seq_len state))).
Proof.
  intros Htasks Hname Hn Hw Hrel.
  unfold compute_loss. rewrite Htasks. cbn [mbind result_bind].
  rewrite getitem_seq_nat, Hname.
  cbn [mbind result_bind]. unfold task_loss_and_cursor.
  apply Nat.eqb_neq in Hn as ->.
  unfold getitem_dict. rewrite Hw, Hrel. cbn [mbind result_bind].
  destruct (relation_labels labels state seq_len) as [task_labels|e]; [|done].
  cbn [mbind result_bind].
  destruct (torch.permute [0; 3; 1; 2] task_logits) as [input|e]; [|done].
  cbn [mbind result_bind].
  by destruct (CrossEntropyLoss w input (long task_labels)).
Qed.

Lemma compute_loss_tagger self task_logits labels task_ind n batch seq_len
    state names name w :
  tasks self = Some names ->
  names !! task_ind = Some name ->
  n <> 1 ->
  class_weights self !! name = Some w ->
  model_relations self !! name = Some false ->
  model_tagger self !! name = Some true ->
  compute_loss self task_logits labels task_ind n batch seq_len state
  = (task_labels ← tagger_labels labels state;
     input ← torch.view_rows n task_logits;
     target ← torch.reshape [batch * seq_len] task_labels;
     task_loss ← CrossEntropyLoss w input (long target);
     Ok (fold_loss (length names) (final_task_weight self) task_ind task_loss
           (advance 1 state))).
Proof.
  intros Htasks Hname Hn Hw Hrel Htag.
  unfold compute_loss. rewrite Htasks. cbn [mbind result_bind].
  rewrite getitem_seq_nat, Hname.
  cbn [mbind result_bind]. unfold task_loss_and_cursor.
  apply Nat.eqb_neq in Hn as ->.
  unfold getitem_dict. rewrite Hw, Hrel, Htag. cbn [mbind result_bind].
  destruct (tagger_labels labels state) as [task_labels|e]; [|done].
  cbn [mbind result_bind].
  destruct (torch.view_rows n task_logits) as [input|e]; [|done].
  cbn [mbind result_bind].
  destruct (torch.reshape [batch * seq_len] task_labels) as [target|e]; [|done].
  cbn [mbind result_bind].
  by destruct (CrossEntropyLoss w input (long target)).
Qed.
End ComputeLossFacts.

(** The weighted sum over the reals: with at least two tasks the first
    loss and the middle ones enter with weight 1 and the last one with the
    final-task weight. *)
Lemma aggregate_from n fw k (mid : list R) (last acc : R) cursor :
  k + length mid + 1 = n ->
  loss (aggregate n fw k (mid ++ [last])
          {| loss := Some acc; task_label_ind := cursor |})
  = Some (fold_left Rplus mid acc + fw * last)%R.
Proof.
  revert k acc. induction mid as [|l mid IH]; intros k acc Hn; simpl in *.
  - destruct (Nat.ltb_spec (k + 1) n); [lia|]. done.
  - unfold fold_loss. cbn [loss task_label_ind].
    destruct (Nat.ltb_spec (k + 1) n); [|lia].
    replace (fadd acc (fmul fone l)) with (acc + l)%R by (simpl; lra).
    by rewrite IH by lia.
Qed.

Lemma aggregate_weighted_sum fw (first : R) (mid : list R) (last : R) :
  loss (aggregate (S (length mid + 1)) fw 0 (first :: mid ++ [last])
          {| loss := None; task_label_ind := 0 |})
  = Some (fold_left Rplus mid first + fw * last)%R.
Proof. cbn [aggregate app]. unfold fold_loss. simpl. apply aggregate_from. lia. Qed.

Example aggregate_three_tasks (L1 L2 L3 : R) :
  loss (aggregate 3 (1 / 2)%R 0 [L1; L2; L3]
          {| loss := None; task_label_ind := 0 |})
  = Some (L1 + L2 + 1 / 2 * L3)%R.
Proof. apply (aggregate_weighted_sum (1 / 2) L1 [L2] L3). Qed.

(** C5 (failing input). With a single declared task the aggregated loss is
    that task's loss itself: the first contribution initialises the running
    loss and [final_task_weight] is never consulted.  For the regression
    batch with predictions 2, 3 and labels 2.5, 3 and a final-task weight of
    one half the model returns 0.125, not 0.0625. *)
Theorem single_task_loss_ignores_final_weight :
  (forall (fw task_loss : R),
      loss (aggregate 1 fw 0 [task_loss] initial_state) = Some task_loss)
  /\ final_task_weight single_task = (1 / 2)%R
  /\ exists state,
       compute_loss single_task regression_logits regression_labels 0 1 2 1
         initial_state = Ok state
       /\ loss state = Some (1 / 8)%R
       /\ loss state <> Some (1 / 2 * (1 / 8))%R.
Proof.
  split; [done|]. split; [done|].
  eexists. split; [reflexivity|].
  assert (forall x y : R, x = y -> Some x = Some y) as Hsome by (by intros ?? ->).
  split.
  - apply Hsome. cbn. lra.
  - intros [= Heq]. cbn in Heq. lra.
Qed.

(** C2 (failing input). A relation task over two tokens followed by a plain
    classification task, labels of shape (1, 2, 3): when the classification
    task is reached the cursor is 2, the column that holds its label.
    [compute_loss] nevertheless reads column [task_ind = 1] of row 0, a cell
    of the relation task's labels, and then moves the cursor to 3. *)
Theorem classification_labels_ignore_cursor :
  (forall (task_logits : tensor R) (running : R),
      compute_loss rel_then_cls task_logits rel_then_cls_labels 1 2 1 2
        {| loss := Some running; task_label_ind := 2 |}
      = (task_labels ← classification_labels rel_then_cls_labels 1;
         task_loss ← cross_entropy None task_logits (long task_labels);
         Ok (fold_loss 2 1%R 1 task_loss
               {| loss := Some running; task_label_ind := 3 |})))
  /\ entries <$> classification_labels rel_then_cls_labels 1 = Ok [1%R]
  /\ entries <$> torch.getitem rel_then_cls_labels
                   [torch.All; torch.At 0; torch.At 2] = Ok [0%R].
Proof.
  split; [|split; reflexivity].
  intros task_logits running.
  rewrite (compute_loss_classification rel_then_cls task_logits
             rel_then_cls_labels 1 2 1 2 _ ["rel"; "cls"] "cls" None);
    try reflexivity. lia.
Qed.

(** A regression task followed by a plain classification task, one
    example with three tokens, labels of shape (1, 2).  The regression step
    runs (its single prediction is broadcast against the two labels) and
    leaves the cursor at 0; the classification step that follows reads
    column [task_ind = 1], the column after the regression task's, not
    column 0 where the cursor stands. *)
Lemma classification_after_regression_counterexample :
  exists state,
    compute_loss reg_then_cls single_logits reg_then_cls_labels 0 1 1 3
      initial_state = Ok state
    /\ task_label_ind state = 0
    /\ (forall (task_logits : tensor R),
          compute_loss reg_then_cls task_logits reg_then_cls_labels 1 2 1 3
            state
          = (task_labels ← classification_labels reg_then_cls_labels 1;
             task_loss ← cross_entropy None task_logits (long task_labels);
             Ok (fold_loss 2 1%R 1 task_loss (advance 1 state))))
    /\ entries <$> classification_labels reg_then_cls_labels 1 = Ok [1]%R
    /\ entries <$> torch.getitem reg_then_cls_labels [torch.All; torch.At 0]
       = Ok [2.5]%R.
Proof.
  eexists. split; [reflexivity|]. split; [reflexivity|].
  split; [|split; reflexivity].
  intros task_logits.
  rewrite (compute_loss_classification reg_then_cls task_logits
             reg_then_cls_labels 1 2 1 3 _ ["reg"; "cls"] "cls" None);
    try reflexivity. lia.
Qed.

(** C10 (amended). [compute_loss] moves the label cursor by the step of the
    task's kind: not at all for a regression task (one label), by
    [seq_len] for a relation task, by 1 for a tagging or plain classification
    task.  So after a regression task the cursor is where it was, and a
    relation or tagging task that follows reads its labels at that cursor:
    columns [cursor .. cursor + seq_len) for the relation task, column
    [cursor] for the tagging task, as if the regression task occupied no
    column. *)
Theorem regression_keeps_cursor_for_followers
    {F : Type} `{Arith F} `{LossFunctions F}
    (self : CnlpModelForClassification (F := F))
    (task_logits labels : tensor F) (task_ind n batch seq_len : nat)
    (state state' : LossState (F := F)) :
  compute_loss self task_logits labels task_ind n batch seq_len state = Ok state' ->
  (exists names name is_relation,
      tasks self = Some names
      /\ names !! task_ind = Some name
      /\ (n <> 1 -> model_relations self !! name = Some is_relation)
      /\ task_label_ind state'
         = task_label_ind state + cursor_step n is_relation seq_len)
  /\ (n = 1 ->
      task_label_ind state' = task_label_ind state
      /\ (forall names next follower logits' n' w,
            tasks self = Some names -> names !! next = Some follower ->
            n' <> 1 -> class_weights self !! follower = Some w ->
            (model_relations self !! follower = Some true ->
             compute_loss self logits' labels next n' batch seq_len state'
             = (task_labels ← relation_labels labels state' seq_len;
                input ← torch.permute [0; 3; 1; 2] logits';
                task_loss ← CrossEntropyLoss w input (long task_labels);
                Ok (fold_loss (length names) (final_task_weight self) next
                      task_loss (advance seq_len state'))))
            /\ (model_relations self !! follower = Some false ->
                model_tagger self !! follower = Some true ->
                compute_loss self logits' labels next n' batch seq_len state'
                = (task_labels ← tagger_labels labels state';
                   input ← torch.view_rows n' logits';
                   target ← torch.reshape [batch * seq_len] task_labels;
                   task_loss ← CrossEntropyLoss w input (long target);
                   Ok (fold_loss (length names) (final_task_weight self) next
                         task_loss (advance 1 state')))))
      /\ (forall B S W, shape labels = [B; S; W] ->
            (task_label_ind state + seq_len <= W ->
             exists t, relation_labels labels state' seq_len = Ok t
                       /\ shape t = [B; S; seq_len]
                       /\ forall b i j,
                            data t [b; i; j]
                            = data labels [b; i; task_label_ind state + j])
            /\ (task_label_ind state < W ->
                exists t, tagger_labels labels state' = Ok t
                          /\ shape t = [B; S]
                          /\ forall b i,
                               data t [b; i]
                               = data labels [b; i; task_label_ind state]))).
Proof.
  intros Hrun.
  apply compute_loss_state in Hrun as (_ & names & name & is_relation & Ht & Hn & Hrel & Hcur).
  split; [by exists names, name, is_relation|].
  intros ->. unfold cursor_step in Hcur. simpl in Hcur. rewrite Nat.add_0_r in Hcur.
  split_and!; [done| |].
  - intros names' next follower logits' n' w Ht' Hnext Hn' Hw. split.
    + intros Hr. by apply (compute_loss_relation _ _ _ _ _ _ _ _ names' follower).
    + intros Hr Htag. by apply (compute_loss_tagger _ _ _ _ _ _ _ _ names' follower).
  - intros B S W Hshape. rewrite <- Hcur. split; intros Hfit.
    + by apply (relation_labels_at_cursor labels state' seq_len B S W).
    + by apply (tagger_labels_at_cursor labels state' B S W).
Qed.

Lemma regression_keeps_cursor_for_followers_witness :
  exists state',
    compute_loss reg_then_tag single_logits reg_then_tag_labels 0 1 1 2
      initial_state = Ok state'
    /\ task_label_ind state' = 0
    /\ exists t, tagger_labels reg_then_tag_labels state' = Ok t
                 /\ shape t = [1; 2]
                 /\ forall b i, data t [b; i] = data reg_then_tag_labels [b; i; 0].
Proof.
  eexists. split; [reflexivity|].
  match goal with
  | |- task_label_ind ?st = _ /\ _ =>
      assert (compute_loss reg_then_tag single_logits reg_then_tag_labels
                0 1 1 2 initial_state = Ok st) as Hrun by reflexivity;
      destruct (regression_keeps_cursor_for_followers reg_then_tag
                  single_logits reg_then_tag_labels 0 1 1 2 initial_state st
                  Hrun) as (_ & Hreg)
  end.
  destruct (Hreg eq_refl) as (Hcur & _ & Hread).
  split; [exact Hcur|].
  apply (Hread 1 2 1 eq_refl). cbn. lia.
Defined.

(** ** The forward pass *)

Lemma logged_bind_Ok {A B} (m : logged A) (f : A -> logged B) b :
  outcome (m ≫= f) = Ok b -> exists a, outcome m = Ok a /\ outcome (f a) = Ok b.
Proof.
  unfold mbind, logged_bind. destruct (outcome m) as [a|e]; simpl;
    [eauto | discriminate].
Qed.

Lemma getitem_dict_Ok {A} (d : gmap string A) key a :
  getitem_dict d key = Ok a <-> d !! key = Some a.
Proof. unfold getitem_dict. destruct (d !! key); split; congruence. Qed.

Section ForwardFacts.
Context {F : Type} `{Arith F} `{Elementary F} `{LossFunctions F}.
Implicit Types (self : CnlpModelForClassification (F := F))
  (state : LossState (F := F)) (inp : ForwardInputs (F := F))
  (outputs : EncoderOutput (F := F)) (logits : list (tensor F)).

(** The task's loss depends on the state through the cursor only. *)
Lemma task_loss_and_cursor_from_cursor self name task_logits labels task_ind n
    batch seq_len state l state' :
  task_loss_and_cursor self name task_logits labels task_ind n batch seq_len
    state = Ok (l, state') ->
  task_loss_and_cursor self name task_logits labels task_ind n batch seq_len
    {| loss := None; task_label_ind := task_label_ind state |}
  = Ok (l, {| loss := None; task_label_ind := task_label_ind state' |}).
Proof.
  unfold task_loss_and_cursor, relation_labels, tagger_labels, advance.
  cbn [task_label_ind loss].
  destruct (n =? 1).
  - intros Hrun. bind_inv Hrun. injection Hrun as <- <-.
    rewrite Ha, Ha0. cbn [mbind result_bind]. by rewrite Ha1.
  - intros Hrun.
    apply bind_Ok in Hrun as (weights & -> & Hrun).
    apply bind_Ok in Hrun as (is_relation & -> & Hrun).
    cbn [mbind result_bind]. destruct is_relation.
    + bind_inv Hrun. injection Hrun as <- <-.
      rewrite Ha, Ha0. cbn [mbind result_bind]. by rewrite Ha1.
    + apply bind_Ok in Hrun as (is_tagger & -> & Hrun).
      cbn [mbind result_bind]. destruct is_tagger.
      * bind_inv Hrun. injection Hrun as <- <-.
        rewrite Ha, Ha0. cbn [mbind result_bind]. rewrite Ha1.
        cbn [mbind result_bind]. by rewrite Ha2.
      * bind_inv Hrun. injection Hrun as <- <-.
        rewrite Ha. cbn [mbind result_bind]. by rewrite Ha0.
Qed.

Lemma fold_loss_loss_ext n_tasks fw task_ind l state1 state2 :
  loss state1 = loss state2 ->
  loss (fold_loss n_tasks fw task_ind l state1)
  = loss (fold_loss n_tasks fw task_ind l state2).
Proof. unfold fold_loss. intros ->. by destruct (loss state2). Qed.

Lemma aggregate_loss_ext n_tasks fw losses :
  forall task_ind state1 state2,
    loss state1 = loss state2 ->
    loss (aggregate n_tasks fw task_ind losses state1)
    = loss (aggregate n_tasks fw task_ind losses state2).
Proof.
  induction losses as [|l losses IH]; intros task_ind state1 state2 Heq; [done|].
  cbn [aggregate]. apply IH. by apply fold_loss_loss_ext.
Qed.

Lemma aggregate_is_Some n_tasks fw losses :
  forall task_ind state,
    losses <> [] \/ is_Some (loss state) ->
    is_Some (loss (aggregate n_tasks fw task_ind losses state)).
Proof.
  induction losses as [|l losses IH]; intros task_ind state Hsome.
  - by destruct Hsome.
  - cbn [aggregate]. apply IH. right. apply fold_loss_is_Some.
Qed.

Lemma per_task_losses_length self labels batch seq_len items :
  forall task_ind cursor losses,
    per_task_losses self labels batch seq_len task_ind cursor items = Ok losses ->
    length losses = length items.
Proof.
  induction items as [|[name lg] items IH]; intros task_ind cursor losses Hrun.
  - by injection Hrun as <-.
  - cbn [per_task_losses] in Hrun.
    apply bind_Ok in Hrun as (task_labels & _ & Hrun).
    apply bind_Ok in Hrun as ([l st] & _ & Hrun).
    apply bind_Ok in Hrun as (ls & Hrest & Hrun).
    injection Hrun as <-. cbn. f_equal. by eapply IH.
Qed.

(** What one run of the task loop does to the list of logits and to the
    loss state: every task's logits are its head's output on the features
    its extractor made of the encoder's hidden states (widened by the fan-in
    where that applies), and the running loss is aggregated from the tasks'
    losses on these logits. *)
Lemma task_loop_spec self outputs inp batch seq_len all names :
  tasks self = Some all ->
  forall task_ind logits state out state',
    names = drop task_ind all ->
    outcome (task_loop self outputs inp batch seq_len task_ind names logits state)
    = Ok (out, state') ->
    length out = length logits + length names
    /\ take (length logits) out = logits
    /\ (forall i name, names !! i = Some name ->
          exists extractor head base features task_logits,
            feature_extractors self !! name = Some extractor
            /\ classifiers self !! name = Some head
            /\ RepresentationProjectionLayer_forward extractor (training self)
                 (hidden_states outputs) (event_tokens inp) = Ok base
            /\ (use_prior_tasks self = true ->
                model_relations self !! name = Some true ->
                outcome (predict_relations_with_previous_logits base
                           (take (length logits + i) out)) = Ok features)
            /\ (use_prior_tasks self = false
                \/ model_relations self !! name = Some false ->
                features = base)
            /\ ClassificationHead_forward head (training self) features
               = Ok task_logits
            /\ out !! (length logits + i) = Some task_logits)
    /\ (labels inp = None -> state' = state)
    /\ (forall gold, labels inp = Some gold ->
          exists losses,
            per_task_losses self gold batch seq_len task_ind
              (task_label_ind state) (zip names (drop (length logits) out))
            = Ok losses
            /\ loss state'
               = loss (aggregate (length all) (final_task_weight self)
                         task_ind losses state)).
Proof.
  intros Htasks.
  induction names as [|task_name names IH];
    intros task_ind logits state out state' Hnames.
  - simpl. intros [= <- <-]. split_and!; try done.
    + by rewrite firstn_all.
    + intros gold _. exists []. done.
  - cbn [task_loop]. intros Hrun.
    apply logged_bind_Ok in Hrun as (task_labels & Hlabels & Hrun).
    apply logged_bind_Ok in Hrun as (extractor & Hextractor & Hrun).
    apply logged_bind_Ok in Hrun as (base & Hbase & Hrun).
    apply logged_bind_Ok in Hrun as (features & Hfeatures & Hrun).
    apply logged_bind_Ok in Hrun as (head & Hhead & Hrun).
    apply logged_bind_Ok in Hrun as (task_logits & Hlogits & Hrun).
    apply logged_bind_Ok in Hrun as (state1 & Hstate & Hrun).
    cbn [lift outcome] in Hlabels, Hextractor, Hbase, Hhead, Hlogits.
    apply getitem_dict_Ok in Hextractor, Hhead.
    assert (all !! task_ind = Some task_name) as Hname.
    { rewrite <- (Nat.add_0_r task_ind), <- lookup_drop, <- Hnames. done. }
    assert (names = drop (S task_ind) all) as Hrest.
    { rewrite (drop_S _ _ _ Hname) in Hnames. by injection Hnames. }
    apply (IH _ _ _ _ _ Hrest) in Hrun
      as (Hlen & Htake & Horder & Hnone & Hloss).
    rewrite length_app in Hlen, Htake, Horder, Hloss. cbn [length] in *.
    assert (take (length logits) out = logits
            /\ out !! length logits = Some task_logits) as [Hpre Hnth].
    { split.
      - replace (take (length logits) out)
          with (take (length logits) (take (length logits + 1) out))
          by (rewrite take_take; f_equal; lia).
        by rewrite Htake, take_app_length.
      - rewrite <- (lookup_take_lt out (length logits + 1)) by lia.
        rewrite Htake. by apply list_lookup_middle. }
    split_and!.
    + lia.
    + done.
    + intros [|i] name Hl.
      * injection Hl as <-. rewrite Nat.add_0_r.
        exists extractor, head, base, features, task_logits.
        split_and!; try done.
        -- intros Hprior Hrel. rewrite Hprior in Hfeatures.
           apply logged_bind_Ok in Hfeatures as (is_relation & Hget & Hfeatures).
           cbn [lift outcome] in Hget. apply getitem_dict_Ok in Hget.
           rewrite Hrel in Hget. injection Hget as <-.
           by rewrite Hpre.
        -- intros [Hprior|Hrel].
           ++ rewrite Hprior in Hfeatures. by injection Hfeatures.
           ++ destruct (use_prior_tasks self); [|by injection Hfeatures].
              apply logged_bind_Ok in Hfeatures as (is_relation & Hget & Hfeatures).
              cbn [lift outcome] in Hget. apply getitem_dict_Ok in Hget.
              rewrite Hrel in Hget. injection Hget as <-.
              by injection Hfeatures.
      * destruct (Horder i name Hl)
          as (ex & hd & bs & ft & lg & ? & ? & ? & Hfan & ? & ? & Hlook).
        exists ex, hd, bs, ft, lg.
        replace (length logits + S i) with (length logits + 1 + i) by lia.
        by split_and!.
    + intros Hl. rewrite Hnone by done. rewrite Hl in Hstate.
      by injection Hstate.
    + intros gold Hgold. destruct (Hloss gold Hgold) as (losses & Hrest_losses & Hagg).
      rewrite Hgold in Hstate. cbn [lift outcome] in Hstate.
      unfold compute_loss in Hstate. rewrite Htasks in Hstate.
      cbn [mbind result_bind] in Hstate.
      rewrite getitem_seq_nat, Hname in Hstate. cbn [mbind result_bind] in Hstate.
      apply bind_Ok in Hstate as ([l st] & Hstep & Hstate).
      injection Hstate as <-.
      pose proof (task_loss_and_cursor_from_cursor _ _ _ _ _ _ _ _ _ _ _ Hstep)
        as Hstep'.
      apply task_loss_and_cursor_moves in Hstep as [Hsame _].
      rewrite fold_loss_cursor in Hrest_losses.
      exists (l :: losses). split.
      * rewrite (drop_S _ _ _ Hnth). cbn [zip zip_with per_task_losses].
        rewrite Hlabels. cbn [mbind result_bind]. rewrite Hstep'.
        cbn [mbind result_bind task_label_ind].
        replace (S (length logits)) with (length logits + 1) by lia.
        by rewrite Hrest_losses.
      * rewrite Hagg. cbn [aggregate]. apply aggregate_loss_ext.
        by apply fold_loss_loss_ext.
Qed.
End ForwardFacts.

(** C9. Whenever [forward] returns, the returned list holds exactly one
    logits tensor per declared task, in the declared order: the i-th one is
    the output of the i-th task's classification head on the features that
    the task's extractor made of the encoder's hidden states, widened by the
    logits of the tasks before it where the fan-in applies.  Without labels
    the loss is [None]; with labels it is aggregated from the tasks' losses
    on these logits; and for a model with at least one declared task (a
    valid configuration attaches one or more heads) the loss is set if and
    only if labels were supplied. *)
Theorem forward_logits_and_loss
    {F : Type} `{Arith F} `{Elementary F} `{LossFunctions F}
    (self : CnlpModelForClassification (F := F)) (inp : ForwardInputs (F := F))
    (out : SequenceClassifierOutput (F := F)) :
  outcome (forward self inp) = Ok out ->
  exists names outputs batch_size seq_len,
    tasks self = Some names
    /\ encoder_call (encoder self) (input_ids inp) (passed_kwargs self inp)
       = Ok outputs
    /\ shape (input_ids inp) = [batch_size; seq_len]
    /\ length (out_logits out) = length names
    /\ (forall i name, names !! i = Some name ->
          exists extractor head base features task_logits,
            feature_extractors self !! name = Some extractor
            /\ classifiers self !! name = Some head
            /\ RepresentationProjectionLayer_forward extractor (training self)
                 (hidden_states outputs) (event_tokens inp) = Ok base
            /\ (use_prior_tasks self = true ->
                model_relations self !! name = Some true ->
                outcome (predict_relations_with_previous_logits base
                           (take i (out_logits out))) = Ok features)
            /\ (use_prior_tasks self = false
                \/ model_relations self !! name = Some false ->
                features = base)
            /\ ClassificationHead_forward head (training self) features
               = Ok task_logits
            /\ out_logits out !! i = Some task_logits)
    /\ (labels inp = None -> out_loss out = None)
    /\ (forall gold, labels inp = Some gold ->
          exists losses,
            per_task_losses self gold batch_size seq_len 0 0
              (zip names (out_logits out)) = Ok losses
            /\ out_loss out
               = loss (aggregate (length names) (final_task_weight self) 0
                         losses initial_state))
    /\ (names <> [] -> (is_Some (out_loss out) <-> is_Some (labels inp))).
Proof.
  unfold forward, passed_kwargs.
  destruct (generalize_encoder_forward_kwargs _ _ _) as [kwargs warnings].
  cbn [fst]. intros Hrun.
  apply logged_bind_Ok in Hrun as (_ & _ & Hrun).
  apply logged_bind_Ok in Hrun as (outputs & Hcall & Hrun).
  apply logged_bind_Ok in Hrun as ([batch seq_len] & Hshape & Hrun).
  apply logged_bind_Ok in Hrun as (names & Hnames & Hrun).
  apply logged_bind_Ok in Hrun as ([logits state] & Hloop & Hrun).
  simpl in Hrun. injection Hrun as <-. cbn [out_logits out_loss].
  assert (tasks self = Some names) as Htasks.
  { simpl in Hnames. by destruct (tasks self); [injection Hnames as ->|]. }
  apply (task_loop_spec self outputs inp batch seq_len names names Htasks)
    in Hloop as (Hlen & _ & Horder & Hnone & Hloss); [|done].
  cbn [length Nat.add drop] in Hlen, Horder, Hloss.
  exists names, outputs, batch, seq_len. split_and!; try done.
  - cbn in Hshape. unfold unpack2 in Hshape.
    destruct (shape (input_ids inp)) as [|a [|b [|c rest]]]; try done.
    by injection Hshape as -> ->.
  - intros Hl. by rewrite (Hnone Hl).
  - intros Hne. split.
    + intros Hsome. destruct (labels inp) as [gold|]; [by eexists|].
      rewrite (Hnone eq_refl) in Hsome. by destruct Hsome.
    + intros [gold Hgold]. destruct (Hloss gold Hgold) as (losses & Hrun & ->).
      apply aggregate_is_Some. left.
      apply per_task_losses_length in Hrun.
      rewrite length_zip_with, drop_0, Hlen, Nat.min_id in Hrun.
      intros ->. by destruct names.
Qed.

(** Two runs that return: two regression tasks with labels and the final
    task weight 1/2, and the tagging task feeding the relation task through
    the fan-in, without labels. *)
Lemma forward_logits_and_loss_witness :
  (exists model out,
      CnlpModelForClassification_init module_dict_attributes example_rnd
        example_encoder two_regressions_config None (1 / 2)%R false = Ok model
      /\ outcome (forward model (single_input (Some two_regression_labels)))
         = Ok out
      /\ exists names outputs batch_size seq_len,
           tasks model = Some names
           /\ encoder_call (encoder model)
                (input_ids (single_input (Some two_regression_labels)))
                (passed_kwargs model (single_input (Some two_regression_labels)))
              = Ok outputs
           /\ shape (input_ids (single_input (Some two_regression_labels)))
              = [batch_size; seq_len]
           /\ length (out_logits out) = length names
           /\ (forall i name, names !! i = Some name ->
                 exists extractor head base features task_logits,
                   feature_extractors model !! name = Some extractor
                   /\ classifiers model !! name = Some head
                   /\ RepresentationProjectionLayer_forward extractor
                        (training model) (hidden_states outputs)
                        (event_tokens (single_input (Some two_regression_labels)))
                      = Ok base
                   /\ (use_prior_tasks model = true ->
                       model_relations model !! name = Some true ->
                       outcome (predict_relations_with_previous_logits base
                                  (take i (out_logits out))) = Ok features)
                   /\ (use_prior_tasks model = false
                       \/ model_relations model !! name = Some false ->
                       features = base)
                   /\ ClassificationHead_forward head (training model) features
                      = Ok task_logits
                   /\ out_logits out !! i = Some task_logits)
           /\ (labels (single_input (Some two_regression_labels)) = None ->
               out_loss out = None)
           /\ (forall gold,
                 labels (single_input (Some two_regression_labels)) = Some gold ->
                 exists losses,
                   per_task_losses model gold batch_size seq_len 0 0
                     (zip names (out_logits out)) = Ok losses
                   /\ out_loss out
                      = loss (aggregate (length names) (final_task_weight model)
                                0 losses initial_state))
           /\ (names <> [] ->
               (is_Some (out_loss out)
                <-> is_Some (labels (single_input (Some two_regression_labels))))))
  /\ (exists model out,
      CnlpModelForClassification_init module_dict_attributes example_rnd
        example_encoder (example_config (-1)) None 1%R false = Ok model
      /\ outcome (forward model (example_input None))
         = Ok out
      /\ exists names outputs batch_size seq_len,
           tasks model = Some names
           /\ encoder_call (encoder model)
                (input_ids (example_input None))
                (passed_kwargs model (example_input None))
              = Ok outputs
           /\ shape (input_ids (example_input None))
              = [batch_size; seq_len]
           /\ length (out_logits out) = length names
           /\ (forall i name, names !! i = Some name ->
                 exists extractor head base features task_logits,
                   feature_extractors model !! name = Some extractor
                   /\ classifiers model !! name = Some head
                   /\ RepresentationProjectionLayer_forward extractor
                        (training model) (hidden_states outputs)
                        (event_tokens (example_input None))
                      = Ok base
                   /\ (use_prior_tasks model = true ->
                       model_relations model !! name = Some true ->
                       outcome (predict_relations_with_previous_logits base
                                  (take i (out_logits out))) = Ok features)
                   /\ (use_prior_tasks model = false
                       \/ model_relations model !! name = Some false ->
                       features = base)
                   /\ ClassificationHead_forward head (training model) features
                      = Ok task_logits
                   /\ out_logits out !! i = Some task_logits)
           /\ (labels (example_input None) = None ->
               out_loss out = None)
           /\ (forall gold,
                 labels (example_input None) = Some gold ->
                 exists losses,
                   per_task_losses model gold batch_size seq_len 0 0
                     (zip names (out_logits out)) = Ok losses
                   /\ out_loss out
                      = loss (aggregate (length names) (final_task_weight model)
                                0 losses initial_state))
           /\ (names <> [] ->
               (is_Some (out_loss out)
                <-> is_Some (labels (example_input None))))).
Proof.
  split.
  - destruct (CnlpModelForClassification_init module_dict_attributes example_rnd
                example_encoder two_regressions_config None (1 / 2)%R false)
      as [model|e] eqn:Hinit; [|exfalso; vm_compute in Hinit; discriminate Hinit].
    assert (is_ok (outcome
                     (model ← lift (CnlpModelForClassification_init
                                      module_dict_attributes example_rnd
                                      example_encoder two_regressions_config
                                      None (1 / 2)%R false);
                      forward model (single_input (Some two_regression_labels))))
            = true) as Hok by (vm_compute; reflexivity).
    rewrite Hinit in Hok. unfold mbind, logged_bind, lift in Hok.
    cbn [outcome] in Hok.
    destruct (outcome (forward model (single_input (Some two_regression_labels))))
      as [out|e] eqn:Hrun; [|discriminate Hok].
    exists model, out. split; [reflexivity|]. split; [exact Hrun|].
    apply forward_logits_and_loss, Hrun.
  - destruct (CnlpModelForClassification_init module_dict_attributes example_rnd
                example_encoder (example_config (-1)) None 1%R false)
      as [model|e] eqn:Hinit; [|exfalso; vm_compute in Hinit; discriminate Hinit].
    assert (is_ok (outcome
                     (model ← lift (CnlpModelForClassification_init
                                      module_dict_attributes example_rnd
                                      example_encoder (example_config (-1))
                                      None 1%R false);
                      forward model (example_input None)))
            = true) as Hok by (vm_compute; reflexivity).
    rewrite Hinit in Hok. unfold mbind, logged_bind, lift in Hok.
    cbn [outcome] in Hok.
    destruct (outcome (forward model (example_input None)))
      as [out|e] eqn:Hrun; [|discriminate Hok].
    exists model, out. split; [reflexivity|]. split; [exact Hrun|].
    apply forward_logits_and_loss, Hrun.
Defined.

(** ** Row-major positions *)

Lemma ravel_lt shp idx :
  in_bounds shp idx -> ravel shp idx < fold_right Nat.mul 1 shp.
Proof.
  unfold in_bounds. intros Hb. induction Hb as [|i n idx shp Hlt Hb IH]; simpl.
  - lia.
  - nia.
Qed.

Lemma unravel_ravel shp idx :
  in_bounds shp idx -> unravel shp (ravel shp idx) = idx.
Proof.
  unfold in_bounds. intros Hb. induction Hb as [|i n idx shp Hlt Hb IH]; simpl.
  - done.
  - pose proof (ravel_lt shp idx Hb) as Hr.
    set (m := fold_right Nat.mul 1 shp) in *.
    assert (m <> 0) by lia.
    rewrite Nat.div_add_l, Nat.div_small, Nat.add_0_r by done.
    rewrite Nat.add_comm, Nat.Div0.mod_add, Nat.mod_small by done.
    by rewrite IH.
Qed.

(** Splitting the last axis into (heads, head_size): position
    [(b, s, h, d)] of the view is position [(b, s, h * head_size + d)]. *)
Lemma unravel_split_last B S heads hs b s h d :
  b < B -> s < S -> h < heads -> d < hs ->
  unravel [B; S; heads * hs] (ravel [B; S; heads; hs] [b; s; h; d])
  = [b; s; h * hs + d].
Proof.
  intros Hb Hs Hh Hd.
  replace (ravel [B; S; heads; hs] [b; s; h; d])
    with (ravel [B; S; heads * hs] [b; s; h * hs + d]) by (simpl; ring).
  apply unravel_ravel. unfold in_bounds. repeat constructor; try done. nia.
Qed.

(** ** Relation mode of the projection layer *)

Lemma fsum_ext {F} `{Arith F} n (f g : nat -> F) :
  (forall k, k < n -> f k = g k) -> fsum n f = fsum n g.
Proof.
  unfold fsum. intros Hfg.
  assert (forall l acc, Forall (fun k => k < n) l ->
            fold_left (fun a k => fadd a (f k)) l acc
            = fold_left (fun a k => fadd a (g k)) l acc) as Hfold.
  { induction l as [|k l IH]; intros acc Hl; [done|].
    inversion Hl; subst. simpl. rewrite Hfg by done. by apply IH. }
  apply Hfold. apply Forall_forall. intros k Hk.
  apply elem_of_seq in Hk. lia.
Qed.

Section RelationFacts.
Context {F : Type} `{Arith F} `{Elementary F}.
Implicit Types (self : RepresentationProjectionLayer (F := F))
  (l q k : Linear (F := F)) (t hidden : tensor F).

Lemma Linear_forward_rank3 l hidden B S :
  shape hidden = [B; S; in_features l] ->
  exists t,
    Linear_forward l hidden = Ok t
    /\ shape t = [B; S; out_features l]
    /\ forall b s o, data t [b; s; o] = project l hidden b s o.
Proof.
  intros Hshape. unfold Linear_forward, ndim. rewrite Hshape.
  cbn [length Nat.leb Nat.sub nth andb]. rewrite Nat.eqb_refl.
  eexists. split; [reflexivity|]. split; reflexivity.
Qed.

Lemma transpose_for_scores_spec self t B S heads hs :
  num_attention_heads self = Some heads ->
  attention_head_size self = Some hs ->
  shape t = [B; S; heads * hs] ->
  exists t',
    transpose_for_scores self t = Ok t'
    /\ shape t' = [B; heads; S; hs]
    /\ forall b h s d, b < B -> h < heads -> s < S -> d < hs ->
         data t' [b; h; s; d] = data t [b; s; h * hs + d].
Proof.
  intros Hheads Hhs Hshape.
  unfold transpose_for_scores. rewrite Hheads, Hhs. cbn [not_none mbind result_bind].
  unfold torch.reshape, numel. rewrite Hshape.
  cbn [removelast app fold_right].
  replace (B * (S * (heads * (hs * 1))) =? B * (S * (heads * hs * 1))) with true
    by (symmetry; apply Nat.eqb_eq; ring).
  cbn [mbind result_bind].
  eexists. split; [reflexivity|]. split; [reflexivity|].
  intros b h s d Hb Hh Hs Hd. cbn [data shape ndim length seq map nth torch.position Nat.eqb].
  by rewrite unravel_split_last.
Qed.
Lemma relation_scores_spec self features hidden B S heads hs q k :
  getitem_seq features (layer_to_use self) = Ok hidden ->
  shape hidden = [B; S; hidden_size self] ->
  num_attention_heads self = Some heads ->
  attention_head_size self = Some hs ->
  query self = Some q -> key self = Some k ->
  in_features q = hidden_size self -> out_features q = heads * hs ->
  in_features k = hidden_size self -> out_features k = heads * hs ->
  exists x,
    relation_scores self features = Ok x
    /\ shape x = [B; S; S; heads]
    /\ forall b i j h, b < B -> i < S -> j < S -> h < heads ->
         data x [b; i; j; h] = pair_score q k hidden hs b i j h.
Proof.
  intros Hchosen Hshape Hheads Hhs Hq Hk Hqin Hqout Hkin Hkout.
  unfold relation_scores. rewrite Hchosen, Hk, Hq, Hhs.
  cbn [not_none mbind result_bind].
  destruct (Linear_forward_rank3 k hidden B S) as (kp & -> & Hkps & Hkpd);
    [by rewrite Hkin|].
  cbn [mbind result_bind].
  destruct (transpose_for_scores_spec self kp B S heads hs)
    as (kl & -> & Hkls & Hkld); [done | done | by rewrite Hkps, Hkout |].
  cbn [mbind result_bind].
  destruct (Linear_forward_rank3 q hidden B S) as (qp & -> & Hqps & Hqpd);
    [by rewrite Hqin|].
  cbn [mbind result_bind].
  destruct (transpose_for_scores_spec self qp B S heads hs)
    as (ql & -> & Hqls & Hqld); [done | done | by rewrite Hqps, Hqout |].
  cbn [mbind result_bind].
  unfold torch.transpose_last2, torch.permute, ndim. rewrite Hkls.
  cbn [length Nat.leb Nat.sub seq app torch.is_permutation Nat.eqb forallb
       existsb orb andb map nth mbind result_bind].
  unfold torch.matmul, ndim. cbn [shape]. rewrite Hqls.
  cbn [length Nat.leb Nat.sub Nat.eqb andb take nth app].
  rewrite bool_decide_eq_true_2 by done. rewrite Nat.eqb_refl.
  cbn [andb mbind result_bind].
  unfold torch.div_scalar, torch.map_entries. cbn [shape data].
  cbn [length Nat.leb Nat.sub seq app torch.is_permutation Nat.eqb forallb
       existsb orb andb map nth mbind result_bind].
  eexists. split; [reflexivity|]. split; [reflexivity|].
  intros b i j h Hb Hi Hj Hh.
  cbn [data map seq nth torch.position Nat.eqb take app length].
  unfold pair_score. f_equal. apply fsum_ext. intros d Hd.
  rewrite Hqld, Hkld by done. by rewrite Hqpd, Hkpd.
Qed.
End RelationFacts.

Lemma tanh_lt_1 (x : R) : (Rtrigo_def.tanh x < 1)%R.
Proof.
  unfold Rtrigo_def.tanh, sinh, cosh.
  pose proof (exp_pos x). pose proof (exp_pos (- x)).
  set (a := ((exp x - exp (- x)) / 2)%R).
  set (b := ((exp x + exp (- x)) / 2)%R).
  assert (0 < b)%R by (unfold b; lra).
  assert (a < b)%R by (unfold a, b; lra).
  apply (Rmult_lt_reg_r b); [done|].
  unfold Rdiv. rewrite Rmult_assoc, Rinv_l by lra. lra.
Qed.

(** C3 (amended). In relation mode (a layer constructed with the relation
    flag and without the tagger flag) [forward] returns a tensor of shape
    (batch, seq, seq, heads) whose entry at (b, i, j, h) is the hyperbolic
    tangent of the dropout of the scaled dot product
    [(query_i . key_j) / sqrt(head_size)] of head h: only the learned linear
    transform is replaced by the identity in relation mode, dropout and the
    hyperbolic tangent are applied as in every other mode. *)
Theorem relation_features_are_tanh_of_scores
    {F : Type} `{Arith F} `{Elementary F} `{FromFloat F}
    rnd name prob hsize chosen heads hs
    (self : RepresentationProjectionLayer (F := F)) (training : bool)
    (features : list (tensor F)) (event_tokens : option (tensor nat))
    (first hidden : tensor F) (B S : nat) :
  RepresentationProjectionLayer_init rnd name prob hsize chosen
    false false true heads hs = Ok self ->
  getitem_seq features 0 = Ok first ->
  2 <= ndim first ->
  getitem_seq features chosen = Ok hidden ->
  shape hidden = [B; S; hsize] ->
  exists x q k,
    query self = Some q /\ key self = Some k
    /\ RepresentationProjectionLayer_forward self training features event_tokens
       = Ok x
    /\ shape x = [B; S; S; Z.to_nat heads]
    /\ forall b i j h, b < B -> i < S -> j < S -> h < Z.to_nat heads ->
         data x [b; i; j; h]
         = ftanh (dropped (dropout self) training [b; i; j; h]
                    (pair_score q k hidden hs b i j h)).
Proof.
  intros Hinit Hfirst Hrank Hchosen Hshape.
  unfold RepresentationProjectionLayer_init in Hinit.
  rewrite new_Dropout_accepted in Hinit.
  destruct (accepted_probability prob); [|discriminate].
  cbn [mbind result_bind] in Hinit.
  destruct (heads <=? 0)%Z; [discriminate|]. simpl in Hinit.
  injection Hinit as <-.
  destruct (lookup_lt_is_Some_2 (shape first) 1 Hrank) as [n Hn].
  match goal with |- context [query ?layer] => set (self := layer) end.
  set (q := new_Linear rnd (name +:+ ".query") hsize (Z.to_nat heads * hs)).
  set (k := new_Linear rnd (name +:+ ".key") hsize (Z.to_nat heads * hs)).
  destruct (relation_scores_spec self features hidden B S (Z.to_nat heads) hs q k)
    as (x & Hx & Hxs & Hxd); try done.
  exists (torch.tanh (Dropout_forward (dropout self) training x)), q, k.
  split; [reflexivity|]. split; [reflexivity|].
  split_and!.
  - unfold RepresentationProjectionLayer_forward. rewrite Hfirst.
    cbn [mbind result_bind].
    rewrite (size_lookup first 1 n Hn).
    cbn [mbind result_bind]. change (tokens self) with false.
    change (tagger self) with false. change (relations self) with true.
    cbn match. by rewrite Hx.
  - unfold Dropout_forward. by destruct training.
  - intros b i j h Hb Hi Hj Hh. cbn [torch.tanh torch.map_entries data].
    f_equal. unfold Dropout_forward, dropped.
    destruct training; cbn [data]; by rewrite Hxd.
Qed.

Lemma relation_features_are_tanh_of_scores_witness :
  exists self,
    pair_layer = Ok self
    /\ exists x q k,
         query self = Some q /\ key self = Some k
         /\ RepresentationProjectionLayer_forward self true [pair_hidden] None
            = Ok x
         /\ shape x = [1; 3; 3; Z.to_nat 2]
         /\ forall b i j h, b < 1 -> i < 3 -> j < 3 -> h < Z.to_nat 2 ->
              data x [b; i; j; h]
              = ftanh (dropped (dropout self) true [b; i; j; h]
                         (pair_score q k pair_hidden 4 b i j h)).
Proof.
  eexists. split; [reflexivity|].
  apply (relation_features_are_tanh_of_scores varied_rnd
           "feature_extractors.rel" 0.5%float 2 (-1)%Z 2%Z 4 _ true
           [pair_hidden] None pair_hidden pair_hidden 1 3); try reflexivity.
  cbn. lia.
Defined.

(** In evaluation mode, with query and key both projecting the zero vector
    to 1, the score of the only pair is 1 while the returned feature is
    tanh 1. *)
Lemma relation_features_are_raw_scores_counterexample :
  exists self x q k,
    one_head_layer = Ok self
    /\ query self = Some q /\ key self = Some k
    /\ RepresentationProjectionLayer_forward self false [zero_hidden] None = Ok x
    /\ pair_score q k zero_hidden 1 0 0 0 0 = 1%R
    /\ data x [0; 0; 0; 0] = Rtrigo_def.tanh 1
    /\ data x [0; 0; 0; 0] <> pair_score q k zero_hidden 1 0 0 0 0.
Proof.
  eexists _, _, _, _.
  split; [reflexivity|]. split; [reflexivity|]. split; [reflexivity|].
  split; [reflexivity|].
  assert (pair_score (F := R)
            (new_Linear example_rnd ("feature_extractors.rel" +:+ ".query") 1 (Z.to_nat 1 * 1))
            (new_Linear example_rnd ("feature_extractors.rel" +:+ ".key") 1 (Z.to_nat 1 * 1))
            zero_hidden 1 0 0 0 0 = 1%R) as Hscore.
  { unfold pair_score, project, fsum. cbn. rewrite sqrt_1. lra. }
  split; [exact Hscore|].
  assert (forall a b : R, a = b -> Rtrigo_def.tanh a = Rtrigo_def.tanh b) as Hcongr
    by (by intros ?? ->).
  match goal with |- ?entry = _ /\ _ =>
    assert (entry = Rtrigo_def.tanh 1) as Hentry
  end.
  { cbn. apply Hcongr. rewrite sqrt_1. lra. }
  split; [exact Hentry|].
  rewrite Hentry, Hscore. pose proof (tanh_lt_1 1). lra.
Qed.

(** ** Token-pooling mode of the projection layer *)

Lemma stretch_small n i : i < n -> (if n =? 1 then 0 else i) = i.
Proof. intros Hi. destruct (Nat.eqb_spec n 1); lia. Qed.

Lemma sum_ok {G} `{Arith G} d (t : tensor G) n :
  shape t !! d = Some n ->
  torch.sum d t
  = Ok (Tensor (remove_at d (shape t))
               (fun idx => fsum n (fun k => data t (insert_at d k idx)))).
Proof. unfold torch.sum. by intros ->. Qed.

Lemma expand_ok {A} sizes (t : tensor A) :
  torch.expandable (shape t) sizes = true ->
  torch.expand sizes t
  = Ok (Tensor sizes (fun idx => data t (torch.broadcast_index (shape t) idx))).
Proof. unfold torch.expand. by intros ->. Qed.

Lemma broadcast_rev_same r : torch.broadcast_rev r r = Some r.
Proof.
  induction r as [|a r IH]; [done|]. simpl.
  by rewrite Nat.eqb_refl, IH.
Qed.

Lemma broadcast_shapes_same s : torch.broadcast_shapes s s = Some s.
Proof.
  unfold torch.broadcast_shapes. rewrite broadcast_rev_same. simpl.
  by rewrite reverse_involutive.
Qed.

Lemma pointwise_ok {G} (op : G -> G -> G) (a b : tensor G) :
  shape b = shape a ->
  torch.pointwise op a b
  = Ok (Tensor (shape a)
               (fun idx => op (data a (torch.broadcast_index (shape a) idx))
                              (data b (torch.broadcast_index (shape a) idx)))).
Proof.
  intros Hs. unfold torch.pointwise. by rewrite Hs, broadcast_shapes_same.
Qed.

Section TokenPoolFacts.
Context {F : Type} `{Arith F}.
Implicit Types (self : RepresentationProjectionLayer (F := F))
  (first chosen : tensor F) (mask : tensor nat).

Lemma token_pool_spec self features mask first chosen B S :
  getitem_seq features 0 = Ok first ->
  shape first !! 0 = Some B ->
  getitem_seq features (layer_to_use self) = Ok chosen ->
  shape chosen = [B; S; hidden_size self] ->
  shape mask = [B; S] ->
  exists x,
    token_pool self features (Some mask) S = Ok x
    /\ shape x = [B; hidden_size self]
    /\ forall b h, b < B -> h < hidden_size self ->
         data x [b; h]
         = fdiv (masked_sum chosen mask S b h) (of_nat (mask_count mask S b)).
Proof.
  intros Hfirst Hbatch Hchosen Hcs Hms.
  unfold token_pool. cbn [not_none mbind result_bind].
  rewrite (sum_ok 1 mask S) by (by rewrite Hms).
  cbn [mbind result_bind].
  rewrite (unsqueeze_ok 2 mask) by (unfold ndim; rewrite Hms; cbn; lia).
  cbn [mbind result_bind]. rewrite Hfirst. cbn [mbind result_bind].
  rewrite (size_lookup first 0 B Hbatch). cbn [mbind result_bind].
  rewrite (expand_ok [B; S; hidden_size self]); cycle 1.
  { cbn [shape]. rewrite Hms. unfold torch.expandable, insert_at. cbn.
    by rewrite !Nat.eqb_refl, ?orb_true_r. }
  cbn [mbind result_bind]. rewrite Hchosen. cbn [mbind result_bind].
  unfold torch.mul. rewrite (pointwise_ok fmul chosen) by (by rewrite Hcs).
  cbn [mbind result_bind].
  rewrite (sum_ok 1 (Tensor (shape chosen) _) S) by (cbn [shape]; by rewrite Hcs).
  cbn [mbind result_bind].
  rewrite unsqueeze_ok by (unfold ndim; cbn [shape]; rewrite Hms; cbn; lia).
  cbn [mbind result_bind].
  rewrite expand_ok; cycle 1.
  { cbn [shape]. rewrite Hms. unfold torch.expandable, insert_at, remove_at. cbn.
    by rewrite !Nat.eqb_refl, ?orb_true_r. }
  cbn [mbind result_bind].
  unfold torch.div. rewrite pointwise_ok; cycle 1.
  { cbn [shape torch.map_entries]. by rewrite Hcs. }
  eexists. split; [reflexivity|]. cbn [shape data torch.map_entries].
  rewrite Hcs, Hms. split; [reflexivity|].
  intros b h Hb Hh.
  unfold torch.broadcast_index, insert_at, remove_at.
  cbn [data length Nat.sub drop take app zip_with].
  unfold masked_sum, mask_count.
  f_equal; [|f_equal]; apply fsum_ext; intros s Hs;
    repeat match goal with
           | |- context [if ?n =? 1 then 0 else ?i] =>
               rewrite (stretch_small n i) by lia
           end; reflexivity.
Qed.
End TokenPoolFacts.

Lemma masked_fold (f : nat -> R) (m : nat -> nat) (l : list nat) (acc : R) :
  Forall (fun s => m s = 0 \/ m s = 1) l ->
  fold_left (fun a s => fadd a (fmul (f s) (of_nat (m s)))) l acc
  = fold_left Rplus (map f (filter (fun s => m s = 1) l)) acc.
Proof.
  revert acc. induction l as [|s l IH]; intros acc Hl; [done|].
  inversion Hl as [|? ? Hs Hl']; subst. cbn [fold_left].
  rewrite IH by done. rewrite filter_cons.
  destruct Hs as [Hs|Hs]; rewrite Hs.
  - rewrite decide_False by done. f_equal. simpl. lra.
  - rewrite decide_True by done. cbn [map fold_left]. f_equal. simpl. lra.
Qed.

Lemma count_fold (m : nat -> nat) (l : list nat) (acc : nat) :
  Forall (fun s => m s = 0 \/ m s = 1) l ->
  fold_left (fun a s => fadd a (m s)) l acc
  = acc + length (filter (fun s => m s = 1) l).
Proof.
  revert acc. induction l as [|s l IH]; intros acc Hl; [simpl; lia|].
  inversion Hl as [|? ? Hs Hl']; subst. cbn [fold_left].
  rewrite IH by done. rewrite filter_cons.
  destruct Hs as [Hs|Hs]; rewrite Hs.
  - rewrite decide_False by done. simpl. lia.
  - rewrite decide_True by done. simpl. lia.
Qed.

Lemma is_mask_row mask B S b :
  is_mask mask B S -> b < B ->
  Forall (fun s => data mask [b; s] = 0 \/ data mask [b; s] = 1) (seq 0 S).
Proof.
  intros Hmask Hb. apply Forall_forall. intros s Hs.
  apply elem_of_seq in Hs. apply Hmask; lia.
Qed.

Lemma masked_sum_mean (chosen : tensor R) mask B S b h :
  is_mask mask B S -> b < B ->
  (masked_sum chosen mask S b h / of_nat (mask_count mask S b))%R
  = mean_over (masked_positions mask S b) (fun s => data chosen [b; s; h]).
Proof.
  intros Hmask Hb. unfold masked_sum, mask_count, mean_over, masked_positions, fsum.
  pose proof (is_mask_row mask B S b Hmask Hb) as Hrow.
  rewrite (masked_fold (fun s => data chosen [b; s; h])
             (fun s => data mask [b; s])) by done.
  rewrite (count_fold (fun s => data mask [b; s])) by done.
  reflexivity.
Qed.

(** *** Binary64 sums over a mask that selects nothing *)

Lemma mul_zero_zero_or_nan (x : float) : zero_or_nan (PrimFloat.mul x 0%float).
Proof.
  unfold zero_or_nan. rewrite FloatAxioms.mul_spec.
  change (Prim2SF 0%float) with (S754_zero false).
  by destruct (Prim2SF x).
Qed.

Lemma add_zero_or_nan (x y : float) :
  zero_or_nan x -> zero_or_nan y -> zero_or_nan (PrimFloat.add x y).
Proof.
  unfold zero_or_nan. rewrite FloatAxioms.add_spec.
  destruct (Prim2SF x) as [[]| | |], (Prim2SF y) as [[]| | |]; done.
Qed.

Lemma div_zero_is_nan (x : float) :
  zero_or_nan x -> PrimFloat.is_nan (PrimFloat.div x 0%float) = true.
Proof.
  unfold zero_or_nan, PrimFloat.is_nan. rewrite FloatAxioms.eqb_spec, FloatAxioms.div_spec.
  change (Prim2SF 0%float) with (S754_zero false).
  by destruct (Prim2SF x).
Qed.

Lemma fold_zero_or_nan (f : nat -> float) (l : list nat) (acc : float) :
  zero_or_nan acc ->
  Forall (fun s => zero_or_nan (f s)) l ->
  zero_or_nan (fold_left (fun a s => fadd a (f s)) l acc).
Proof.
  revert acc. induction l as [|s l IH]; intros acc Hacc Hl; [done|].
  inversion Hl as [|? ? Hs Hl']; subst. cbn [fold_left].
  apply IH; [|done]. by apply add_zero_or_nan.
Qed.

Lemma fold_zero_count (m : nat -> nat) (l : list nat) :
  Forall (fun s => m s = 0) l ->
  fold_left (fun a s => fadd a (m s)) l 0 = 0.
Proof.
  induction l as [|s l IH]; intros Hl; [done|].
  inversion Hl as [|? ? Hs Hl']; subst. cbn [fold_left].
  rewrite Hs. by apply IH.
Qed.

(** Over binary64 floats the quotient for an example whose mask selects no
    position is NaN, whatever the hidden states are. *)
Lemma empty_mask_quotient_is_nan (chosen : tensor float) (mask : tensor nat)
    (S b h : nat) :
  (forall s, s < S -> data mask [b; s] = 0) ->
  PrimFloat.is_nan
    (fdiv (masked_sum chosen mask S b h) (of_nat (mask_count mask S b))) = true.
Proof.
  intros Hempty.
  assert (Forall (fun s => data mask [b; s] = 0) (seq 0 S)) as Hrow.
  { apply Forall_forall. intros s Hs. apply elem_of_seq in Hs.
    apply Hempty. lia. }
  unfold mask_count, masked_sum, fsum.
  rewrite (fold_zero_count (fun s => data mask [b; s])) by done.
  apply div_zero_is_nan.
  apply (fold_zero_or_nan
           (fun s => fmul (data chosen [b; s; h]) (of_nat (data mask [b; s])))).
  - done.
  - eapply Forall_impl; [exact Hrow|]. intros s Hs. cbn beta in Hs |- *.
    rewrite Hs. apply mul_zero_zero_or_nan.
Qed.

(** C4 (amended). In token-pooling mode [forward] returns the dropout, the
    linear layer and the hyperbolic tangent of a pooled vector, which is,
    for every example, the sum of the chosen layer's hidden vectors weighted
    by the mask divided by the sum of the mask over the example.  For a 0/1
    mask that selects at least one position of the example this is the mean
    of the hidden vectors over the masked positions (over the real numbers).
    There is no guard on the count: for an example whose mask selects no
    position [forward] does not raise on its account, and over binary64
    floats the pooled entries of that example are NaN. *)
Theorem token_pooling_is_masked_mean :
  (forall {F : Type} `{Arith F} `{Elementary F}
      (self : RepresentationProjectionLayer (F := F)) (training : bool)
      (features : list (tensor F)) (mask : tensor nat)
      (first chosen : tensor F) (B S : nat),
      tokens self = true ->
      getitem_seq features 0 = Ok first ->
      shape first = [B; S; hidden_size self] ->
      getitem_seq features (layer_to_use self) = Ok chosen ->
      shape chosen = [B; S; hidden_size self] ->
      shape mask = [B; S] ->
      exists pooled,
        token_pool self features (Some mask) S = Ok pooled
        /\ RepresentationProjectionLayer_forward self training features
             (Some mask)
           = (x ← Dense_forward (dense self)
                    (Dropout_forward (dropout self) training pooled);
              Ok (torch.tanh x))
        /\ shape pooled = [B; hidden_size self]
        /\ forall b h, b < B -> h < hidden_size self ->
             data pooled [b; h]
             = fdiv (masked_sum chosen mask S b h)
                    (of_nat (mask_count mask S b)))
  /\ (forall (chosen : tensor R) (mask : tensor nat) (B S b h : nat),
        is_mask mask B S -> b < B ->
        masked_positions mask S b <> [] ->
        fdiv (masked_sum chosen mask S b h) (of_nat (mask_count mask S b))
        = mean_over (masked_positions mask S b)
            (fun s => data chosen [b; s; h]))
  /\ (forall (chosen : tensor float) (mask : tensor nat) (S b h : nat),
        (forall s, s < S -> data mask [b; s] = 0) ->
        PrimFloat.is_nan
          (fdiv (masked_sum chosen mask S b h) (of_nat (mask_count mask S b)))
        = true).
Proof.
  split_and!.
  - intros F ? ? self training features mask first chosen B S
      Htokens Hfirst Hfs Hchosen Hcs Hms.
    destruct (token_pool_spec self features mask first chosen B S)
      as (pooled & Hpool & Hps & Hpd); try done.
    { by rewrite Hfs. }
    exists pooled. split_and!; try done.
    unfold RepresentationProjectionLayer_forward.
    rewrite Hfirst. cbn [mbind result_bind].
    rewrite (size_lookup first 1 S) by (by rewrite Hfs).
    cbn [mbind result_bind]. rewrite Htokens, Hpool. reflexivity.
  - intros chosen mask B S b h Hmask Hb _.
    by apply (masked_sum_mean chosen mask B).
  - apply empty_mask_quotient_is_nan.
Qed.
Lemma token_pooling_is_masked_mean_witness :
  (exists self,
      real_token_layer = Ok self
      /\ exists pooled,
           token_pool self [real_hidden] (Some entity_mask) 3 = Ok pooled
           /\ data pooled [0; 0]
              = mean_over [0; 2] (fun s => data real_hidden [0; s; 0])
           /\ data pooled [1; 0]
              = mean_over [1] (fun s => data real_hidden [1; s; 0]))
  /\ PrimFloat.is_nan
       (fdiv (masked_sum float_pair_hidden half_empty_mask 2 1 0)
             (of_nat (mask_count half_empty_mask 2 1))) = true.
Proof.
  destruct token_pooling_is_masked_mean as (Hpool & Hmean & Hnan).
  split.
  - eexists. split; [reflexivity|].
    match goal with
    | |- context [token_pool ?layer] =>
        destruct (Hpool R _ _ layer false [real_hidden] entity_mask
                    real_hidden real_hidden 2 3)
          as (pooled & Hrun & _ & _ & Hentry)
    end; try reflexivity.
    exists pooled. split; [exact Hrun|].
    assert (is_mask entity_mask 2 3) as Hmask.
    { intros [|[|b]] [|[|[|s]]] Hb Hs; cbn; try lia; auto. }
    split.
    + rewrite (Hentry 0 0) by (cbn; lia).
      apply (Hmean real_hidden entity_mask 2 3 0 0 Hmask); [lia|discriminate].
    + rewrite (Hentry 1 0) by (cbn; lia).
      apply (Hmean real_hidden entity_mask 2 3 1 0 Hmask); [lia|discriminate].
  - apply Hnan. intros [|[|s]] Hs; [reflexivity|reflexivity|lia].
Defined.

Example token_pooling_values :
  mean_over [0; 2] (fun s => data real_hidden [0; s; 0]) = (5 / 2)%R
  /\ mean_over [1] (fun s => data real_hidden [1; s; 0]) = 16%R.
Proof. unfold mean_over. cbn. split; lra. Qed.

(** Two inputs at which the code departs from the claim.  Over binary64
    floats a mask that selects no position makes the pooled entry 0 / 0: the
    branch returns normally and the entry is NaN, there is no guard.  And
    for a mask that selects positions 0 and 2, whose hidden values 1 and 4
    have the mean 5/2, [forward] does not return that mean but its image
    under the linear layer and the hyperbolic tangent, tanh (5/2 + 1). *)
Lemma empty_mask_is_guarded_counterexample :
  (exists self pooled,
      float_token_layer = Ok self
      /\ mask_count empty_mask 1 0 = 0
      /\ token_pool self [float_hidden] (Some empty_mask) 1 = Ok pooled
      /\ data pooled [0; 0] = PrimFloat.div 0%float 0%float
      /\ PrimFloat.is_nan (data pooled [0; 0]) = true)
  /\ (exists self x,
        real_token_layer = Ok self
        /\ RepresentationProjectionLayer_forward self false [real_hidden]
             (Some entity_mask) = Ok x
        /\ mean_over (masked_positions entity_mask 3 0)
             (fun s => data real_hidden [0; s; 0]) = (5 / 2)%R
        /\ data x [0; 0] = Rtrigo_def.tanh (5 / 2 + 1)
        /\ data x [0; 0] <> (5 / 2)%R).
Proof.
  split.
  - eexists _, _. split; [reflexivity|]. split; [reflexivity|].
    split; [reflexivity|]. split; vm_compute; reflexivity.
  - eexists _, _. split; [reflexivity|]. split; [reflexivity|].
    split.
    { replace (masked_positions entity_mask 3 0) with [0; 2] by reflexivity.
      unfold mean_over. cbn. lra. }
    assert (forall a b : R, a = b -> Rtrigo_def.tanh a = Rtrigo_def.tanh b)
      as Hcongr by (by intros ?? ->).
    match goal with |- ?entry = _ /\ _ =>
      assert (entry = Rtrigo_def.tanh (5 / 2 + 1)) as Hentry
    end.
    { cbn. apply Hcongr. lra. }
    split; [exact Hentry|].
    rewrite Hentry. pose proof (tanh_lt_1 (5 / 2 + 1)). lra.
Qed.

(** The whole pipeline with fan-in: the tagging head returns (2, 3, 3)
    logits, the relation grid of width 2 is widened by these 3 labels and its
    head returns (2, 3, 3, 2) logits; without labels there is no loss, and
    nothing is logged. *)
Example forward_with_fan_in_shapes :
  fan_in_run = Logged [] (Ok ([[2; 3; 3]; [2; 3; 3; 2]], None)).
Proof. vm_compute. reflexivity. Qed.

(** * Further properties of the code *)

(** ** More on the encoder-argument filter *)

Section EncoderAdapterOrder.
Context {V : Type}.
Implicit Types (kwargs : list (string * option V)) (params : gset string).

(** X1. The warnings are one per keyword whose name is not accepted and
    whose value is not [None], in the order of the bag. *)
Theorem generalize_warnings_in_order cls params kwargs :
  (generalize_encoder_forward_kwargs cls params kwargs).2
  = map (fun kv => ParameterNotPresent kv.1 cls)
        (filter (fun kv => (kv.1 ∉ params) /\ kv.2 <> None) kwargs).
Proof.
  induction kwargs as [|[name value] kwargs IH] using rev_ind; [done|].
  rewrite generalize_snoc, filter_app, map_app, <- IH.
  destruct (generalize_encoder_forward_kwargs cls params kwargs) as [d ws].
  unfold generalize_step. cbn [snd]. rewrite filter_cons, filter_nil. cbn [fst snd].
  destruct (decide (name ∉ params)) as [Hout|Hin].
  - rewrite (bool_decide_eq_true_2 _ Hout).
    destruct value as [v|]; cbn.
    + rewrite decide_True by done. done.
    + rewrite decide_False by (intros [_ ?]; done).
      rewrite (bool_decide_eq_false_2 (name ∈ params)) by done.
      cbn. by rewrite app_nil_r.
  - rewrite (bool_decide_eq_false_2 _ Hin). cbn.
    rewrite decide_False by (intros [? _]; done).
    assert (name ∈ params) as Hin' by (by destruct (decide (name ∈ params))).
    rewrite (bool_decide_eq_true_2 _ Hin'). cbn. by rewrite app_nil_r.
Qed.

(** X2. The returned dict only has accepted keys, and passing its items
    through the filter again returns it unchanged without a warning. *)
Theorem generalize_is_idempotent cls params kwargs :
  let out := (generalize_encoder_forward_kwargs cls params kwargs).1 in
  dom out ⊆ params
  /\ generalize_encoder_forward_kwargs cls params (map_to_list out) = (out, []).
Proof.
  intros out.
  assert (forall name value, out !! name = Some value -> name ∈ params) as Hkeys.
  { intros name value. subst out. rewrite generalize_dict.
    intros Hl. by apply map_lookup_filter_Some in Hl as [_ ?]. }
  split.
  - intros name [value Hl]%elem_of_dom. by eapply Hkeys.
  - apply injective_projections.
    + rewrite generalize_dict.
      rewrite (list_to_map_proper (reverse (map_to_list out)) (map_to_list out)).
      * rewrite list_to_map_to_list. apply map_filter_id.
        intros name value Hl. by eapply Hkeys.
      * rewrite fmap_reverse, reverse_Permutation. apply NoDup_fst_map_to_list.
      * apply reverse_Permutation.
    + cbn [snd].
      destruct (generalize_encoder_forward_kwargs cls params (map_to_list out)).2
        as [|w ws] eqn:Hws; [done|].
      assert (w ∈ (generalize_encoder_forward_kwargs cls params
                     (map_to_list out)).2) as Hw
        by (rewrite Hws; apply elem_of_cons; by left).
      apply generalize_warnings in Hw as (name & v & _ & Hout & Hel).
      apply elem_of_map_to_list in Hel. exfalso. apply Hout. by eapply Hkeys.
Qed.
End EncoderAdapterOrder.

(** ** Fine-tuning controls *)

Lemma prefix_app (sub s : string) :
  String.prefix sub s = true <-> exists rest, s = sub +:+ rest.
Proof.
  revert s. induction sub as [|c sub IH]; intros s.
  - split; [intros _; by exists s | by destruct s].
  - destruct s as [|c' s]; simpl.
    + split; [discriminate | by intros [rest [=]]].
    + destruct (Ascii.ascii_dec c c') as [->|Hne].
      * rewrite IH. split; intros [rest Hrest]; exists rest.
        -- by rewrite Hrest.
        -- by injection Hrest.
      * split; [discriminate|]. intros [rest [= ? _]]. done.
Qed.

(** [contains sub s] holds exactly when [sub] occurs in [s] as a
    contiguous substring. *)
Lemma contains_substring (sub s : string) :
  contains sub s = true <-> exists before after, s = before +:+ sub +:+ after.
Proof.
  induction s as [|c s IH]; cbn [contains].
  - destruct (String.prefix sub "") eqn:Hp.
    + split; [intros _|done]. apply prefix_app in Hp as [rest ->]. by exists "", rest.
    + split; [done|]. intros (before & after & Heq).
      destruct before; [|discriminate].
      assert (String.prefix sub "" = true) as Hp'
        by (apply prefix_app; by exists after).
      congruence.
  - destruct (String.prefix sub (String c s)) eqn:Hp.
    + split; [intros _|done]. apply prefix_app in Hp as [rest ->]. by exists "", rest.
    + rewrite IH. split.
      * intros (before & after & ->). by exists (String c before), after.
      * intros (before & after & Heq). destruct before as [|c' before].
        -- assert (String.prefix sub (String c s) = true) as Hp'
             by (apply prefix_app; by exists after).
           congruence.
        -- injection Heq as -> ->. by exists before, after.
Qed.

Lemma freeze_loop_lookup freeze darts params :
  forall k i param,
    params !! i = Some param ->
    freeze_loop freeze darts k params !! i
    = Some (if PrimFloat.leb 1%float freeze
               || PrimFloat.ltb (darts (k + i)) freeze
            then frozen param else param).
Proof.
  induction params as [|p params IH]; intros k [|i] param Hl; try done.
  - injection Hl as ->. cbn. rewrite Nat.add_0_r.
    by destruct (PrimFloat.leb 1 freeze).
  - cbn [freeze_loop]. replace (k + S i) with (S k + i) by lia.
    by apply (IH (S k) i param).
Qed.

Lemma freeze_loop_length freeze darts params k :
  length (freeze_loop freeze darts k params) = length params.
Proof. revert k. induction params; intros k; cbn; [done|]. by rewrite IHparams. Qed.

(** X3. What the two controls of [__init__] leave of the encoder's
    parameters: the same number of parameters, and the parameter at each
    position keeps its name and is trainable afterwards exactly when it was
    trainable before, stochastic freezing (applied only for [freeze > 0])
    did not hit it, and, with bias-only fine-tuning, its name contains
    "bias". *)
Theorem init_trainability_pointwise params freeze bias_fit darts i param :
  params !! i = Some param ->
  length (init_trainability params freeze bias_fit darts) = length params
  /\ exists param',
       init_trainability params freeze bias_fit darts !! i = Some param'
       /\ param_name param' = param_name param
       /\ requires_grad param'
          = requires_grad param
            && negb (PrimFloat.ltb 0%float freeze
                     && (PrimFloat.leb 1%float freeze
                         || PrimFloat.ltb (darts i) freeze))
            && negb (bias_fit && negb (contains "bias" (param_name param))).
Proof.
  intros Hl.
  unfold init_trainability, freeze_encoder_weights, bias_fit_loop. split.
  - destruct (PrimFloat.ltb 0 freeze), bias_fit;
      rewrite ?length_map, ?freeze_loop_length; done.
  - pose proof (freeze_loop_lookup freeze darts params 0 i param Hl) as Hfrozen.
    cbn [Nat.add] in Hfrozen.
    destruct (PrimFloat.ltb 0 freeze), bias_fit; cbn [andb negb];
      rewrite ?list_lookup_fmap, ?Hfrozen, ?Hl; cbn [fmap option_fmap option_map];
      eexists; (split; [reflexivity|]);
      destruct param as [name grad]; unfold frozen;
      cbn [param_name requires_grad];
      destruct (PrimFloat.leb 1 freeze), (PrimFloat.ltb (darts i) freeze), grad;
      cbn [orb andb negb param_name requires_grad];
      try destruct (contains "bias" name);
      cbn; auto.
Qed.

Lemma init_trainability_pointwise_witness :
  length (init_trainability example_params 0.5%float true example_darts)
  = length example_params
  /\ exists param',
       init_trainability example_params 0.5%float true example_darts !! 1
       = Some param'
       /\ param_name param' = "layer.0.bias"
       /\ requires_grad param'
          = true
            && negb (PrimFloat.ltb 0%float 0.5%float
                     && (PrimFloat.leb 1%float 0.5%float
                         || PrimFloat.ltb (example_darts 1) 0.5%float))
            && negb (true && negb (contains "bias" "layer.0.bias")).
Proof.
  apply (init_trainability_pointwise example_params 0.5%float true
           example_darts 1 {| param_name := "layer.0.bias";
                              requires_grad := true |}).
  reflexivity.
Defined.

(** X4. [freeze_encoder_weights] with [freeze >= 1] freezes every
    parameter, whatever the random draws, and keeps names and order. *)
Theorem freeze_at_least_one_freezes_all params freeze darts :
  PrimFloat.leb 1%float freeze = true ->
  freeze_encoder_weights params freeze darts = map frozen params.
Proof.
  intros Hall. unfold freeze_encoder_weights. generalize 0.
  induction params as [|param params IH]; intros k; cbn; [done|].
  by rewrite Hall, IH.
Qed.

Lemma freeze_at_least_one_freezes_all_witness :
  freeze_encoder_weights example_params 1.5%float example_darts
  = map frozen example_params.
Proof.
  apply (freeze_at_least_one_freezes_all example_params 1.5%float example_darts).
  reflexivity.
Defined.

(** X5. After the bias-only loop a parameter is trainable exactly when it
    was trainable and its name contains "bias" as a substring; names and
    order are kept. *)
Theorem bias_fit_keeps_bias_terms params :
  Forall2 (fun param param' =>
             param_name param' = param_name param
             /\ (requires_grad param' = true <->
                 requires_grad param = true
                 /\ exists before after,
                      param_name param = before +:+ "bias" +:+ after))
          params (bias_fit_loop params).
Proof.
  unfold bias_fit_loop. induction params as [|param params IH]; cbn; [done|].
  constructor; [|done].
  rewrite <- contains_substring.
  destruct (contains "bias" (param_name param)), param as [name []]; cbn;
    intuition congruence.
Qed.

(** ** The encoder attributes of [CnlpConfig] *)

(** X6. [CnlpConfig.__init__] turns a missing key into the [ValueError]
    about an unsupported encoder API only in its last branch: the encoder
    name does not start with "distilbert", the config has a model type other
    than "modernbert", and "hidden_dropout_prob" or, when that is there,
    "hidden_size" is missing; the message names the first of the two that is
    missing. *)
Theorem unsupported_encoder_api_exactly encoder_name encoder_config msg :
  CnlpConfig_encoder_attributes encoder_name encoder_config
  = Raise (ValueError msg)
  <-> String.prefix "distilbert" encoder_name = false
      /\ (exists model_type,
             encoder_config !! "model_type" = Some model_type
             /\ is_modernbert model_type = false)
      /\ ((encoder_config !! "hidden_dropout_prob" = None
           /\ msg = unsupported_encoder_api "hidden_dropout_prob")
          \/ (is_Some (encoder_config !! "hidden_dropout_prob")
              /\ encoder_config !! "hidden_size" = None
              /\ msg = unsupported_encoder_api "hidden_size")).
Proof.
  unfold CnlpConfig_encoder_attributes, getitem_dict.
  destruct (String.prefix "distilbert" encoder_name).
  { split; [|intros [? _]; done].
    destruct (encoder_config !! "dropout"), (encoder_config !! "dim"); done. }
  destruct (encoder_config !! "model_type") as [model_type|] eqn:Htype; cbn.
  2: { split; [done|]. intros (_ & (? & ? & _) & _). done. }
  destruct (is_modernbert model_type) eqn:Hmodern.
  { split.
    - destruct (encoder_config !! "hidden_size"),
        (encoder_config !! "mlp_dropout"),
        (encoder_config !! "attention_dropout"),
        (encoder_config !! "embedding_dropout"),
        (encoder_config !! "classifier_dropout"); done.
    - intros (_ & (? & [= <-] & ?) & _). congruence. }
  destruct (encoder_config !! "hidden_dropout_prob") as [dropout|]; cbn.
  - destruct (encoder_config !! "hidden_size") as [hidden|]; cbn.
    + split; [done|]. intros (_ & _ & [[? _]|(_ & ? & _)]); done.
    + split.
      * intros [= <-]. split; [done|]. split; [by eexists|]. right. done.
      * intros (_ & _ & [[? _]|(_ & _ & ->)]); done.
  - split.
    + intros [= <-]. split; [done|]. split; [by eexists|]. left. done.
    + intros (_ & _ & [[_ ->]|([? ?] & _)]); done.
Qed.

(** X7. Whatever the encoder family, the attributes that come back were
    read from the encoder's config: the hidden size from "dim" or
    "hidden_size", the dropout from "dropout", "mlp_dropout" or
    "hidden_dropout_prob"; and the four ModernBERT dropouts are set
    together, in which case the dropout used downstream is the MLP
    dropout. *)
Theorem encoder_attributes_come_from_config encoder_name encoder_config attrs :
  CnlpConfig_encoder_attributes encoder_name encoder_config = Ok attrs ->
  (exists key, key ∈ ["dim"; "hidden_size"]
               /\ encoder_config !! key = Some (attr_hidden_size attrs))
  /\ (exists key, key ∈ ["dropout"; "mlp_dropout"; "hidden_dropout_prob"]
                  /\ encoder_config !! key = Some (attr_hidden_dropout_prob attrs))
  /\ (attr_mlp_dropout attrs = None
      /\ attr_attention_dropout attrs = None
      /\ attr_embedding_dropout attrs = None
      /\ attr_classifier_dropout attrs = None
      \/ attr_mlp_dropout attrs = Some (attr_hidden_dropout_prob attrs)
         /\ attr_attention_dropout attrs = encoder_config !! "attention_dropout"
         /\ attr_embedding_dropout attrs = encoder_config !! "embedding_dropout"
         /\ attr_classifier_dropout attrs = encoder_config !! "classifier_dropout"
         /\ String.prefix "distilbert" encoder_name = false
         /\ encoder_config !! "model_type" = Some (ConfigStr "modernbert")).
Proof.
  unfold CnlpConfig_encoder_attributes, getitem_dict.
  destruct (String.prefix "distilbert" encoder_name).
  { destruct (encoder_config !! "dropout") eqn:?,
      (encoder_config !! "dim") eqn:?; try done.
    intros [= <-]. cbn. split; [exists "dim"; set_solver|].
    split; [exists "dropout"; set_solver|]. by left. }
  destruct (encoder_config !! "model_type") as [model_type|] eqn:Htype; [|done].
  cbn. destruct (is_modernbert model_type) eqn:Hmodern.
  { destruct (encoder_config !! "hidden_size") eqn:?,
      (encoder_config !! "mlp_dropout") eqn:?,
      (encoder_config !! "attention_dropout") eqn:?,
      (encoder_config !! "embedding_dropout") eqn:?,
      (encoder_config !! "classifier_dropout") eqn:?; try done.
    intros [= <-]. cbn. split; [exists "hidden_size"; set_solver|].
    split; [exists "mlp_dropout"; set_solver|]. right.
    repeat split.
    destruct model_type as [s| |]; try done. cbn in Hmodern.
    apply String.eqb_eq in Hmodern. by subst. }
  destruct (encoder_config !! "hidden_dropout_prob") eqn:?,
    (encoder_config !! "hidden_size") eqn:?; try done.
  intros [= <-]. cbn. split; [exists "hidden_size"; set_solver|].
  split; [exists "hidden_dropout_prob"; set_solver|]. by left.
Qed.

Lemma encoder_attributes_come_from_config_witness :
  exists key, key ∈ ["dim"; "hidden_size"]
              /\ modernbert_config !! key = Some (ConfigInt 768).
Proof.
  pose proof (encoder_attributes_come_from_config "answerdotai/ModernBERT-base"
                modernbert_config
                {| attr_hidden_dropout_prob := ConfigFloat 0%float;
                   attr_hidden_size := ConfigInt 768;
                   attr_attention_dropout := Some (ConfigFloat 0%float);
                   attr_embedding_dropout := Some (ConfigFloat 0%float);
                   attr_mlp_dropout := Some (ConfigFloat 0%float);
                   attr_classifier_dropout := Some (ConfigFloat 0%float) |}
                eq_refl) as [Hsize _].
  exact Hsize.
Defined.

(** ** [cnlpt.api.utils] *)

(** X8. [create_instance_string] needs two offsets: it returns a string
    exactly when there are at least two, raises [IndexError] exactly when
    there are fewer, and never reads an offset beyond the second. *)
Theorem create_instance_string_needs_two_offsets doc_text offsets :
  (is_ok (create_instance_string doc_text offsets) = true
   <-> 2 <= length offsets)
  /\ (create_instance_string doc_text offsets = Raise IndexError
      <-> length offsets < 2)
  /\ create_instance_string doc_text offsets
     = create_instance_string doc_text (take 2 offsets).
Proof.
  unfold create_instance_string.
  change 0%Z with (Z.of_nat 0). change 1%Z with (Z.of_nat 1).
  rewrite !getitem_seq_nat.
  destruct offsets as [|first [|second rest]]; cbn;
    (split; [|split]); try done; split; (done || lia).
Qed.

Lemma replace_newlines_lookup (s : text) i c :
  s !! i = Some c ->
  replace_newlines s !! i = Some (if Ascii.eqb c newline then space else c).
Proof.
  revert i. induction s as [|c' s IH]; intros [|i] Hl; try done.
  - by injection Hl as ->.
  - by apply IH.
Qed.

Lemma replace_newlines_clean (s : text) : newline ∉ replace_newlines s.
Proof.
  induction s as [|c s IH]; cbn; [by intros ?%elem_of_nil|].
  intros [Hc|Hin]%elem_of_cons; [|done].
  destruct (Ascii.eqb c newline) eqn:Heq.
  - discriminate.
  - apply Ascii.eqb_neq in Heq. congruence.
Qed.

(** X9. With the offsets [first] and [second], [create_instance_string]
    returns the marked window (what lies in the document from 100
    characters before [first] up to [first], [" <e> "], what lies between
    the offsets, [" </e> "], and what lies from [second] to 100 characters
    after it) with every line break replaced by a space: the result has the
    window's length, at every position the window's character or, for a
    line break, a space; and it has no line break. *)
Theorem create_instance_string_has_no_newline doc_text offsets first second :
  offsets !! 0 = Some first ->
  offsets !! 1 = Some second ->
  let window :=
    py_slice doc_text (Z.max 0 (first - 100)) first ++ open_marker
    ++ py_slice doc_text first second ++ close_marker
    ++ py_slice doc_text second
         (Z.min (Z.of_nat (length doc_text)) (second + 100)) in
  exists out,
    create_instance_string doc_text offsets = Ok out
    /\ (newline ∉ out)
    /\ length out = length window
    /\ forall i c, window !! i = Some c ->
         out !! i = Some (if Ascii.eqb c newline then space else c).
Proof.
  intros Hfirst Hsecond window.
  assert (getitem_seq offsets 0 = Ok first) as Hget0.
  { change 0%Z with (Z.of_nat 0). by rewrite getitem_seq_nat, Hfirst. }
  assert (getitem_seq offsets 1 = Ok second) as Hget1.
  { change 1%Z with (Z.of_nat 1). by rewrite getitem_seq_nat, Hsecond. }
  unfold create_instance_string. rewrite Hget0, Hget1.
  cbn [mbind result_bind]. fold window.
  eexists. split; [reflexivity|]. split; [apply replace_newlines_clean|].
  split.
  - unfold replace_newlines. by rewrite length_map.
  - intros i c Hl. by apply replace_newlines_lookup.
Qed.

Lemma create_instance_string_has_no_newline_witness :
  exists out,
    create_instance_string two_line_doc [10; 19]%Z = Ok out
    /\ (newline ∉ out)
    /\ length out
       = length (py_slice two_line_doc (Z.max 0 (10 - 100)) 10 ++ open_marker
                 ++ py_slice two_line_doc 10 19 ++ close_marker
                 ++ py_slice two_line_doc 19
                      (Z.min (Z.of_nat (length two_line_doc)) (19 + 100)))
    /\ forall i c,
         (py_slice two_line_doc (Z.max 0 (10 - 100)) 10 ++ open_marker
          ++ py_slice two_line_doc 10 19 ++ close_marker
          ++ py_slice two_line_doc 19
               (Z.min (Z.of_nat (length two_line_doc)) (19 + 100))) !! i
         = Some c ->
         out !! i = Some (if Ascii.eqb c newline then space else c).
Proof.
  apply (create_instance_string_has_no_newline two_line_doc [10; 19]%Z
           10%Z 19%Z); reflexivity.
Defined.

Example create_instance_string_negation_doc :
  create_instance_string negation_doc [18; 27]%Z = Ok sore_knee_instance.
Proof. reflexivity. Qed.

Example create_instance_string_two_lines :
  create_instance_string two_line_doc [10; 19]%Z
  = Ok (String.list_ascii_of_string "No fever.  <e> Sore knee </e>  today.").
Proof. reflexivity. Qed.

Lemma py_slice_mid {A} (a b c : list A) (lo hi : Z) :
  lo = Z.of_nat (length a) ->
  hi = Z.of_nat (length a + length b) ->
  py_slice (a ++ b ++ c) lo hi = b.
Proof.
  intros -> ->. unfold py_slice. rewrite !length_app.
  destruct (Z.ltb_spec (Z.of_nat (length a)) 0); [lia|].
  destruct (Z.ltb_spec (Z.of_nat (length a + length b)) 0); [lia|].
  rewrite !Z.min_r, !Z.max_r by lia.
  rewrite Nat2Z.id.
  replace (Z.to_nat (Z.of_nat (length a + length b) - Z.of_nat (length a)))
    with (length b) by lia.
  rewrite drop_app_length. by rewrite take_app_length.
Qed.

(** X10. For an entity given by its offsets in the document,
    [create_instance_string] returns the at most 100 characters before the
    entity, the entity between [" <e> "] and [" </e> "], and the at most 100
    characters after it, with line breaks replaced by spaces. *)
Theorem create_instance_string_window (before entity after : text) :
  create_instance_string (before ++ entity ++ after)
    [Z.of_nat (length before); Z.of_nat (length before + length entity)]
  = Ok (replace_newlines
          (drop (length before - 100) before ++ open_marker
           ++ entity ++ close_marker ++ take 100 after)).
Proof.
  unfold create_instance_string.
  set (first := Z.of_nat (length before)).
  set (second := Z.of_nat (length before + length entity)).
  change (getitem_seq [first; second] 0) with (Ok first).
  change (getitem_seq [first; second] 1) with (Ok second).
  cbn [mbind result_bind]. subst first second.
  do 3 f_equal; [|do 3 f_equal].
  - assert (before ++ entity ++ after
            = take (length before - 100) before
              ++ drop (length before - 100) before ++ entity ++ after) as ->
      by (by rewrite (app_assoc (take _ _)), take_drop).
    apply py_slice_mid; rewrite ?length_take, ?length_drop; lia.
  - apply (py_slice_mid before entity after); lia.
  - assert (before ++ entity ++ after
            = (before ++ entity) ++ take 100 after ++ drop 100 after) as ->
      by (by rewrite take_drop, app_assoc).
    apply py_slice_mid; rewrite ?length_app, ?length_take, ?length_drop; lia.
Qed.

Lemma lower_char_idempotent c : lower_char (lower_char c) = lower_char c.
Proof. by destruct c as [[] [] [] [] [] [] [] []]. Qed.

Lemma lower_idempotent s : lower (lower s) = lower s.
Proof.
  induction s as [|c s IH]; cbn; [done|].
  by rewrite lower_char_idempotent, IH.
Qed.

(** X11. [resolve_device] never returns a device that is not there: the
    result is "cuda", "mps" or "cpu", "cuda" only when CUDA is available and
    "mps" only when MPS is; a warning is logged only when falling back to
    the CPU from an explicit request, never for "auto". *)
Theorem resolve_device_is_available device cuda mps resolved warnings :
  resolve_device device cuda mps = Ok (resolved, warnings) ->
  resolved ∈ ["cuda"; "mps"; "cpu"]
  /\ (resolved = "cuda" -> cuda = true)
  /\ (resolved = "mps" -> mps = true)
  /\ (warnings <> [] ->
      resolved = "cpu"
      /\ (lower device = "cuda" /\ cuda = false
             /\ warnings = [cuda_unavailable]
          \/ lower device = "mps" /\ mps = false
             /\ warnings = [mps_unavailable])).
Proof.
  unfold resolve_device.
  destruct (decide (lower device ∈ ["cuda"; "mps"; "cpu"; "auto"])) as [Hin|Hout].
  2: { by rewrite (bool_decide_eq_false_2 _ Hout). }
  rewrite (bool_decide_eq_true_2 _ Hin). cbn [negb].
  assert (lower device = "cuda" \/ lower device = "mps"
          \/ lower device = "cpu" \/ lower device = "auto") as Hcases
    by (rewrite !elem_of_cons, elem_of_nil in Hin; tauto).
  destruct Hcases as [-> | [-> | [-> | ->]]]; cbn;
    destruct cuda, mps; cbn; intros [= <- <-];
    (split; [rewrite !elem_of_cons; tauto|]); repeat split; try done; tauto.
Qed.

Lemma resolve_device_is_available_witness :
  "cpu" ∈ ["cuda"; "mps"; "cpu"]
  /\ ("cpu" = "cuda" -> false = true)
  /\ ("cpu" = "mps" -> true = true)
  /\ ([cuda_unavailable] <> [] ->
      "cpu" = "cpu"
      /\ (lower "CUDA" = "cuda" /\ false = false
             /\ [cuda_unavailable] = [cuda_unavailable]
          \/ lower "CUDA" = "mps" /\ true = false
             /\ [cuda_unavailable] = [mps_unavailable])).
Proof.
  apply (resolve_device_is_available "CUDA" false true "cpu" [cuda_unavailable]).
  reflexivity.
Defined.

(** X12. [resolve_device] returns exactly when the lowercased device name
    is one of "cuda", "mps", "cpu" and "auto"; and for an ASCII name it
    reads the name without regard to case, and the only exception is the
    [ValueError] that shows the lowercased name. *)
Theorem resolve_device_ignores_case device cuda mps :
  (is_ok (resolve_device device cuda mps) = true
   <-> lower device ∈ ["cuda"; "mps"; "cpu"; "auto"])
  /\ (is_ascii device = true ->
      resolve_device device cuda mps = resolve_device (lower device) cuda mps
      /\ (forall e, resolve_device device cuda mps = Raise e ->
                    e = ValueError ("invalid device " +:+ lower device))).
Proof.
  split; [|intros _; split].
  - unfold resolve_device.
    destruct (decide (lower device ∈ ["cuda"; "mps"; "cpu"; "auto"]))
      as [Hin|Hout].
    + rewrite (bool_decide_eq_true_2 _ Hin). cbn [negb]. split; [done|].
      intros _.
      destruct (String.eqb (lower device) "auto"),
        (String.eqb (lower device) "cuda"),
        (String.eqb (lower device) "mps"), cuda, mps; done.
    + rewrite (bool_decide_eq_false_2 _ Hout). done.
  - unfold resolve_device. by rewrite lower_idempotent.
  - intros e. unfold resolve_device.
    destruct (bool_decide (lower device ∈ ["cuda"; "mps"; "cpu"; "auto"]));
      cbn [negb]; [|congruence].
    destruct (String.eqb (lower device) "auto"),
      (String.eqb (lower device) "cuda"),
      (String.eqb (lower device) "mps"), cuda, mps; done.
Qed.

Lemma resolve_device_ignores_case_witness :
  resolve_device "Cuda:0" true false
  = resolve_device (lower "Cuda:0") true false
  /\ (forall e, resolve_device "Cuda:0" true false = Raise e ->
                e = ValueError ("invalid device " +:+ lower "Cuda:0")).
Proof.
  apply (resolve_device_ignores_case "Cuda:0" true false). reflexivity.
Defined.

Example resolve_device_invalid_name :
  resolve_device "Cuda:0" true false
  = Raise (ValueError "invalid device cuda:0").
Proof. reflexivity. Qed.

(** ** The modes of [RepresentationProjectionLayer.forward] *)

Section LayerModes.
Context {F : Type} `{Arith F} `{Elementary F} `{FromFloat F}.
Implicit Types (rnd : Randomness (F := F)) (features : list (tensor F))
  (chosen : tensor F).

Lemma Dropout_forward_dropped (d : Dropout (F := F)) training (x : tensor F) :
  Dropout_forward d training x
  = Tensor (shape x) (fun idx => dropped d training idx (data x idx)).
Proof. unfold Dropout_forward, dropped. by destruct training, x. Qed.

(** X13. With none of the three flags set the constructor raises only the
    [ValueError] of [nn.Dropout], for a probability outside [0, 1].  The
    layer it builds otherwise reads the chosen layer's hidden vector at
    sequence position 0 only: it returns a (batch, hidden) tensor whose
    entry [(b, o)] is the tanh of the dense projection of that vector (after
    dropout), and [event_tokens] is not looked at. *)
Theorem summary_token_features rnd name prob hsize layer heads head_size
    training features event_tokens f0 chosen B S :
  getitem_seq features 0 = Ok f0 ->
  2 <= ndim f0 ->
  getitem_seq features layer = Ok chosen ->
  shape chosen = [B; S; hsize] ->
  0 < S ->
  (accepted_probability prob = false ->
   RepresentationProjectionLayer_init rnd name prob hsize layer
     false false false heads head_size = Raise (ValueError_dropout prob))
  /\ (accepted_probability prob = true ->
      exists self linear out,
        RepresentationProjectionLayer_init rnd name prob hsize layer
          false false false heads head_size = Ok self
        /\ dense self = DenseLinear linear
        /\ RepresentationProjectionLayer_forward self training features
             event_tokens = Ok out
        /\ shape out = [B; hsize]
        /\ forall b o,
             data out [b; o]
             = ftanh
                 (fadd
                    (fsum hsize
                       (fun k =>
                          fmul (dropped (dropout self) training [b; k]
                                  (data chosen [b; 0; k]))
                               (weight linear [o; k])))
                    (bias linear [o]))).
Proof.
  intros Hf0 Hrank Hchosen Hshape HS.
  unfold RepresentationProjectionLayer_init.
  rewrite new_Dropout_accepted.
  split; intros Hprob; rewrite Hprob; [reflexivity|].
  cbn [mbind result_bind].
  rewrite andb_false_r. cbn [andb orb].
  eexists _, _, _. split; [reflexivity|]. split; [reflexivity|].
  unfold RepresentationProjectionLayer_forward.
  rewrite Hf0. cbn [mbind result_bind].
  unfold size. unfold ndim in Hrank.
  destruct (shape f0) as [|n0 [|n1 rest]] eqn:Hshape0; cbn in Hrank; try lia.
  cbn [lookup list_lookup mbind result_bind tokens tagger relations layer_to_use].
  rewrite Hchosen. cbn [mbind result_bind].
  unfold torch.getitem_ellipsis_0_all, torch.getitem, ndim. rewrite Hshape.
  cbn [length Nat.leb Nat.sub replicate app torch.index_map mbind result_bind].
  destruct (Nat.ltb_spec 0 S) as [_|]; [|lia].
  cbn [mbind result_bind dense Dense_forward dropout].
  rewrite Dropout_forward_dropped.
  unfold Linear_forward, ndim.
  cbn [shape length Nat.leb Nat.sub nth andb new_Linear in_features out_features].
  rewrite Nat.eqb_refl. cbn [mbind result_bind].
  split; [reflexivity|]. split; reflexivity.
Qed.

(** X14. In tagger mode (without the relations flag) the constructor
    raises only the [ValueError] of [nn.Dropout], for a probability outside
    [0, 1].  The layer it builds otherwise works on every position by
    itself: it returns a (batch, seq, hidden) tensor whose entry [(b, s, o)]
    is the tanh of the dense projection of the chosen layer's hidden vector
    at [(b, s)] (after dropout). *)
Theorem tagger_features_positionwise rnd name prob hsize layer heads head_size
    training features event_tokens f0 chosen B S :
  getitem_seq features 0 = Ok f0 ->
  2 <= ndim f0 ->
  getitem_seq features layer = Ok chosen ->
  shape chosen = [B; S; hsize] ->
  (accepted_probability prob = false ->
   RepresentationProjectionLayer_init rnd name prob hsize layer
     false true false heads head_size = Raise (ValueError_dropout prob))
  /\ (accepted_probability prob = true ->
      exists self linear out,
        RepresentationProjectionLayer_init rnd name prob hsize layer
          false true false heads head_size = Ok self
        /\ dense self = DenseLinear linear
        /\ RepresentationProjectionLayer_forward self training features
             event_tokens = Ok out
        /\ shape out = [B; S; hsize]
        /\ forall b s o,
             data out [b; s; o]
             = ftanh
                 (fadd
                    (fsum hsize
                       (fun k =>
                          fmul (dropped (dropout self) training [b; s; k]
                                  (data chosen [b; s; k]))
                               (weight linear [o; k])))
                    (bias linear [o]))).
Proof.
  intros Hf0 Hrank Hchosen Hshape.
  unfold RepresentationProjectionLayer_init.
  rewrite new_Dropout_accepted.
  split; intros Hprob; rewrite Hprob; [reflexivity|].
  cbn [mbind result_bind].
  rewrite andb_false_r. cbn [andb orb].
  eexists _, _, _. split; [reflexivity|]. split; [reflexivity|].
  unfold RepresentationProjectionLayer_forward.
  rewrite Hf0. cbn [mbind result_bind].
  unfold size. unfold ndim in Hrank.
  destruct (shape f0) as [|n0 [|n1 rest]] eqn:Hshape0; cbn in Hrank; try lia.
  cbn [lookup list_lookup mbind result_bind tokens tagger relations layer_to_use].
  rewrite Hchosen. cbn [mbind result_bind dense Dense_forward dropout].
  rewrite Dropout_forward_dropped.
  unfold Linear_forward, ndim. rewrite Hshape.
  cbn [shape length Nat.leb Nat.sub nth andb new_Linear in_features out_features].
  rewrite Nat.eqb_refl. cbn [mbind result_bind].
  split; [reflexivity|]. split; reflexivity.
Qed.

(** X15. The tagger flag is tested before the relations flag.  With both
    set and a positive head count the constructor raises only the
    [ValueError] of [nn.Dropout], for a probability outside [0, 1].  The
    layer it builds otherwise has the query and key projections of a
    relation layer and no dense layer, but its forward pass takes the tagger
    branch: the output is the tanh of the chosen layer's hidden states
    (after dropout), entry by entry, with no projection and no pairwise
    scores. *)
Theorem tagger_flag_wins_over_relations rnd name prob hsize layer heads
    head_size training features event_tokens f0 chosen :
  (0 < heads)%Z ->
  getitem_seq features 0 = Ok f0 ->
  2 <= ndim f0 ->
  getitem_seq features layer = Ok chosen ->
  (accepted_probability prob = false ->
   RepresentationProjectionLayer_init rnd name prob hsize layer
     false true true heads head_size = Raise (ValueError_dropout prob))
  /\ (accepted_probability prob = true ->
      exists self out,
        RepresentationProjectionLayer_init rnd name prob hsize layer
          false true true heads head_size = Ok self
        /\ is_Some (query self) /\ is_Some (key self)
        /\ dense self = Identity
        /\ RepresentationProjectionLayer_forward self training features
             event_tokens = Ok out
        /\ shape out = shape chosen
        /\ forall idx,
             data out idx
             = ftanh (dropped (dropout self) training idx (data chosen idx))).
Proof.
  intros Hheads Hf0 Hrank Hchosen.
  unfold RepresentationProjectionLayer_init.
  rewrite new_Dropout_accepted.
  split; intros Hprob; rewrite Hprob; [reflexivity|].
  cbn [mbind result_bind].
  destruct (Z.leb_spec heads 0) as [|_]; [lia|]. cbn [andb orb].
  eexists _, _. split; [reflexivity|].
  cbn [query key dense]. split; [by eexists|]. split; [by eexists|].
  split; [reflexivity|].
  unfold RepresentationProjectionLayer_forward.
  rewrite Hf0. cbn [mbind result_bind].
  unfold size. unfold ndim in Hrank.
  destruct (shape f0) as [|n0 [|n1 rest]] eqn:Hshape0; cbn in Hrank; try lia.
  cbn [lookup list_lookup mbind result_bind tokens tagger relations layer_to_use].
  rewrite Hchosen. cbn [mbind result_bind dense Dense_forward dropout].
  rewrite Dropout_forward_dropped.
  split; [reflexivity|]. split; reflexivity.
Qed.

(** X16. Token pooling cannot run without the mask: a layer in tokens
    mode called with [event_tokens = None] (the default of the model's
    [forward]) raises [AttributeError], whatever the hidden states are. *)
Theorem token_mode_needs_event_tokens
    (self : RepresentationProjectionLayer (F := F)) training features f0 :
  tokens self = true ->
  getitem_seq features 0 = Ok f0 ->
  2 <= ndim f0 ->
  RepresentationProjectionLayer_forward self training features None
  = Raise AttributeError.
Proof.
  intros Htokens Hf0 Hrank.
  unfold RepresentationProjectionLayer_forward.
  rewrite Hf0. cbn [mbind result_bind].
  unfold size. unfold ndim in Hrank.
  destruct (shape f0) as [|n0 [|n1 rest]] eqn:Hshape0; cbn in Hrank; try lia.
  cbn [lookup list_lookup mbind result_bind]. by rewrite Htokens.
Qed.
End LayerModes.

Lemma summary_token_features_witness :
  exists self linear out,
    RepresentationProjectionLayer_init example_rnd "feature_extractors.cls"
      0.5%float 1 (-1) false false false 12 64 = Ok self
    /\ dense self = DenseLinear linear
    /\ RepresentationProjectionLayer_forward self true
         [real_hidden; real_hidden] None = Ok out
    /\ shape out = [2; 1]
    /\ forall b o,
         data out [b; o]
         = ftanh
             (fadd
                (fsum 1
                   (fun k =>
                      fmul (dropped (dropout self) true [b; k]
                              (data real_hidden [b; 0; k]))
                           (weight linear [o; k])))
                (bias linear [o])).
Proof.
  destruct (summary_token_features example_rnd "feature_extractors.cls"
           0.5%float 1 (-1)%Z 12%Z 64 true [real_hidden; real_hidden] None
           real_hidden real_hidden 2 3)
    as [_ Hbuilt]; try reflexivity; try (cbn; lia).
  apply Hbuilt. reflexivity.
Defined.

Lemma tagger_features_positionwise_witness :
  exists self linear out,
    RepresentationProjectionLayer_init example_rnd "feature_extractors.tag"
      0.5%float 1 (-1) false true false 12 64 = Ok self
    /\ dense self = DenseLinear linear
    /\ RepresentationProjectionLayer_forward self false
         [real_hidden; real_hidden] None = Ok out
    /\ shape out = [2; 3; 1]
    /\ forall b s o,
         data out [b; s; o]
         = ftanh
             (fadd
                (fsum 1
                   (fun k =>
                      fmul (dropped (dropout self) false [b; s; k]
                              (data real_hidden [b; s; k]))
                           (weight linear [o; k])))
                (bias linear [o])).
Proof.
  destruct (tagger_features_positionwise example_rnd "feature_extractors.tag"
           0.5%float 1 (-1)%Z 12%Z 64 false [real_hidden; real_hidden] None
           real_hidden real_hidden 2 3)
    as [_ Hbuilt]; try reflexivity; try (cbn; lia).
  apply Hbuilt. reflexivity.
Defined.

Lemma tagger_flag_wins_over_relations_witness :
  exists self out,
    RepresentationProjectionLayer_init example_rnd "feature_extractors.tag"
      0.5%float 1 (-1) false true true 12 64 = Ok self
    /\ is_Some (query self) /\ is_Some (key self) /\ dense self = Identity
    /\ RepresentationProjectionLayer_forward self false
         [real_hidden; real_hidden] None = Ok out
    /\ shape out = shape real_hidden
    /\ forall idx,
         data out idx
         = ftanh (dropped (dropout self) false idx (data real_hidden idx)).
Proof.
  destruct (tagger_flag_wins_over_relations example_rnd "feature_extractors.tag"
           0.5%float 1 (-1)%Z 12%Z 64 false [real_hidden; real_hidden] None
           real_hidden real_hidden)
    as [_ Hbuilt]; try reflexivity; try (cbn; lia).
  apply Hbuilt. reflexivity.
Defined.

Lemma token_mode_needs_event_tokens_witness :
  match real_token_layer with
  | Ok self =>
      RepresentationProjectionLayer_forward self false [real_hidden] None
      = Raise AttributeError
  | Raise _ => False
  end.
Proof.
  unfold real_token_layer, RepresentationProjectionLayer_init.
  cbn [Z.leb Z.compare andb orb].
  apply (token_mode_needs_event_tokens _ false [real_hidden] real_hidden);
    try reflexivity; cbn; lia.
Defined.

(** ** The classification head *)

Section HeadFacts.
Context {F : Type} `{Arith F} `{Elementary F} `{FromFloat F}.

Lemma last_nth (shp : list nat) (width : nat) :
  last shp = Some width
  <-> 1 <= length shp /\ nth (length shp - 1) shp 0 = width.
Proof.
  induction shp as [|n shp IH] using rev_ind.
  - cbn. split; [done|lia].
  - rewrite last_snoc, length_app. cbn [length].
    replace (length shp + 1 - 1) with (length shp) by lia.
    rewrite app_nth2, Nat.sub_diag by lia. cbn.
    split; [intros [= ->]; split; [lia|done] | intros [_ ->]; done].
Qed.

(** X17. A classification head, built with a dropout probability that
    [nn.Dropout] accepts (the constructor raises its [ValueError]
    otherwise), maps the last axis of its input from its input width (the
    encoder's hidden size when the constructor is given a negative
    [hidden_size], the given size otherwise) to the number of labels and
    keeps the other axes, in either mode; an input whose last axis has
    another size, or that has no axis, raises [RuntimeError]. *)
Theorem ClassificationHead_forward_shape (rnd : Randomness (F := F)) name prob
    config_hidden_size num_labels hidden_size training features :
  shape <$> (head ← ClassificationHead_init rnd name prob config_hidden_size
                      num_labels hidden_size;
             ClassificationHead_forward head training features)
  = if accepted_probability prob
    then if bool_decide
              (last (shape features)
               = Some (if (hidden_size <? 0)%Z then config_hidden_size
                       else Z.to_nat hidden_size))
         then Ok (removelast (shape features) ++ [num_labels])
         else Raise RuntimeError
    else Raise (ValueError_dropout prob).
Proof.
  unfold ClassificationHead_init. rewrite new_Dropout_accepted.
  destruct (accepted_probability prob); [|reflexivity].
  cbn [mbind result_bind]. unfold ClassificationHead_forward.
  cbn [head_dropout out_proj].
  set (width := if (hidden_size <? 0)%Z then config_hidden_size
                else Z.to_nat hidden_size).
  unfold Linear_forward.
  match goal with
  | |- context [Dropout_forward ?d training features] =>
      assert (shape (Dropout_forward d training features) = shape features)
        as Hshape by (by destruct training)
  end.
  unfold ndim. rewrite Hshape.
  cbn [new_Linear in_features out_features].
  pose proof (last_nth (shape features) width) as Hlast.
  destruct (Nat.leb_spec 1 (length (shape features))) as [Hrank|Hrank];
    cbn [andb].
  - destruct (Nat.eqb_spec (nth (length (shape features) - 1)
                              (shape features) 0) width) as [Hw|Hw].
    + rewrite bool_decide_eq_true_2 by (apply Hlast; done).
      cbn. f_equal. f_equal.
      destruct (shape features) as [|n shp] using rev_ind; [cbn in Hrank; lia|].
      rewrite removelast_last, length_app. cbn [length].
      replace (length shp + 1 - 1) with (length shp) by lia.
      by rewrite take_app_length.
    + rewrite bool_decide_eq_false_2; [done|].
      intros Heq. apply Hlast in Heq as [_ ?]. done.
  - rewrite bool_decide_eq_false_2; [done|].
    intros Heq. apply Hlast in Heq as [? _]. lia.
Qed.
End HeadFacts.

(** ** The fan-in over a list of priors *)

Section FanInList.
Context {F : Type}.
Implicit Types (features prior : tensor F) (logits : list (tensor F)).

Lemma augment_loop_priors logits :
  forall features B S Hd,
    shape features = [B; S; S; Hd] ->
    Forall (fun prior => ndim prior = 3 -> exists L, shape prior = [B; S; L])
           logits ->
    exists out,
      augment_loop S features logits
      = Logged (map (fun prior => PriorShapeNotImplemented (shape prior))
                    (filter (fun prior => ndim prior <> 3) logits))
               (Ok out)
      /\ shape out = [B; S; S; Hd + fan_in_width logits]
      /\ (forall b i j k, k < Hd ->
            data out [b; i; j; k] = data features [b; i; j; k])
      /\ (forall n prior b i j k,
            logits !! n = Some prior -> ndim prior = 3 ->
            b < B -> i < S -> k < nth 2 (shape prior) 0 ->
            data out [b; i; j; Hd + fan_in_width (take n logits) + k]
            = data prior [b; i; k]).
Proof.
  induction logits as [|prior logits IH]; intros features B S Hd Hf Hpriors.
  - exists features. cbn. rewrite Nat.add_0_r. split_and!; try done.
  - apply Forall_cons in Hpriors as [Hprior Hpriors].
    cbn [augment_loop]. rewrite filter_cons.
    unfold fan_in_width. cbn [map sum_list]. fold (fan_in_width logits).
    destruct (decide (ndim prior = 3)) as [Hrank|Hrank].
    + destruct (Hprior Hrank) as [L Hp].
      destruct (augment_step_tagging S features prior B S Hd L Hf Hp)
        as (mid & Hstep & Hmid & Hold & Hnew).
      destruct (IH mid B S (Hd + L) Hmid Hpriors)
        as (out & Hloop & Hout & Hkeep & Hblocks).
      exists out. rewrite decide_False by (intros Hne; done).
      rewrite Hstep. logged_simpl. rewrite Hloop. cbn [outcome log app].
      split; [done|].
      rewrite Hrank, Hp. cbn [Nat.eqb nth].
      split; [by rewrite Hout, Nat.add_assoc|]. split.
      * intros b i j k Hk. rewrite Hkeep by lia. by apply Hold.
      * intros [|n] prior' b i j k Hl Hrank' Hb Hi Hk.
        -- injection Hl as <-. rewrite Hp in Hk. cbn in Hk.
           cbn [take]. unfold fan_in_width. cbn [map sum_list].
           rewrite Nat.add_0_r. rewrite Hkeep by lia. by apply Hnew.
        -- cbn [take]. unfold fan_in_width. cbn [map sum_list].
           fold (fan_in_width (take n logits)).
           rewrite Hrank, Hp. cbn [Nat.eqb nth].
           rewrite Nat.add_assoc. by apply (Hblocks n prior').
    + rewrite augment_step_unsupported
        by (left; split; [unfold ndim; by rewrite Hf|done]).
      destruct (IH features B S Hd Hf Hpriors)
        as (out & Hloop & Hout & Hkeep & Hblocks).
      exists out. rewrite decide_True by done.
      logged_simpl. rewrite Hloop. cbn [outcome log app map]. split.
      { unfold unsupported_warning, ndim. by rewrite Hf. }
      apply Nat.eqb_neq in Hrank as Hrank'. rewrite Hrank'.
      split; [done|]. split; [done|].
      intros [|n] prior' b i j k Hl Hrank'' Hb Hi Hk.
      * injection Hl as <-. done.
      * cbn [take]. unfold fan_in_width. cbn [map sum_list].
        fold (fan_in_width (take n logits)). rewrite Hrank'.
        by apply (Hblocks n prior').
Qed.

(** X18. The fan-in over any list of priors: a relation grid of shape
    (B, S, S, Hd) comes back with one block of columns per rank-3 prior, in
    the order of the list, each block holding the prior's logits of the
    row's token; the grid's own columns are kept; and every prior of
    another rank is skipped with one warning that shows its shape. *)
Theorem fan_in_over_priors features logits B S Hd :
  shape features = [B; S; S; Hd] ->
  Forall (fun prior => ndim prior = 3 -> exists L, shape prior = [B; S; L])
         logits ->
  exists out,
    predict_relations_with_previous_logits features logits
    = Logged (map (fun prior => PriorShapeNotImplemented (shape prior))
                  (filter (fun prior => ndim prior <> 3) logits))
             (Ok out)
    /\ shape out = [B; S; S; Hd + fan_in_width logits]
    /\ (forall b i j k, k < Hd ->
          data out [b; i; j; k] = data features [b; i; j; k])
    /\ (forall n prior b i j k,
          logits !! n = Some prior -> ndim prior = 3 ->
          b < B -> i < S -> k < nth 2 (shape prior) 0 ->
          data out [b; i; j; Hd + fan_in_width (take n logits) + k]
          = data prior [b; i; k]).
Proof.
  intros Hf Hpriors. unfold predict_relations_with_previous_logits.
  rewrite (size_lookup features 1 S) by (by rewrite Hf).
  destruct (augment_loop_priors logits features B S Hd Hf Hpriors)
    as (out & Hrun & Hrest).
  exists out. split; [|done]. logged_simpl. by rewrite Hrun.
Qed.
End FanInList.

Lemma fan_in_over_priors_witness :
  exists out,
    predict_relations_with_previous_logits example_grid
      [example_tag_logits; example_cls_logits; example_tag_logits]
    = Logged [PriorShapeNotImplemented [1; 2]] (Ok out)
    /\ shape out = [1; 2; 2; 1 + 2]
    /\ (forall b i j k, k < 1 ->
          data out [b; i; j; k] = data example_grid [b; i; j; k])
    /\ (forall n prior b i j k,
          [example_tag_logits; example_cls_logits; example_tag_logits] !! n
          = Some prior -> ndim prior = 3 ->
          b < 1 -> i < 2 -> k < nth 2 (shape prior) 0 ->
          data out [b; i; j;
                    1 + fan_in_width
                          (take n [example_tag_logits; example_cls_logits;
                                   example_tag_logits]) + k]
          = data prior [b; i; k]).
Proof.
  apply (fan_in_over_priors example_grid
           [example_tag_logits; example_cls_logits; example_tag_logits]
           1 2 1); [reflexivity|].
  repeat constructor; intros Hrank; try discriminate Hrank; by exists 1.
Defined.

Section FanInMismatch.
Context {F : Type}.
Implicit Types (features prior : tensor F) (logits : list (tensor F)).

(** X19. A rank-3 prior must have the grid's batch size and sequence
    length, and the grid must be square: otherwise the concatenation fails
    and the fan-in raises [RuntimeError] at that prior, without a warning
    and whatever priors follow. *)
Theorem fan_in_mismatched_prior_raises features prior logits B S T Hd B' S' L :
  shape features = [B; S; T; Hd] ->
  shape prior = [B'; S'; L] ->
  (B', S', S) <> (B, S, T) ->
  predict_relations_with_previous_logits features (prior :: logits)
  = Logged [] (Raise RuntimeError).
Proof.
  intros Hf Hp Hne. unfold predict_relations_with_previous_logits.
  rewrite (size_lookup features 1 S) by (by rewrite Hf).
  logged_simpl. cbn [augment_loop]. unfold augment_step, ndim.
  rewrite Hf, Hp. cbn [length Nat.eqb].
  rewrite unsqueeze_ok by (unfold ndim; rewrite Hp; cbn; lia).
  logged_simpl.
  rewrite repeat_same_rank by (unfold ndim; cbn; by rewrite Hp).
  logged_simpl.
  unfold torch.cat, torch.shapes_agree_except, ndim. rewrite Hf, Hp.
  cbn [shape insert_at length Nat.ltb Nat.leb Nat.eqb andb zip_with seq
       forallb nth orb take drop app].
  rewrite !Nat.mul_1_r, Nat.mul_1_l.
  destruct (Nat.eqb_spec B B') as [->|?], (Nat.eqb_spec S S') as [->|?],
    (Nat.eqb_spec T S') as [->|?]; cbn [andb]; try done.
Qed.
End FanInMismatch.

Lemma fan_in_mismatched_prior_raises_witness :
  predict_relations_with_previous_logits example_grid
    [of_list3 0%Z [[[10%Z]]]; example_tag_logits]
  = Logged [] (Raise RuntimeError).
Proof.
  apply (fan_in_mismatched_prior_raises example_grid
           (of_list3 0%Z [[[10%Z]]]) [example_tag_logits] 1 2 2 1 1 1 1);
    [reflexivity | reflexivity | discriminate].
Defined.

(** ** The model constructor *)

Section ConstructorFacts.
Context {F : Type} `{Arith F} `{Elementary F} `{FromFloat F} `{LossFunctions F}.
Implicit Types (rnd : Randomness (F := F)) (config : CnlpConfig)
  (items : list (string * list string)) (attrs : gset string).




Lemma add_module_Ok {M} attrs (modules modules' : gmap string M) name
    (module : M) :
  add_module attrs modules name module = Ok modules' ->
  modules' = <[name := module]> modules.
Proof.
  unfold add_module.
  destruct (bool_decide (name ∈ attrs) && negb (bool_decide (name ∈ dom modules)));
    [done|].
  destruct (contains "." name); [done|].
  destruct (String.eqb name ""); [done|]. by intros [= <-].
Qed.

Lemma build_heads_spec attrs rnd config items :
  forall total extractors heads extractors' heads',
    build_heads attrs rnd config items total extractors heads
    = Ok (extractors', heads') ->
    NoDup items.*1 ->
    (forall task, task ∉ items.*1 ->
       extractors' !! task = extractors !! task
       /\ heads' !! task = heads !! task)
    /\ (forall n task labels,
          items !! n = Some (task, labels) ->
          exists extractor head is_relation,
            extractors' !! task = Some extractor
            /\ heads' !! task = Some head
            /\ config_relations config !! task = Some is_relation
            /\ relations extractor = is_relation
            /\ out_features (out_proj head) = length labels
            /\ in_features (out_proj head)
               = head_width config is_relation
                   (total + labels_before items n)).
Proof.
  induction items as [|[task0 labels0] items IH];
    intros total extractors heads extractors' heads' Hrun Hnodup.
  - cbn in Hrun. injection Hrun as <- <-. split; [done|]. by intros [|?].
  - cbn [build_heads] in Hrun.
    apply bind_Ok in Hrun as (is_tagger & Htagger & Hrun).
    apply bind_Ok in Hrun as (is_relation & Hrelation & Hrun).
    apply bind_Ok in Hrun as (extractor & Hextractor & Hrun).
    apply bind_Ok in Hrun as (extractors1 & ->%add_module_Ok & Hrun).
    apply bind_Ok in Hrun as (head & Hhead & Hrun).
    apply bind_Ok in Hrun as (heads1 & ->%add_module_Ok & Hrun).
    cbn [fmap list_fmap fst] in Hnodup.
    apply NoDup_cons in Hnodup as [Hfresh Hnodup].
    destruct (IH _ _ _ _ _ Hrun Hnodup) as [Hother Hitems].
    split.
    + intros task Hout. cbn [fmap list_fmap fst] in Hout.
      apply not_elem_of_cons in Hout as [Hne Hout].
      destruct (Hother task Hout) as [-> ->].
      by rewrite !lookup_insert_ne.
    + intros [|n] task labels Hl.
      * injection Hl as -> ->.
        destruct (Hother task Hfresh) as [-> ->].
        rewrite !lookup_insert_eq.
        exists extractor, head, is_relation.
        unfold ClassificationHead_init in Hhead.
        apply bind_Ok in Hhead as (dropout & _ & Hhead).
        injection Hhead as <-.
        split_and!; try done.
        -- by apply getitem_dict_Ok.
        -- unfold RepresentationProjectionLayer_init in Hextractor.
           apply bind_Ok in Hextractor as (dropout' & _ & Hextractor).
           destruct ((num_rel_attention_heads config <=? 0)%Z && is_relation);
             [done|].
           destruct (config_tokens config && (is_tagger || is_relation));
             [done|].
           by injection Hextractor as <-.
        -- unfold labels_before. cbn [take map sum_list]. rewrite Nat.add_0_r.
           unfold head_width.
           cbn [out_proj new_Linear in_features].
           pose proof (RepresentationProjectionLayer_init_raises rnd
                         ("feature_extractors." +:+ task)
                         (hidden_dropout_prob config) (config_hidden_size config)
                         (layer config) (config_tokens config) is_tagger
                         is_relation (num_rel_attention_heads config)
                         (rel_attention_head_dims config)) as Hflags.
           rewrite Hextractor in Hflags. cbn [is_ok] in Hflags.
           symmetry in Hflags. apply andb_true_iff in Hflags as [_ Hflags].
           apply negb_true_iff in Hflags.
           unfold invalid_layer_flags in Hflags.
           apply orb_false_iff in Hflags as [_ Hheads].
           destruct is_relation; [|done]. cbn in Hheads.
           apply Z.leb_gt in Hheads.
           destruct (config_use_prior_tasks config).
           ++ destruct (Z.ltb_spec (num_rel_attention_heads config
                                    + Z.of_nat total) 0) as [Hneg|_];
                [exfalso; lia|].
              rewrite Z2Nat.inj_add by lia. by rewrite Nat2Z.id.
           ++ destruct (Z.ltb_spec (num_rel_attention_heads config) 0)
                as [Hneg|_]; [exfalso; lia|]. by rewrite Nat.add_0_r.
      * destruct (Hitems n task labels Hl)
          as (extractor' & head' & rl & ? & ? & ? & ? & ? & Hwidth).
        exists extractor', head', rl. split_and!; try done.
        rewrite Hwidth. f_equal. unfold labels_before.
        cbn [take map sum_list snd]. unfold id.
        by rewrite Nat.add_assoc.
Qed.

(** X21. What the constructor builds for the task at position [n] of the
    label dictionary: an extractor with the task's relations flag and a
    classification head with one output per label.  The head of a relation
    task reads [num_rel_attention_heads] features, plus, with
    [use_prior_tasks], one for every label of every task before it; any
    other head reads [hidden_size] features. *)
Theorem model_init_heads attrs rnd enc config weights final_weight train
    model n task labels :
  CnlpModelForClassification_init attrs rnd enc config weights final_weight
    train = Ok model ->
  NoDup (config_label_dictionary config).*1 ->
  config_label_dictionary config !! n = Some (task, labels) ->
  exists extractor head is_relation,
    feature_extractors model !! task = Some extractor
    /\ classifiers model !! task = Some head
    /\ config_relations config !! task = Some is_relation
    /\ relations extractor = is_relation
    /\ out_features (out_proj head) = length labels
    /\ in_features (out_proj head)
       = head_width config is_relation
           (labels_before (config_label_dictionary config) n).
Proof.
  unfold CnlpModelForClassification_init.
  intros Hrun Hnodup Hl.
  apply bind_Ok in Hrun as (depth & _ & Hrun).
  destruct (Z.of_nat depth <? layer config)%Z; [done|].
  apply bind_Ok in Hrun as ([extractors heads] & Hbuild & Hrun).
  injection Hrun as <-. cbn [feature_extractors classifiers].
  destruct (build_heads_spec _ _ _ _ _ _ _ _ _ Hbuild Hnodup) as [_ Hitems].
  apply (Hitems n task labels Hl).
Qed.
End ConstructorFacts.

Lemma model_init_heads_witness :
  match CnlpModelForClassification_init module_dict_attributes
                     example_rnd example_encoder
          (example_config (-1)) None 1%R false with
  | Ok model =>
      exists extractor head is_relation,
        feature_extractors model !! "rel" = Some extractor
        /\ classifiers model !! "rel" = Some head
        /\ config_relations (example_config (-1)) !! "rel" = Some is_relation
        /\ relations extractor = is_relation
        /\ out_features (out_proj head) = 2
        /\ in_features (out_proj head)
           = head_width (example_config (-1)) is_relation
               (labels_before
                  (config_label_dictionary (example_config (-1))) 1)
  | Raise _ => False
  end.
Proof.
  destruct (CnlpModelForClassification_init module_dict_attributes
                     example_rnd example_encoder
              (example_config (-1)) None 1%R false) as [model|e] eqn:Hinit.
  - apply (model_init_heads module_dict_attributes example_rnd example_encoder
             (example_config (-1)) None 1%R false model 1 "rel"
             ["None"; "Before"] Hinit);
      [|reflexivity].
    apply (bool_decide_unpack
             (NoDup (config_label_dictionary (example_config (-1))).*1)).
    vm_compute. exact I.
  - assert (is_ok (CnlpModelForClassification_init module_dict_attributes
                     example_rnd example_encoder
                     (example_config (-1)) None 1%R false) = true) as Hok
      by (vm_compute; reflexivity).
    rewrite Hinit in Hok. discriminate Hok.
Defined.

(** ** Where the tasks read their labels *)

Section LabelFacts.
Context {F : Type} `{Arith F} `{LossFunctions F}.
Implicit Types (self : CnlpModelForClassification (F := F))
  (state : LossState (F := F)) (labels task_logits : tensor F).

(** X22. At the edge of a rank-3 label tensor with [W] columns the two
    cursor-addressed reads differ.  The slice of a relation task never
    raises: it is cut off at [W], so it may hold fewer than [seq_len]
    columns, or none.  The single column of a tagging task must exist: the
    read succeeds exactly when the cursor is below [W]. *)
Theorem cursor_reads_at_the_edge labels state seq_len B S W :
  shape labels = [B; S; W] ->
  (exists t,
      relation_labels labels state seq_len = Ok t
      /\ shape t = [B; S; Nat.min (task_label_ind state + seq_len) W
                          - Nat.min (task_label_ind state) W]
      /\ forall b i j,
           data t [b; i; j]
           = data labels [b; i; Nat.min (task_label_ind state) W + j])
  /\ (is_ok (tagger_labels labels state) = true <-> task_label_ind state < W)
  /\ (W <= task_label_ind state ->
      tagger_labels labels state = Raise IndexError).
Proof.
  intros Hshape. split_and!.
  - unfold relation_labels, torch.getitem. rewrite Hshape.
    cbn [torch.index_map mbind result_bind].
    eexists. split; [reflexivity|]. split; reflexivity.
  - unfold tagger_labels, torch.getitem, ndim. rewrite Hshape.
    cbn [length Nat.eqb torch.index_map mbind result_bind].
    destruct (Nat.ltb_spec (task_label_ind state) W); cbn; split; (done || lia).
  - intros Hout. unfold tagger_labels, torch.getitem, ndim. rewrite Hshape.
    cbn [length Nat.eqb torch.index_map mbind result_bind].
    destruct (Nat.ltb_spec (task_label_ind state) W); [lia|done].
Qed.

(** X23. The labels of a plain classification task are read for label
    tensors of rank 1, 2 and 3; [NotImplementedError] is raised exactly for
    the other ranks, and a rank-1 tensor is taken whole, whatever the task
    index is. *)
Theorem classification_labels_by_rank labels task_ind :
  (classification_labels labels task_ind
   = Raise (NotImplementedError not_implemented_mtl)
   <-> ndim labels = 0 \/ 4 <= ndim labels)
  /\ (forall msg, classification_labels labels task_ind
                  = Raise (NotImplementedError msg) ->
                  msg = not_implemented_mtl)
  /\ (ndim labels = 1 -> classification_labels labels task_ind = Ok labels).
Proof.
  unfold classification_labels.
  assert (forall spec msg,
             torch.getitem labels spec <> Raise (NotImplementedError msg))
    as Hgetitem.
  { intros spec msg Heq. destruct (getitem_raises labels spec) as [Honly].
    destruct (Honly _ Heq) as [?|[?|?]]; discriminate. }
  destruct (ndim labels) as [|[|[|[|rank]]]]; cbn [Nat.eqb].
  - split_and!; [split; [lia|done] | by intros ? [= <-] | done].
  - split_and!; [split; [done|lia] | done | done].
  - split_and!; [split; [by intros ?%Hgetitem|lia]
                | by intros ? ?%Hgetitem | done].
  - split_and!; [split; [by intros ?%Hgetitem|lia]
                | by intros ? ?%Hgetitem | done].
  - split_and!; [split; [lia|done] | by intros ? [= <-] | done].
Qed.

(** X24. For a regression task (one label) [compute_loss] reads neither
    the class weights nor the relations and tagger flags of the task: two
    models with the same task list and final-task weight compute the same
    result. *)
Theorem regression_reads_no_task_dict self self' task_logits labels task_ind
    batch_size seq_len state :
  tasks self = tasks self' ->
  final_task_weight self = final_task_weight self' ->
  compute_loss self task_logits labels task_ind 1 batch_size seq_len state
  = compute_loss self' task_logits labels task_ind 1 batch_size seq_len state.
Proof.
  intros Htasks Hweight. unfold compute_loss, task_loss_and_cursor.
  by rewrite Htasks, Hweight.
Qed.
End LabelFacts.

Lemma cursor_reads_at_the_edge_witness :
  (exists t,
      relation_labels rel_then_cls_labels (advance 2 initial_state) 2 = Ok t
      /\ shape t = [1; 2; Nat.min (2 + 2) 3 - Nat.min 2 3]
      /\ forall b i j,
           data t [b; i; j] = data rel_then_cls_labels [b; i; Nat.min 2 3 + j])
  /\ (is_ok (tagger_labels rel_then_cls_labels (advance 2 initial_state)) = true
      <-> 2 < 3)
  /\ (3 <= 2 ->
      tagger_labels rel_then_cls_labels (advance 2 initial_state)
      = Raise IndexError).
Proof.
  apply (cursor_reads_at_the_edge rel_then_cls_labels
           (advance 2 initial_state) 2 1 2 3).
  reflexivity.
Defined.

Lemma regression_reads_no_task_dict_witness :
  compute_loss single_task regression_logits regression_labels 0 1 2 1
    initial_state
  = compute_loss (loss_model ["reg"] ∅ ∅ (1 / 2)%R) regression_logits
      regression_labels 0 1 2 1 initial_state.
Proof.
  apply (regression_reads_no_task_dict single_task
           (loss_model ["reg"] ∅ ∅ (1 / 2)%R));
    reflexivity.
Defined.

(** ** What [forward] passes to the encoder and returns from it *)

Section ForwardCall.
Context {F : Type} `{Arith F} `{Elementary F} `{LossFunctions F}.
Implicit Types (self : CnlpModelForClassification (F := F))
  (inp : ForwardInputs (F := F)).

Lemma passed_kwargs_lookup self inp name value :
  passed_kwargs self inp !! name = Some value
  <-> name ∈ forward_parameters (encoder self)
      /\ (name, value) ∈ encoder_kwargs inp.
Proof.
  unfold passed_kwargs. rewrite generalize_dict, map_lookup_filter_Some.
  cbn [fst]. rewrite <- elem_of_list_to_map.
  - rewrite elem_of_reverse. tauto.
  - rewrite fmap_reverse, reverse_Permutation.
    unfold encoder_kwargs. cbn [fmap list_fmap fst].
    apply (bool_decide_unpack _). vm_compute. exact I.
Qed.

(** X25. When [forward] returns, the encoder was called on [input_ids]
    with exactly those of the eight keyword arguments that its signature
    accepts, among them [output_hidden_states = True] whatever the caller
    asked for; [input_ids] has rank 2; the attentions of the encoder are
    handed on as they are, and its hidden states are returned in training
    mode only. *)
Theorem forward_encoder_call self inp out :
  outcome (forward self inp) = Ok out ->
  exists outputs batch_size seq_len,
    encoder_call (encoder self) (input_ids inp) (passed_kwargs self inp)
    = Ok outputs
    /\ (forall name value,
          passed_kwargs self inp !! name = Some value
          <-> name ∈ forward_parameters (encoder self)
              /\ (name, value) ∈ encoder_kwargs inp)
    /\ ("output_hidden_states" ∈ forward_parameters (encoder self) ->
        passed_kwargs self inp !! "output_hidden_states"
        = Some (Some (PyBool true)))
    /\ shape (input_ids inp) = [batch_size; seq_len]
    /\ out_attentions out = attentions outputs
    /\ out_hidden_states out
       = (if training self then Some (hidden_states outputs) else None).
Proof.
  unfold forward, passed_kwargs.
  pose proof (passed_kwargs_lookup self inp) as Hlookup.
  unfold passed_kwargs in Hlookup.
  destruct (generalize_encoder_forward_kwargs _ _ _) as [kwargs warnings].
  cbn [fst] in Hlookup |- *. intros Hrun.
  apply logged_bind_Ok in Hrun as (_ & _ & Hrun).
  apply logged_bind_Ok in Hrun as (outputs & Hcall & Hrun).
  apply logged_bind_Ok in Hrun as ([batch_size seq_len] & Hshape & Hrun).
  apply logged_bind_Ok in Hrun as (names & _ & Hrun).
  apply logged_bind_Ok in Hrun as ([logits state] & _ & Hrun).
  cbn in Hrun. injection Hrun as <-.
  exists outputs, batch_size, seq_len. split_and!; try done.
  - intros Hin. apply Hlookup. split; [done|].
    unfold encoder_kwargs. rewrite !elem_of_cons. tauto.
  - cbn in Hshape. unfold unpack2 in Hshape.
    destruct (shape (input_ids inp)) as [|a [|b [|c rest]]]; try done.
    by injection Hshape as -> ->.
Qed.
End ForwardCall.

Lemma forward_encoder_call_witness :
  exists model out,
    CnlpModelForClassification_init module_dict_attributes example_rnd
      example_encoder regression_config None 1%R false = Ok model
    /\ outcome (forward model (example_input None)) = Ok out
    /\ exists outputs batch_size seq_len,
         encoder_call (encoder model) (input_ids (example_input None))
           (passed_kwargs model (example_input None))
         = Ok outputs
         /\ (forall name value,
               passed_kwargs model (example_input None) !! name = Some value
               <-> name ∈ forward_parameters (encoder model)
                   /\ (name, value) ∈ encoder_kwargs (example_input None))
         /\ ("output_hidden_states" ∈ forward_parameters (encoder model) ->
             passed_kwargs model (example_input None) !! "output_hidden_states"
             = Some (Some (PyBool true)))
         /\ shape (input_ids (example_input None)) = [batch_size; seq_len]
         /\ out_attentions out = attentions outputs
         /\ out_hidden_states out
            = (if training model then Some (hidden_states outputs) else None).
Proof.
  destruct (CnlpModelForClassification_init module_dict_attributes example_rnd
              example_encoder regression_config None 1%R false)
    as [model|e] eqn:Hinit; [|exfalso; vm_compute in Hinit; discriminate Hinit].
  assert (is_ok (outcome
                   (model ← lift (CnlpModelForClassification_init
                                    module_dict_attributes example_rnd
                                    example_encoder regression_config
                                    None 1%R false);
                    forward model (example_input None)))
          = true) as Hok by (vm_compute; reflexivity).
  rewrite Hinit in Hok. unfold mbind, logged_bind, lift in Hok.
  cbn [outcome] in Hok.
  destruct (outcome (forward model (example_input None)))
    as [out|e] eqn:Hrun; [|discriminate Hok].
  exists model, out. split; [reflexivity|]. split; [exact Hrun|].
  apply forward_encoder_call, Hrun.
Defined.
